(** * polybot: account-state synchronisation, reconciliation and
      idempotent order execution

    A shallow embedding of the trading core of the repository:

    - [state.ts] (class [StateManager]; the file [unnamed/part_006]),
    - [executor.ts] (class [OrderExecutor]; second part of
      [src/trading/index.ts]),
    - [schema.ts] (tables [live_trades] and [order_tracking]; second part
      of [src/trading/run.ts]),
    - [src/strategy/convergence.ts] (class [ConvergenceStrategy]),
    - [bot.ts] ([TradingBot.processOpportunity] and [logTrade]; second
      part of [src/trading/bot.ts]),
    - [engine.ts] (the simulation loop of [BacktestEngine.run]; the file
      [unnamed/part_000]).

    JavaScript numbers are IEEE-754 binary64 values and are embedded as
    Rocq's primitive [float]; instants (what [Date.now()] returns, and the
    ISO strings made from it) are embedded as [Z] milliseconds; [null] and
    [undefined] are both [None].  The asynchronous methods are embedded in
    a state-and-exception monad over a [World] that holds the SQLite
    ledger, the in-memory fields of the two objects, and a log of every
    effect that leaves the process.  What the outside answers (the clock,
    the venue, the RPC node, the Data API) is an oracle [Env] indexed by a
    logical tick that advances at every interaction.  [console.*] calls
    are dropped. *)

From Stdlib Require Import ZArith Floats DecimalString Ascii String.
From stdpp Require Import gmap strings list.

Set Default Proof Using "Type".
Local Open Scope Z_scope.

(** ** JavaScript prelude *)

Module JS.

(** [Boolean(x)] for a number: false for NaN, [+0] and [-0]. *)
Definition truthy_num (x : float) : bool :=
  negb (PrimFloat.is_nan x || PrimFloat.eqb x 0%float).

(** [Boolean(s)] for a string: false for the empty string. *)
Definition truthy_str (s : string) : bool :=
  negb (String.eqb s "").

(** [Boolean(x)] for a possibly missing string. *)
Definition truthy_ostr (s : option string) : bool :=
  match s with Some s => truthy_str s | None => false end.

(** [a || b] on numbers. *)
Definition or_num (a : option float) (b : float) : float :=
  match a with
  | Some x => if truthy_num x then x else b
  | None => b
  end.

(** [a || b] where both operands may be missing strings. *)
Definition or_ostr (a b : option string) : option string :=
  if truthy_ostr a then a else b.

(** [a || 'literal']. *)
Definition or_str (a : option string) (b : string) : string :=
  match a with
  | Some s => if truthy_str s then s else b
  | None => b
  end.

(** [Math.max(a, b)]: NaN if either argument is NaN, and [+0] is larger
    than [-0]. *)
Definition Math_max (a b : float) : float :=
  if PrimFloat.is_nan a || PrimFloat.is_nan b then nan
  else if PrimFloat.ltb a b then b
  else if PrimFloat.ltb b a then a
  else if PrimFloat.is_zero a && PrimFloat.get_sign a then b
  else a.

(** [Math.min(a, b)]: NaN if either argument is NaN, and [-0] is smaller
    than [+0]. *)
Definition Math_min (a b : float) : float :=
  if PrimFloat.is_nan a || PrimFloat.is_nan b then nan
  else if PrimFloat.ltb a b then a
  else if PrimFloat.ltb b a then b
  else if PrimFloat.is_zero a && PrimFloat.get_sign a then a
  else b.

(** [Number(n)] for a BigInt [n]: the nearest binary64 value. *)
Definition Number_of_BigInt (n : Z) : float :=
  SF2Prim (binary_normalize prec emax n 0 false).

(** [String(n)] for an integer-valued number. *)
Definition String_of_int (n : Z) : string :=
  NilZero.string_of_int (Z.to_int n).

(** [Math.floor(a / b)] on integer-valued numbers, [b > 0]. *)
Definition floor_div (a b : Z) : Z := a / b.

Definition hex_digit (n : N) : ascii :=
  match n with
  | 0 => "0" | 1 => "1" | 2 => "2" | 3 => "3" | 4 => "4" | 5 => "5"
  | 6 => "6" | 7 => "7" | 8 => "8" | 9 => "9" | 10 => "a" | 11 => "b"
  | 12 => "c" | 13 => "d" | 14 => "e" | _ => "f"
  end%N%char.

(** [buf.toString('hex')]: two lower-case digits per byte. *)
Fixpoint Buffer_toHex (bs : list Byte.byte) : string :=
  match bs with
  | [] => ""
  | b :: bs =>
      let n := Byte.to_N b in
      String (hex_digit (n / 16)%N)
        (String (hex_digit (n mod 16)%N) (Buffer_toHex bs))
  end.

(** [s.toUpperCase()] on ASCII letters. *)
Definition upper_ascii (c : ascii) : ascii :=
  let n := Ascii.N_of_ascii c in
  if ((97 <=? n) && (n <=? 122))%N then Ascii.ascii_of_N (n - 32) else c.

Fixpoint toUpperCase (s : string) : string :=
  match s with
  | EmptyString => EmptyString
  | String c s => String (upper_ascii c) (toUpperCase s)
  end.

(** [Number.prototype.toString] and [toFixed(2)] are the runtime's
    shortest-round-trip and fixed-point printers; the executor only
    splices their output into keys and messages, so they are taken as
    an interface of the runtime. *)
Class NumberFormat := {
  Number_toString : float -> string;
  Number_toFixed2 : float -> string
}.

End JS.

Export JS.

(** ** The ledger: tables [order_tracking] and [live_trades] *)

Inductive TokenSide := YES | NO.
Inductive OrderSide := BUY | SELL.

Definition TokenSide_str (s : TokenSide) : string :=
  match s with YES => "YES" | NO => "NO" end.

Definition TokenSide_eqb (a b : TokenSide) : bool :=
  match a, b with YES, YES | NO, NO => true | _, _ => false end.

(** [status TEXT CHECK (status IN ('created','submitted','live','filled',
    'cancelled','failed'))] *)
Inductive OrderStatus :=
| created | submitted | live | filled | cancelled | failed.

(** [status TEXT CHECK (status IN ('pending','open','closed','cancelled',
    'unknown'))] *)
Inductive TradeStatus :=
| pending | open | closed | trade_cancelled | unknown.

(** A row of [order_tracking].  [CURRENT_TIMESTAMP] values are instants. *)
Record OrderTracking := mkOrderTracking {
  ot_id : Z;
  ot_order_id : option string;
  ot_market_id : string;
  ot_token_id : string;
  ot_side : OrderSide;
  ot_price : float;
  ot_size : float;
  ot_order_type : string;
  ot_status : OrderStatus;
  ot_polymarket_status : option string;
  ot_idempotency_key : option string;
  ot_created_at : Z;
  ot_updated_at : Z;
  ot_filled_at : option Z;
  ot_error_message : option string
}.

(** A row of [live_trades].  The columns that no statement of the state
    manager or of the executor names ([question], [exit_price],
    [exit_time], [pnl], [exit_reason], the market profile and the
    resolution columns) stay [NULL] there and are left out.  [side] is
    kept as text: the table's [CHECK (side IN ('YES','NO'))] is what
    rejects anything else. *)
Record LiveTrade := mkLiveTrade {
  lt_id : Z;
  lt_market_id : string;
  lt_token_id : option string;
  lt_side : string;
  lt_entry_price : option float;
  lt_size : float;
  lt_size_usd : option float;
  lt_status : TradeStatus;
  lt_entry_time : option Z;
  lt_order_id : option string;
  lt_notes : option string;
  lt_created_at : Z;
  lt_updated_at : Z
}.

(** ** Account state ([state.ts]) *)

(** [OpenOrder] of the CLOB client.  The three numeric fields arrive as
    strings and are only ever read through [parseFloat]; they are held as
    the numbers [parseFloat] yields. *)
Record OpenOrder := mkOpenOrder {
  oo_id : string;
  oo_market : string;
  oo_original_size : float;
  oo_size_matched : float;
  oo_price : float
}.

Record Position := mkPosition {
  pos_marketId : string;
  pos_tokenId : string;
  pos_side : string;
  pos_size : float;
  pos_avgEntryPrice : float;
  pos_currentValue : float;
  pos_currentPrice : float;
  pos_unrealizedPnl : float;
  pos_entryTime : Z;
  pos_question : option string
}.

Inductive SyncSource := api | cache.

Record AccountState := mkAccountState {
  balance : float;
  allowance : float;
  positions : list Position;
  openOrders : list OpenOrder;
  lastSyncTime : Z;
  syncSource : SyncSource
}.

(** [{ ...s, syncSource: 'cache' }] *)
Definition as_cache (s : AccountState) : AccountState :=
  mkAccountState (balance s) (allowance s) (positions s) (openOrders s)
                 (lastSyncTime s) cache.

(** ** What the outside answers *)

(** One element of the Data API's [/positions] array; any field may be
    missing. *)
Record RawPosition := mkRawPosition {
  raw_conditionId : string;
  raw_asset : string;
  raw_outcome : option string;
  raw_size : option float;
  raw_avgPrice : option float;
  raw_currentValue : option float;
  raw_curPrice : option float;
  raw_cashPnl : option float;
  raw_title : option string
}.

(** [client.getBalanceAllowance]: it throws, or [parseFloat(result.balance)]
    is the given number (NaN when the field is missing or unreadable). *)
Inductive BalanceResponse :=
| BalanceThrows (msg : string)
| BalanceIs (parsed : float).

(** The [eth_call] to the Polygon RPC node: [fetch], [response.json()] or
    [BigInt(...)] throws; or [result.result] is falsy; or it is the
    integer read by [BigInt]. *)
Inductive RpcResponse :=
| RpcThrows (msg : string)
| RpcNoResult
| RpcResult (balanceWei : Z).

(** [client.getOpenOrders]: throws, or returns a falsy value, or a list. *)
Inductive OpenOrdersResponse :=
| OrdersThrow (msg : string)
| OrdersNull
| OrdersAre (l : list OpenOrder).

(** [fetch(DATA_API_URL/positions)]: [fetch] or [json()] throws, or the
    response is not [ok], or the body is falsy, or it is an array. *)
Inductive PositionsResponse :=
| PositionsThrow (msg : string)
| PositionsNotOk (status : Z)
| PositionsNull
| PositionsAre (l : list RawPosition).

Inductive OrderType := FOK.

(** Argument of [client.createAndPostMarketOrder]. *)
Record MarketOrderArgs := mkMarketOrderArgs {
  arg_tokenID : string;
  arg_amount : float;
  arg_side : OrderSide;
  arg_orderType : OrderType
}.

(** What the venue returns for a posted order. *)
Record VenueResult := mkVenueResult {
  res_orderID : option string;
  res_orderId : option string;
  res_status : option string;
  res_errorMsg : option string
}.

Inductive SubmitResponse :=
| SubmitThrows (msg : string)
| SubmitReturns (r : option VenueResult).

Inductive CancelResponse :=
| CancelThrows (msg : string)
| CancelDone.

(** The oracle.  Every field is indexed by the tick at which the question
    is asked, so two askings may be answered differently. *)
Record Env := mkEnv {
  env_now : nat -> Z;
  env_randomBytes : nat -> nat -> list Byte.byte;
  env_getBalanceAllowance : nat -> BalanceResponse;
  env_polygonRpc : nat -> RpcResponse;
  env_getOpenOrders : nat -> OpenOrdersResponse;
  env_dataApiPositions : nat -> PositionsResponse;
  env_createAndPostMarketOrder : nat -> MarketOrderArgs -> SubmitResponse;
  env_cancelAll : nat -> CancelResponse
}.

(** ** The world *)

(** Everything that leaves the process or changes the ledger, in the
    order in which it happens. *)
Inductive Event :=
| EvGetBalanceAllowance
| EvPolygonRpc
| EvGetOpenOrders
| EvDataApiPositions
| EvCreateAndPostMarketOrder (args : MarketOrderArgs)
                             (answer : SubmitResponse)
| EvCancelAll
| EvInsertOrderTracking (key : string)
| EvUpdateOrderTracking (key : string) (st : OrderStatus)
| EvInsertLiveTrade (market : string)
| EvUpdateLiveTrade (id : Z)
| EvPendingAdd (k : string)
| EvPendingDelete (k : string).

(** The external submission is the one effect that places an order. *)
Definition is_submission (e : Event) : bool :=
  match e with EvCreateAndPostMarketOrder _ _ => true | _ => false end.

(** Reads of the outside: they change neither the venue nor the ledger. *)
Definition is_read (e : Event) : bool :=
  match e with
  | EvGetBalanceAllowance | EvPolygonRpc | EvGetOpenOrders
  | EvDataApiPositions => true
  | _ => false
  end.

Record World := mkWorld {
  order_tracking : list OrderTracking;
  order_tracking_seq : Z;
  live_trades : list LiveTrade;
  live_trades_seq : Z;
  pendingOrders : gset string;
  cachedState : option AccountState;
  lastError : option string;
  tick : nat;
  trace : list Event
}.

Definition set_order_tracking (t : list OrderTracking) (n : Z) (w : World) :=
  mkWorld t n (live_trades w) (live_trades_seq w) (pendingOrders w)
          (cachedState w) (lastError w) (tick w) (trace w).
Definition set_live_trades (t : list LiveTrade) (n : Z) (w : World) :=
  mkWorld (order_tracking w) (order_tracking_seq w) t n (pendingOrders w)
          (cachedState w) (lastError w) (tick w) (trace w).
Definition set_pendingOrders (p : gset string) (w : World) :=
  mkWorld (order_tracking w) (order_tracking_seq w) (live_trades w)
          (live_trades_seq w) p (cachedState w) (lastError w) (tick w)
          (trace w).
Definition set_cachedState (c : option AccountState) (w : World) :=
  mkWorld (order_tracking w) (order_tracking_seq w) (live_trades w)
          (live_trades_seq w) (pendingOrders w) c (lastError w) (tick w)
          (trace w).
Definition set_lastError (e : option string) (w : World) :=
  mkWorld (order_tracking w) (order_tracking_seq w) (live_trades w)
          (live_trades_seq w) (pendingOrders w) (cachedState w) e (tick w)
          (trace w).
Definition next_tick (w : World) :=
  mkWorld (order_tracking w) (order_tracking_seq w) (live_trades w)
          (live_trades_seq w) (pendingOrders w) (cachedState w)
          (lastError w) (S (tick w)) (trace w).
Definition log_event (e : Event) (w : World) :=
  mkWorld (order_tracking w) (order_tracking_seq w) (live_trades w)
          (live_trades_seq w) (pendingOrders w) (cachedState w)
          (lastError w) (tick w) (trace w ++ [e]).

(** ** The monad of asynchronous methods *)

Inductive Outcome (A : Type) :=
| Returned (a : A)
| Thrown (msg : string).
Arguments Returned {A} a.
Arguments Thrown {A} msg.

Definition Async (A : Type) : Type := World -> Outcome A * World.

#[global] Instance Async_ret : MRet Async :=
  fun A a w => (Returned a, w).

#[global] Instance Async_bind : MBind Async :=
  fun A B f m w =>
    match m w with
    | (Returned a, w') => f a w'
    | (Thrown e, w') => (Thrown e, w')
    end.

Definition throw {A} (msg : string) : Async A :=
  fun w => (Thrown msg, w).

(** [try { body } catch (error) { handler(message of error) }] *)
Definition try_catch {A} (body : Async A) (handler : string -> Async A)
  : Async A :=
  fun w =>
    match body w with
    | (Returned a, w') => (Returned a, w')
    | (Thrown e, w') => handler e w'
    end.

(** [try { body } finally { cleanup }]; [cleanup] here never throws. *)
Definition try_finally {A} (body : Async A) (cleanup : World -> World)
  : Async A :=
  fun w => let '(r, w') := body w in (r, cleanup w').

Definition get_world : Async World := fun w => (Returned w, w).
Definition modify (f : World -> World) : Async unit :=
  fun w => (Returned tt, f w).

(** Ask the outside a question: the effect is logged, the answer is the
    oracle's at the present tick, and time moves on. *)
Definition ask {A} (e : Event) (answer : nat -> A) : Async A :=
  fun w => (Returned (answer (tick w)), next_tick (log_event e w)).

(** The same for the order submission, whose log entry keeps the
    venue's answer. *)
Definition post_order (env : Env) (args : MarketOrderArgs)
  : Async SubmitResponse :=
  fun w =>
    let answer := env_createAndPostMarketOrder env (tick w) args in
    (Returned answer,
     next_tick (log_event (EvCreateAndPostMarketOrder args answer) w)).

(** [Date.now()], [new Date()], and SQLite's [CURRENT_TIMESTAMP]. *)
Definition Date_now (env : Env) : Async Z :=
  fun w => (Returned (env_now env (tick w)), next_tick w).

(** [crypto.randomBytes(n)] *)
Definition randomBytes (env : Env) (n : nat) : Async (list Byte.byte) :=
  fun w => (Returned (env_randomBytes env (tick w) n), next_tick w).

Fixpoint mapM {A B} (f : A -> Async B) (l : list A) : Async (list B) :=
  match l with
  | [] => mret []
  | x :: l => y ← f x; ys ← mapM f l; mret (y :: ys)
  end.

(** ** SQL statements *)

Section Ledger.

Context (env : Env).

Definition has_key (key : string) (r : OrderTracking) : bool :=
  match ot_idempotency_key r with
  | Some k => String.eqb k key
  | None => false
  end.

Definition has_order_id (oid : string) (r : OrderTracking) : bool :=
  match ot_order_id r with
  | Some o => String.eqb o oid
  | None => false
  end.

(** [SELECT * FROM order_tracking WHERE idempotency_key = ?] with
    [.get]: the first matching row, if any. *)
Definition select_order_tracking (key : string)
  : Async (option OrderTracking) :=
  w ← get_world;
  mret (List.find (has_key key) (order_tracking w)).

(** [INSERT INTO order_tracking (market_id, token_id, side, price, size,
    order_type, status, idempotency_key) VALUES (?,?,?,?,?,?,'created',?)].
    [id] is the next AUTOINCREMENT value, [created_at] and [updated_at]
    default to [CURRENT_TIMESTAMP]; [idempotency_key] is [UNIQUE]. *)
Definition insert_order_tracking (market token : string) (sd : OrderSide)
    (price size : float) (order_type key : string) : Async unit :=
  ts ← Date_now env;
  w ← get_world;
  if existsb (has_key key) (order_tracking w)
  then throw "UNIQUE constraint failed: order_tracking.idempotency_key"
  else
    let id := order_tracking_seq w + 1 in
    let row := mkOrderTracking id None market token sd price size
                 order_type created None (Some key) ts ts None None in
    modify (fun w =>
      log_event (EvInsertOrderTracking key)
        (set_order_tracking (order_tracking w ++ [row]) id w)).

(** Would assigning [new_order_id] to the rows of [key] break the
    [UNIQUE] constraint of [order_id]?  It does when such a row exists
    and a row with another key already carries that value. *)
Definition order_id_clash (key : string) (new_order_id : option string)
    (tbl : list OrderTracking) : bool :=
  match new_order_id with
  | Some oid =>
      existsb (has_key key) tbl &&
      existsb (fun r => has_order_id oid r && negb (has_key key r)) tbl
  | None => false
  end.

(** [UPDATE order_tracking SET ... WHERE idempotency_key = ?].  When
    the statement assigns [order_id], the column's [UNIQUE] constraint
    may abort it. *)
Definition update_order_tracking (key : string) (st : OrderStatus)
    (new_order_id : option string)
    (set : OrderTracking -> OrderTracking) : Async unit :=
  w ← get_world;
  if order_id_clash key new_order_id (order_tracking w)
  then throw "UNIQUE constraint failed: order_tracking.order_id"
  else
    modify (fun w =>
      log_event (EvUpdateOrderTracking key st)
        (set_order_tracking
           (map (fun r => if has_key key r then set r else r)
                (order_tracking w))
           (order_tracking_seq w) w)).

(** [SET status = 'filled', order_id = ?, polymarket_status = 'DRY_RUN'] *)
Definition set_filled_dry (oid : string) (r : OrderTracking) :=
  mkOrderTracking (ot_id r) (Some oid) (ot_market_id r) (ot_token_id r)
    (ot_side r) (ot_price r) (ot_size r) (ot_order_type r) filled
    (Some "DRY_RUN") (ot_idempotency_key r) (ot_created_at r)
    (ot_updated_at r) (ot_filled_at r) (ot_error_message r).

(** [SET status = 'submitted', updated_at = CURRENT_TIMESTAMP] *)
Definition set_submitted (ts : Z) (r : OrderTracking) :=
  mkOrderTracking (ot_id r) (ot_order_id r) (ot_market_id r)
    (ot_token_id r) (ot_side r) (ot_price r) (ot_size r)
    (ot_order_type r) submitted (ot_polymarket_status r)
    (ot_idempotency_key r) (ot_created_at r) ts (ot_filled_at r)
    (ot_error_message r).

(** [SET status = 'filled', order_id = ?, polymarket_status = ?,
    filled_at = CURRENT_TIMESTAMP, updated_at = CURRENT_TIMESTAMP] *)
Definition set_filled (oid orderStatus : string) (ts : Z)
    (r : OrderTracking) :=
  mkOrderTracking (ot_id r) (Some oid) (ot_market_id r) (ot_token_id r)
    (ot_side r) (ot_price r) (ot_size r) (ot_order_type r) filled
    (Some orderStatus) (ot_idempotency_key r) (ot_created_at r) ts
    (Some ts) (ot_error_message r).

(** [SET status = 'failed', error_message = ?,
    updated_at = CURRENT_TIMESTAMP] *)
Definition set_failed (errorMsg : string) (ts : Z) (r : OrderTracking) :=
  mkOrderTracking (ot_id r) (ot_order_id r) (ot_market_id r)
    (ot_token_id r) (ot_side r) (ot_price r) (ot_size r)
    (ot_order_type r) failed (ot_polymarket_status r)
    (ot_idempotency_key r) (ot_created_at r) ts (ot_filled_at r)
    (Some errorMsg).

Definition side_allowed (s : string) : bool :=
  String.eqb s "YES" || String.eqb s "NO".

(** [INSERT INTO live_trades (...) VALUES (...)]: the caller gives the
    named columns as a function of the new [id] and of
    [CURRENT_TIMESTAMP]; [CHECK (side IN ('YES','NO'))] is enforced. *)
Definition insert_live_trade (row : Z -> Z -> LiveTrade) : Async unit :=
  ts ← Date_now env;
  w ← get_world;
  let id := live_trades_seq w + 1 in
  let r := row id ts in
  if side_allowed (lt_side r)
  then
    modify (fun w =>
      log_event (EvInsertLiveTrade (lt_market_id r))
        (set_live_trades (live_trades w ++ [r]) id w))
  else throw "CHECK constraint failed: side IN ('YES', 'NO')".

(** [SELECT * FROM live_trades WHERE status IN ('open', 'pending')] *)
Definition is_open_or_pending (t : LiveTrade) : bool :=
  match lt_status t with open | pending => true | _ => false end.

Definition select_open_or_pending : Async (list LiveTrade) :=
  w ← get_world;
  mret (List.filter is_open_or_pending (live_trades w)).

(** [UPDATE live_trades SET status = 'unknown', notes = ? WHERE id = ?] *)
Definition set_unknown (notes : string) (t : LiveTrade) :=
  mkLiveTrade (lt_id t) (lt_market_id t) (lt_token_id t) (lt_side t)
    (lt_entry_price t) (lt_size t) (lt_size_usd t) unknown
    (lt_entry_time t) (lt_order_id t) (Some notes) (lt_created_at t)
    (lt_updated_at t).

Definition update_live_trade_unknown (notes : string) (id : Z)
  : Async unit :=
  modify (fun w =>
    log_event (EvUpdateLiveTrade id)
      (set_live_trades
         (map (fun t => if Z.eqb (lt_id t) id then set_unknown notes t
                        else t)
              (live_trades w))
         (live_trades_seq w) w)).

End Ledger.

(** ** StateManager ([state.ts]) *)

Record StateManagerConfig := mkStateManagerConfig {
  cfg_proxyAddress : string;
  cfg_staleThresholdMs : Z
}.

(** [this.staleThresholdMs = config.staleThresholdMs || 30_000] *)
Definition staleThresholdMs (c : StateManagerConfig) : Z :=
  if Z.eqb (cfg_staleThresholdMs c) 0 then 30000 else cfg_staleThresholdMs c.

Record BalanceAllowance := mkBalanceAllowance {
  ba_balance : float;
  ba_allowance : float
}.

Record Reconciliation := mkReconciliation {
  synced : bool;
  discrepancies : list string
}.

Section StateManager.

Context (env : Env) (smc : StateManagerConfig).

(** [fetchOnChainUSDC]: the USDC balance of the proxy wallet, 6
    decimals; any failure is caught and reads as 0. *)
Definition fetchOnChainUSDC : Async float :=
  try_catch
    (r ← ask EvPolygonRpc (env_polygonRpc env);
     match r with
     | RpcThrows msg => throw msg
     | RpcNoResult => mret 0%float
     | RpcResult balanceWei =>
         mret (Number_of_BigInt balanceWei / 1e6)%float
     end)
    (fun _ => mret 0%float).

Definition fetchBalance : Async BalanceAllowance :=
  (* let clobBalance = 0; try { clobBalance = ... } catch { warn } *)
  clobBalance ← try_catch
    (r ← ask EvGetBalanceAllowance (env_getBalanceAllowance env);
     match r with
     | BalanceThrows msg => throw msg
     | BalanceIs parsed => mret (parsed / 1e6)%float
     end)
    (fun _ => mret 0%float);
  onChainBalance ← fetchOnChainUSDC;
  (* Use whichever is higher *)
  let effectiveBalance := Math_max clobBalance onChainBalance in
  mret (mkBalanceAllowance effectiveBalance effectiveBalance).

Definition fetchOpenOrders : Async (list OpenOrder) :=
  try_catch
    (r ← ask EvGetOpenOrders (env_getOpenOrders env);
     match r with
     | OrdersThrow msg => throw msg
     | OrdersNull => mret []
     | OrdersAre l => mret l
     end)
    (fun _ => mret []).

(** The object built by the callback of [(data || []).map(...)], given
    the instant read by its [new Date()]. *)
Definition toPosition_at (pos : RawPosition) (entryTime : Z) : Position :=
  let product :=
    match raw_size pos, raw_curPrice pos with
    | Some s, Some p => (s * p)%float
    | _, _ => nan
    end in
  mkPosition
    (raw_conditionId pos)
    (raw_asset pos)
    (toUpperCase (or_str (raw_outcome pos) "YES"))
    (or_num (raw_size pos) 0)
    (or_num (raw_avgPrice pos) 0)
    (or_num (raw_currentValue pos) (or_num (Some product) 0))
    (or_num (raw_curPrice pos) 0)
    (or_num (raw_cashPnl pos) 0)
    entryTime
    (if truthy_ostr (raw_title pos) then raw_title pos else None).

Definition toPosition (pos : RawPosition) : Async Position :=
  entryTime ← Date_now env;
  mret (toPosition_at pos entryTime).

Definition fetchPositionsFromDataAPI : Async (list Position) :=
  try_catch
    (r ← ask EvDataApiPositions (env_dataApiPositions env);
     match r with
     | PositionsThrow msg => throw msg
     | PositionsNotOk _ => mret []
     | PositionsNull => mapM toPosition []
     | PositionsAre data => mapM toPosition data
     end)
    (fun _ => mret []).

(** [getState(forceRefresh = false)].  The three fetches are started
    together by [Promise.all]; they share no state and each catches its
    own errors, and they are run one after the other here. *)
Definition getState (forceRefresh : bool) : Async AccountState :=
  now ← Date_now env;
  w ← get_world;
  (* Check if cached state is still valid *)
  fresh ← match cachedState w with
          | Some c =>
              if negb forceRefresh
              then
                t ← Date_now env;
                let age := t - lastSyncTime c in
                mret (if Z.ltb age (staleThresholdMs smc)
                      then Some (as_cache c) else None)
              else mret None
          | None => mret None
          end;
  match fresh with
  | Some s => mret s
  | None =>
      try_catch
        (balanceResult ← fetchBalance;
         openOrdersResult ← fetchOpenOrders;
         positions ← fetchPositionsFromDataAPI;
         let state := mkAccountState (ba_balance balanceResult)
                        (ba_allowance balanceResult) positions
                        openOrdersResult now api in
         modify (set_cachedState (Some state));;
         modify (set_lastError None);;
         mret state)
        (fun error =>
           modify (set_lastError (Some error));;
           w ← get_world;
           match cachedState w with
           | Some c => mret (as_cache c)
           | None =>
               throw ("Failed to fetch account state: " +:+ error)
           end)
  end.

Definition verifyPosition (market : string) : Async (option Position) :=
  state ← getState true;
  mret (List.find (fun p => String.eqb (pos_marketId p) market)
                  (positions state)).

Definition hasOpenOrderForMarket (market : string) : Async bool :=
  state ← getState true;
  mret (existsb (fun o => String.eqb (oo_market o) market)
                (openOrders state)).

Definition hasPositionInMarket (market : string) : Async bool :=
  state ← getState true;
  mret (existsb (fun p => String.eqb (pos_marketId p) market)
                (positions state)).

(** The reducer shared by [getAvailableBalance] and [getTotalExposure]. *)
Definition orderExposure (orders : list OpenOrder) : float :=
  fold_left
    (fun sum order =>
       let size := (oo_original_size order - oo_size_matched order)%float in
       let price := oo_price order in
       (sum + size * price)%float)
    orders 0%float.

Definition getAvailableBalance : Async float :=
  state ← getState false;
  let openOrderExposure := orderExposure (openOrders state) in
  mret (Math_max 0 (balance state - openOrderExposure)).

Definition getTotalExposure : Async float :=
  state ← getState false;
  let positionExposure :=
    fold_left (fun sum pos => (sum + pos_currentValue pos)%float)
              (positions state) 0%float in
  mret (positionExposure + orderExposure (openOrders state))%float.

(** The row that [reconcile] inserts for a position found on the venue:
    [(market_id, side, entry_price, size, status, entry_time, notes)
     VALUES (?, ?, ?, ?, 'open', ?, 'Reconciliation: found on Polymarket')]. *)
Definition found_row (position : Position) (id ts : Z) : LiveTrade :=
  mkLiveTrade id (pos_marketId position) None
    (pos_side position) (Some (pos_avgEntryPrice position))
    (pos_size position) None open
    (Some (pos_entryTime position)) None
    (Some "Reconciliation: found on Polymarket") ts ts.

(** First loop of [reconcile]: each local trade against the venue. *)
Fixpoint reconcile_local (state : AccountState)
    (localTrades : list LiveTrade) (discrepancies : list string)
  : Async (list string) :=
  match localTrades with
  | [] => mret discrepancies
  | localTrade :: rest =>
      let hasPosition :=
        existsb (fun p => String.eqb (pos_marketId p)
                                     (lt_market_id localTrade))
                (positions state) in
      let hasOrder :=
        existsb (fun o => String.eqb (oo_market o)
                                     (lt_market_id localTrade))
                (openOrders state) in
      if negb hasPosition && negb hasOrder &&
         match lt_status localTrade with open => true | _ => false end
      then
        update_live_trade_unknown
          "Reconciliation: position not found on Polymarket"
          (lt_id localTrade);;
        reconcile_local state rest
          (discrepancies ++
             ["Local trade " +:+ String_of_int (lt_id localTrade) +:+
              " shows 'open' but no position/order on Polymarket"])
      else reconcile_local state rest discrepancies
  end.

(** Second loop of [reconcile]: each venue position against the local
    trades selected at the start. *)
Fixpoint reconcile_remote (localTrades : list LiveTrade)
    (ps : list Position) (discrepancies : list string)
  : Async (list string) :=
  match ps with
  | [] => mret discrepancies
  | position :: rest =>
      match List.find (fun t => String.eqb (lt_market_id t)
                                           (pos_marketId position))
                      localTrades with
      | Some _ => reconcile_remote localTrades rest discrepancies
      | None =>
          insert_live_trade env (found_row position);;
          reconcile_remote localTrades rest
            (discrepancies ++
               ["Position in " +:+ pos_marketId position +:+
                " exists on Polymarket but not in local database"])
      end
  end.

Definition reconcile : Async Reconciliation :=
  state ← getState true;
  localTrades ← select_open_or_pending;
  discrepancies ← reconcile_local state localTrades [];
  discrepancies ← reconcile_remote localTrades (positions state)
                    discrepancies;
  mret (mkReconciliation
          (Nat.eqb (length discrepancies) 0) discrepancies).

End StateManager.

(** ** OrderExecutor ([executor.ts]) *)

Record OrderRequest := mkOrderRequest {
  req_marketId : string;
  req_tokenId : string;
  req_side : TokenSide;
  req_sizeUsd : float;
  req_price : option float;
  req_idempotencyKey : option string
}.

(** [OrderResult]; [executedPrice] and [executedSize] are never assigned
    by the executor and are left out. *)
Record OrderResult := mkOrderResult {
  success : bool;
  orderId : option string;
  error : option string;
  orderStatus : option string;
  idempotencyKey : string
}.

Record CancelResult := mkCancelResult {
  cancel_success : bool;
  cancelled_count : Z;
  cancel_error : option string
}.

(** [ExecutorConfig]; the [stateManager] object is given by its
    configuration, its mutable fields live in the [World]. *)
Record ExecutorConfig := mkExecutorConfig {
  stateManager : StateManagerConfig;
  maxExposureUsd : float;
  positionSizeUsd : float;
  dryRun : bool
}.

Section OrderExecutor.

Context `{NumberFormat} (env : Env) (config : ExecutorConfig).

(** [{ ...request, side: s }] *)
Definition with_side (request : OrderRequest) (s : TokenSide) :=
  mkOrderRequest (req_marketId request) (req_tokenId request) s
    (req_sizeUsd request) (req_price request)
    (req_idempotencyKey request).

Definition generateIdempotencyKey (request : OrderRequest)
  : Async string :=
  now ← Date_now env;
  let timestamp := floor_div now 60000 in (* Minute precision *)
  let data :=
    req_marketId request +:+ ":" +:+ TokenSide_str (req_side request)
      +:+ ":" +:+ Number_toString (req_sizeUsd request)
      +:+ ":" +:+ String_of_int timestamp in
  bytes ← randomBytes env 4;
  let hash := Buffer_toHex bytes in
  mret ("order_" +:+ data +:+ "_" +:+ hash).

(** [request.idempotencyKey || this.generateIdempotencyKey(derived)] *)
Definition keyOf (request derived : OrderRequest) : Async string :=
  match req_idempotencyKey request with
  | Some k => if truthy_str k then mret k
              else generateIdempotencyKey derived
  | None => generateIdempotencyKey derived
  end.

(** The result rebuilt from a stored row (safety check 1). *)
Definition stored_result (existingOrder : OrderTracking) (key : string)
  : OrderResult :=
  mkOrderResult
    (match ot_status existingOrder with
     | filled | live => true
     | _ => false
     end)
    (ot_order_id existingOrder)
    (ot_error_message existingOrder)
    None
    key.

Definition rejected (msg key : string) : OrderResult :=
  mkOrderResult false None (Some msg) None key.

Definition pending_add (k : string) : Async unit :=
  modify (fun w =>
    log_event (EvPendingAdd k)
      (set_pendingOrders ({[k]} ∪ pendingOrders w) w)).

Definition pending_delete (k : string) (w : World) : World :=
  log_event (EvPendingDelete k)
    (set_pendingOrders (pendingOrders w ∖ {[k]}) w).

(** The [catch] block shared by both order paths. *)
Definition on_error (key errorMsg : string) : Async OrderResult :=
  ts ← Date_now env;
  update_order_tracking key failed None (set_failed errorMsg ts);;
  mret (mkOrderResult false None (Some errorMsg) None key).

(** [INSERT INTO live_trades (market_id, token_id, side, size, size_usd,
    status, entry_time, order_id)
    VALUES (?, ?, ?, ?, ?, 'open', CURRENT_TIMESTAMP, ?)] *)
Definition opened_trade (request : OrderRequest) (oid : string)
    (id ts : Z) : LiveTrade :=
  mkLiveTrade id (req_marketId request) (Some (req_tokenId request))
    (TokenSide_str (req_side request)) None (req_sizeUsd request)
    (Some (req_sizeUsd request)) open (Some ts) (Some oid) None ts ts.

(** [{ tokenID, amount: request.sizeUsd, side, orderType: FOK }] *)
Definition order_args (request : OrderRequest) (sd : OrderSide)
  : MarketOrderArgs :=
  mkMarketOrderArgs (req_tokenId request) (req_sizeUsd request) sd FOK.

(** The [try] block of [placeBuyOrder]. *)
Definition submitBuy (request : OrderRequest) (key : string)
  : Async OrderResult :=
  if dryRun config
  then
    t1 ← Date_now env;
    let oid := "dry_" +:+ String_of_int t1 in
    update_order_tracking key filled (Some oid) (set_filled_dry oid);;
    t2 ← Date_now env;
    mret (mkOrderResult true (Some ("dry_" +:+ String_of_int t2)) None
                        None key)
  else
    (* Update status to submitted *)
    ts ← Date_now env;
    update_order_tracking key submitted None (set_submitted ts);;
    (* Place market order (FOK = Fill or Kill) *)
    r ← post_order env (order_args request BUY);
    match r with
    | SubmitThrows msg => throw msg
    | SubmitReturns result =>
        let orderId := or_ostr (result ≫= res_orderID)
                               (result ≫= res_orderId) in
        let orderStatus := or_str (result ≫= res_status) "unknown" in
        match orderId with
        | Some oid =>
            if truthy_str oid
            then
              ts ← Date_now env;
              update_order_tracking key filled (Some oid)
                (set_filled oid orderStatus ts);;
              (* Create live trade record *)
              insert_live_trade env (opened_trade request oid);;
              mret (mkOrderResult true (Some oid) None
                                  (Some orderStatus) key)
            else
              let errorMsg := or_str (result ≫= res_errorMsg)
                                     "No order ID returned" in
              ts ← Date_now env;
              update_order_tracking key failed None
                (set_failed errorMsg ts);;
              mret (mkOrderResult false None (Some errorMsg) None key)
        | None =>
            let errorMsg := or_str (result ≫= res_errorMsg)
                                   "No order ID returned" in
            ts ← Date_now env;
            update_order_tracking key failed None
              (set_failed errorMsg ts);;
            mret (mkOrderResult false None (Some errorMsg) None key)
        end
    end.

(** What [placeBuyOrder] does once every check has passed: the
    [created] row, the in-flight mark, and the [try]/[catch]/[finally]. *)
Definition executeBuy (request : OrderRequest) (key : string)
  : Async OrderResult :=
  (* CREATE ORDER TRACKING RECORD *)
  insert_order_tracking env (req_marketId request) (req_tokenId request)
    BUY (or_num (req_price request) 0) (req_sizeUsd request) "MARKET"
    key;;
  (* Mark order as in-flight *)
  pending_add (req_marketId request);;
  try_finally
    (try_catch (submitBuy request key) (on_error key))
    (pending_delete (req_marketId request)).

(** [placeBuyOrder(request)].  The two state queries of check 3 are
    started together by [Promise.all]; they share nothing but the cache
    that each overwrites, and are run one after the other here. *)
Definition placeBuyOrder (request : OrderRequest) : Async OrderResult :=
  idempotencyKey ← keyOf request request;
  (* SAFETY CHECK 1: Idempotency *)
  existingOrder ← select_order_tracking idempotencyKey;
  match existingOrder with
  | Some existingOrder => mret (stored_result existingOrder idempotencyKey)
  | None =>
  (* SAFETY CHECK 2: No duplicate pending orders *)
  w ← get_world;
  if bool_decide (req_marketId request ∈ pendingOrders w)
  then mret (rejected "Order already in flight for this market"
                      idempotencyKey)
  else
  (* SAFETY CHECK 3: No existing position or order in market *)
  hasPosition ← hasPositionInMarket env (stateManager config)
                  (req_marketId request);
  hasOrder ← hasOpenOrderForMarket env (stateManager config)
               (req_marketId request);
  if (hasPosition : bool)
  then mret (rejected "Already have position in this market"
                      idempotencyKey)
  else if (hasOrder : bool)
  then mret (rejected "Already have open order in this market"
                      idempotencyKey)
  else
  (* SAFETY CHECK 4: Exposure limits *)
  currentExposure ← getTotalExposure env (stateManager config);
  if (maxExposureUsd config <? currentExposure + req_sizeUsd request)%float
  then mret (rejected ("Would exceed max exposure ($" +:+
                       Number_toString (maxExposureUsd config) +:+ ")")
                      idempotencyKey)
  else
  (* SAFETY CHECK 6: Sufficient balance *)
  availableBalance ← getAvailableBalance env (stateManager config);
  if (availableBalance <? req_sizeUsd request)%float
  then mret (rejected ("Insufficient balance: $" +:+
                       Number_toFixed2 availableBalance +:+ " < $" +:+
                       Number_toString (req_sizeUsd request))
                      idempotencyKey)
  else executeBuy request idempotencyKey
  end.

(** The [try] block of [placeSellOrder]. *)
Definition submitSell (request : OrderRequest) (key : string)
  : Async OrderResult :=
  if dryRun config
  then
    t1 ← Date_now env;
    let oid := "dry_sell_" +:+ String_of_int t1 in
    update_order_tracking key filled (Some oid) (set_filled_dry oid);;
    t2 ← Date_now env;
    mret (mkOrderResult true (Some ("dry_sell_" +:+ String_of_int t2))
                        None None key)
  else
    ts ← Date_now env;
    update_order_tracking key submitted None (set_submitted ts);;
    r ← post_order env (order_args request SELL);
    match r with
    | SubmitThrows msg => throw msg
    | SubmitReturns result =>
        let orderId := or_ostr (result ≫= res_orderID)
                               (result ≫= res_orderId) in
        let orderStatus := or_str (result ≫= res_status) "unknown" in
        match orderId with
        | Some oid =>
            if truthy_str oid
            then
              ts ← Date_now env;
              update_order_tracking key filled (Some oid)
                (set_filled oid orderStatus ts);;
              mret (mkOrderResult true (Some oid) None
                                  (Some orderStatus) key)
            else
              let errorMsg := or_str (result ≫= res_errorMsg)
                                     "No order ID returned" in
              ts ← Date_now env;
              update_order_tracking key failed None
                (set_failed errorMsg ts);;
              mret (mkOrderResult false None (Some errorMsg) None key)
        | None =>
            let errorMsg := or_str (result ≫= res_errorMsg)
                                   "No order ID returned" in
            ts ← Date_now env;
            update_order_tracking key failed None
              (set_failed errorMsg ts);;
            mret (mkOrderResult false None (Some errorMsg) None key)
        end
    end.

Definition executeSell (request : OrderRequest) (key : string)
  : Async OrderResult :=
  (* CREATE ORDER TRACKING RECORD *)
  insert_order_tracking env (req_marketId request) (req_tokenId request)
    SELL (or_num (req_price request) 0) (req_sizeUsd request) "MARKET"
    key;;
  (* Mark order as in-flight *)
  pending_add ("sell_" +:+ req_marketId request);;
  try_finally
    (try_catch (submitSell request key) (on_error key))
    (pending_delete ("sell_" +:+ req_marketId request)).

Definition placeSellOrder (request : OrderRequest) : Async OrderResult :=
  idempotencyKey ← keyOf request (with_side request NO);
  (* SAFETY CHECK 1: Idempotency *)
  existingOrder ← select_order_tracking idempotencyKey;
  match existingOrder with
  | Some existingOrder => mret (stored_result existingOrder idempotencyKey)
  | None =>
  (* SAFETY CHECK 2: No duplicate pending orders *)
  w ← get_world;
  if bool_decide ("sell_" +:+ req_marketId request ∈ pendingOrders w)
  then mret (rejected "Sell order already in flight for this market"
                      idempotencyKey)
  else executeSell request idempotencyKey
  end.

Definition cancelAllOrders : Async CancelResult :=
  try_catch
    (if dryRun config
     then mret (mkCancelResult true 0 None)
     else
       r ← ask EvCancelAll (env_cancelAll env);
       match r with
       | CancelThrows msg => throw msg
       | CancelDone =>
           (* Refresh state after cancellation *)
           getState env (stateManager config) true;;
           mret (mkCancelResult true 0 None)
       end)
    (fun error => mret (mkCancelResult false 0 (Some error))).

End OrderExecutor.

(** ** TradingBot ([trading/bot.ts]): one opportunity *)

(** [QualifyingMarket] of the scanner.  [logTrade] also binds the
    question, the category, the liquidity, the spread and the scores of
    the market to columns of [live_trades] that [LiveTrade] leaves out;
    the fields kept here are those that reach the order and the columns
    of [LiveTrade]. *)
Record QualifyingMarket := mkQualifyingMarket {
  conditionId : string;
  yesTokenId : string;
  currentYesPrice : float
}.

Section TradingBot.

(** The executor of the bot, [config.risk.positionSizeUsd] and
    [this.config.maxTradesPerDay]. *)
Context `{NumberFormat} (env : Env) (config : ExecutorConfig).
Variable risk_positionSizeUsd : float.
Variable maxTradesPerDay : Z.

(** [INSERT INTO live_trades (market_id, token_id, question, side,
    entry_price, size, size_usd, status, entry_time, order_id, ...)
    VALUES (?, ?, ?, 'YES', ?, ?, ?, 'pending', ?, ?, ...)] *)
Definition logTrade (market : QualifyingMarket) (orderId : option string)
    (sizeUsd : float) : Async unit :=
  entryTime ← Date_now env;
  insert_live_trade env (fun id ts =>
    mkLiveTrade id (conditionId market) (Some (yesTokenId market)) "YES"
      (Some (currentYesPrice market))
      (sizeUsd / currentYesPrice market)%float (* size in shares *)
      (Some sizeUsd) pending (Some entryTime) orderId None ts ts).

(** [processOpportunity(market)], given [this.status.tradesPlaced]; the
    new value of the counter is returned. *)
Definition processOpportunity (market : QualifyingMarket)
    (tradesPlaced : Z) : Async Z :=
  (* Additional validation before placing order *)
  getState env (stateManager config) false;;
  (* Check daily trade limit *)
  if Z.leb maxTradesPerDay tradesPlaced
  then mret tradesPlaced
  else
    (* Place order *)
    result ← placeBuyOrder env config
               (mkOrderRequest (conditionId market) (yesTokenId market) YES
                  risk_positionSizeUsd (Some (currentYesPrice market))
                  None);
    if success result
    then
      (* Log trade with full market profile *)
      logTrade market
        (if truthy_ostr (orderId result) then orderId result else None)
        risk_positionSizeUsd;;
      mret (tradesPlaced + 1)
    else mret tradesPlaced.

End TradingBot.

(** ** ConvergenceStrategy ([strategy/convergence.ts]) *)

Module Convergence.

(** [Market] and [PricePoint] of [db/schema.ts]. *)
Record Market := mkMarket {
  id : string;
  question : string;
  category : option string;
  resolution_date : option string;
  outcome : option TokenSide;
  is_binary : Z
}.

Record PricePoint := mkPricePoint {
  market_id : string;
  timestamp : string;
  yes_price : float;
  no_price : float
}.

(** [StrategySchema] and [RiskSchema] of [config/index.ts]. *)
Record StrategyConfig := mkStrategyConfig {
  entryPriceMin : float;
  entryPriceMax : float;
  exitPriceTarget : float;
  timeToResolutionDaysMin : float;
  timeToResolutionDaysMax : float;
  holdToResolution : bool
}.

Record RiskConfig := mkRiskConfig {
  risk_positionSizeUsd : float;
  risk_maxPositions : Z;
  risk_maxExposureUsd : float;
  stopLossPercent : option float
}.

Inductive ExitReason := target | resolution | stop_loss.

Record ExitSignal := mkExitSignal {
  marketId : string;
  exitPrice : float;
  exit_timestamp : string;
  reason : ExitReason
}.

Section Strategy.

(** [new Date(s).getTime()]: [None] stands for the NaN of an
    Invalid Date. *)
Variable Date_getTime : string -> option Z.

Context (config : StrategyConfig) (riskConfig : RiskConfig).

(** [d1 >= d2] on two [Date] objects: both are converted to numbers,
    and any comparison with NaN is false. *)
Definition Date_ge (d1 d2 : option Z) : bool :=
  match d1, d2 with
  | Some t1, Some t2 => Z.leb t2 t1
  | _, _ => false
  end.

Definition checkExitConditions (side : TokenSide) (entryPrice : float)
    (currentPrice : PricePoint) (market : Market)
  : option ExitSignal :=
  let price := match side with
               | YES => yes_price currentPrice
               | NO => no_price currentPrice
               end in
  (* Check target price reached (only if not holding to resolution) *)
  if negb (holdToResolution config) &&
     (exitPriceTarget config <=? price)%float
  then Some (mkExitSignal (id market) price (timestamp currentPrice)
                          target)
  else
    (* Check stop loss if configured *)
    let stopped :=
      match stopLossPercent riskConfig with
      | Some pct =>
          let stopLossThreshold :=
            (entryPrice * (1 - pct / 100))%float in
          (price <=? stopLossThreshold)%float
      | None => false
      end in
    if stopped
    then Some (mkExitSignal (id market) price (timestamp currentPrice)
                            stop_loss)
    else
      (* Check if market has resolved *)
      match outcome market, resolution_date market with
      | Some out, Some rd =>
          if truthy_str rd
          then
            let currentDate := Date_getTime (timestamp currentPrice) in
            let resolutionDate := Date_getTime rd in
            if Date_ge currentDate resolutionDate
            then
              let finalPrice :=
                if TokenSide_eqb out side then 1%float else 0%float in
              Some (mkExitSignal (id market) finalPrice
                                 (timestamp currentPrice) resolution)
            else None
          else None
      | _, _ => None
      end.

End Strategy.

(** [TradeSignal] *)
Record TradeSignal := mkTradeSignal {
  sig_marketId : string;
  sig_side : TokenSide;
  sig_entryPrice : float;
  sig_timestamp : string;
  sig_timeToResolutionDays : float;
  sig_reason : string
}.

(** [EligibilityResult] *)
Record EligibilityResult := mkEligibilityResult {
  eligible : bool;
  eligibility_reason : string
}.

Section Entry.

(** The printers of the runtime: [String(x)] and [toFixed(2)] as in the
    executor, and [toFixed(3)]. *)
Context `{NumberFormat}.
Variable Number_toFixed3 : float -> string.

(** [new Date(s).getTime()]: [None] stands for the NaN of an
    Invalid Date. *)
Variable Date_getTime : string -> option Z.

Context (config : StrategyConfig) (riskConfig : RiskConfig).

(** The time value of [new Date(d)] as a number.  Time values are
    integers of magnitude at most 8.64e15, which binary64 holds exactly;
    [new Date(null)] is the epoch. *)
Definition Date_time (d : option string) : float :=
  match d with
  | Some s =>
      match Date_getTime s with
      | Some t => Number_of_BigInt t
      | None => nan
      end
  | None => 0%float
  end.

(** [daysBetween(date1, date2)] *)
Definition daysBetween (date1 date2 : option string) : float :=
  let d1 := Date_time date1 in
  let d2 := Date_time date2 in
  let diffMs := (d2 - d1)%float in
  (diffMs / (1000 * 60 * 60 * 24))%float.

Definition checkEligibility (market : Market) : EligibilityResult :=
  (* Must be binary *)
  if Z.eqb (is_binary market) 0
  then mkEligibilityResult false "Not a binary market"
  (* Must have a resolution date *)
  else if negb (truthy_ostr (resolution_date market))
  then mkEligibilityResult false "No resolution date"
  else mkEligibilityResult true "Market is eligible".

Definition checkEntryConditions (market : Market) (pricePoint : PricePoint)
  : option TradeSignal :=
  (* Check eligibility first *)
  let eligibility := checkEligibility market in
  if negb (eligible eligibility) then None
  else
    (* Calculate time to resolution *)
    let timeToResolution :=
      daysBetween (Some (timestamp pricePoint)) (resolution_date market) in
    (* Check time window *)
    if (timeToResolution <? timeToResolutionDaysMin config)%float ||
       (timeToResolutionDaysMax config <? timeToResolution)%float
    then None
    else
      (* Check YES side entry conditions *)
      if (entryPriceMin config <=? yes_price pricePoint)%float &&
         (yes_price pricePoint <=? entryPriceMax config)%float
      then
        Some (mkTradeSignal (id market) YES (yes_price pricePoint)
                (timestamp pricePoint) timeToResolution
                ("YES price " +:+ Number_toFixed3 (yes_price pricePoint) +:+
                 " in range [" +:+ Number_toString (entryPriceMin config) +:+
                 ", " +:+ Number_toString (entryPriceMax config) +:+ "]"))
      else
        (* Check NO side entry conditions (symmetric) *)
        let noEntryMin := (1 - entryPriceMax config)%float in
        let noEntryMax := (1 - entryPriceMin config)%float in
        if (noEntryMin <=? no_price pricePoint)%float &&
           (no_price pricePoint <=? noEntryMax)%float
        then
          Some (mkTradeSignal (id market) NO (no_price pricePoint)
                  (timestamp pricePoint) timeToResolution
                  ("NO price " +:+ Number_toFixed3 (no_price pricePoint) +:+
                   " in range [" +:+ Number_toFixed2 noEntryMin +:+
                   ", " +:+ Number_toFixed2 noEntryMax +:+ "]"))
        else None.

(** [calculatePositionSize(currentExposure, openPositions)];
    [openPositions] is the size of a [Map]. *)
Definition calculatePositionSize (currentExposure : float)
    (openPositions : Z) : float :=
  (* Check max positions *)
  if Z.leb (risk_maxPositions riskConfig) openPositions then 0%float
  else
    (* Check max exposure *)
    let remainingExposure :=
      (risk_maxExposureUsd riskConfig - currentExposure)%float in
    if (remainingExposure <=? 0)%float then 0%float
    else
      (* Use configured position size, capped by remaining exposure *)
      Math_min (risk_positionSizeUsd riskConfig) remainingExposure.

Definition calculatePnL (side : TokenSide) (entryPrice exitPrice
    sizeUsd : float) : float :=
  (* Calculate shares purchased *)
  let shares := (sizeUsd / entryPrice)%float in
  (* Calculate exit value *)
  let exitValue := (shares * exitPrice)%float in
  (* PnL is exit value minus entry cost *)
  (exitValue - sizeUsd)%float.

End Entry.

End Convergence.

(** ** BacktestEngine ([backtest/engine.ts], the file [unnamed/part_000])

    Phase 2 of [BacktestEngine.run], the simulation loop.  What it reads
    is given: the markets that passed the filters, the price history of
    each market (a read of the table [price_history], which the run does
    not write), and the volatility levels that phase 1 stored in
    [classifications].  What it writes to the table [backtest_trades] is
    kept as the list of statements it runs; [insertBacktestTrade]
    returns the row id that AUTOINCREMENT assigns.  No statement of the
    [try] block throws here, so its [catch] is not reached and [errors]
    stays as it was. *)

Module Backtest.

Import Convergence.

(** [VolatilityLevel] of [classification/types.ts]. *)
Inductive VolatilityLevel := low | medium | high.

(** [const volRank = { low: 1, medium: 2, high: 3 }] *)
Definition volRank (l : VolatilityLevel) : Z :=
  match l with low => 1 | medium => 2 | high => 3 end.

Record OpenPosition := mkOpenPosition {
  tradeId : Z;
  op_marketId : string;
  op_side : TokenSide;
  op_entryPrice : float;
  op_entryTime : string;
  op_sizeUsd : float
}.

(** [BacktestTrade] of [db/schema.ts]. *)
Record BacktestTrade := mkBacktestTrade {
  bt_id : Z;
  run_id : string;
  bt_market_id : string;
  bt_side : TokenSide;
  entry_time : string;
  entry_price : float;
  exit_time : option string;
  exit_price : option float;
  size_usd : float;
  pnl : option float;
  exit_reason : option ExitReason
}.

(** The statements run on [backtest_trades]: [insertBacktestTrade(trade)],
    with the row id it returned, and
    [updateBacktestTrade(id, { exit_time, exit_price, pnl, exit_reason })]. *)
Inductive Statement :=
| InsertBacktestTrade (trade : BacktestTrade)
| UpdateBacktestTrade (id : Z) (exit_time : string) (exit_price pnl : float)
                      (exit_reason : ExitReason).

(** The variables of the loop, with the last row id of the table and the
    statements run so far. *)
Record Sim := mkSim {
  openPositions : gmap string OpenPosition;
  completedTrades : list BacktestTrade;
  tradedMarkets : gset string;
  currentExposure : float;
  backtest_trades_seq : Z;
  statements : list Statement
}.

(** [s.split('T')[0]] *)
Fixpoint before_T (s : string) : string :=
  match s with
  | EmptyString => EmptyString
  | String c s' =>
      if Ascii.eqb c "T" then EmptyString else String c (before_T s')
  end.

Section Engine.

Context `{NumberFormat}.
Variable Number_toFixed3 : float -> string.
Variable Date_getTime : string -> option Z.

(** [this.config.strategy], [this.config.risk] and
    [this.config.strategy.maxVolatility]. *)
Context (config : StrategyConfig) (riskConfig : RiskConfig).
Variable maxVolatility : option VolatilityLevel.

(** The volatility level of each classified market; [getPriceHistory]. *)
Variable classifications : gmap string VolatilityLevel.
Variable getPriceHistory : string -> list PricePoint.

Variables runId startDate endDate : string.
Variable dryRun : bool.

(** Closing a position: the trade is completed with its profit or loss,
    persisted unless the run is dry, the exposure is released, and the
    market is marked as traded.  The loop does this in two places: on an
    exit signal, and at the end of a market that has an outcome. *)
Definition closePosition (market : Market) (position : OpenPosition)
    (exitTime : string) (exitPrice : float) (exitReason : ExitReason)
    (s : Sim) : Sim :=
  let pnl := calculatePnL (op_side position) (op_entryPrice position)
               exitPrice (op_sizeUsd position) in
  let trade :=
    mkBacktestTrade (tradeId position) runId (id market) (op_side position)
      (op_entryTime position) (op_entryPrice position) (Some exitTime)
      (Some exitPrice) (op_sizeUsd position) (Some pnl) (Some exitReason) in
  mkSim
    (* openPositions.delete(market.id) *)
    (delete (id market) (openPositions s))
    (* completedTrades.push(trade) *)
    (completedTrades s ++ [trade])
    (* tradedMarkets.add(market.id): prevents re-entry *)
    ({[id market]} ∪ tradedMarkets s)
    (* currentExposure -= position.sizeUsd *)
    (currentExposure s - op_sizeUsd position)%float
    (backtest_trades_seq s)
    (if dryRun then statements s
     else statements s ++
            [UpdateBacktestTrade (tradeId position) exitTime exitPrice pnl
               exitReason]).

(** The body of [for (const pricePoint of relevantHistory)]. *)
Definition simulatePoint (market : Market) (s : Sim)
    (pricePoint : PricePoint) : Sim :=
  (* Check for exits on open positions *)
  let s :=
    match openPositions s !! id market with
    | Some position =>
        match checkExitConditions Date_getTime config riskConfig
                (op_side position) (op_entryPrice position) pricePoint
                market with
        | Some exitSignal =>
            closePosition market position (exit_timestamp exitSignal)
              (exitPrice exitSignal) (reason exitSignal) s
        | None => s
        end
    | None => s
    end in
  (* Check for entry signals (only if no position and never traded this
     market) *)
  if negb (bool_decide (is_Some (openPositions s !! id market))) &&
     negb (bool_decide (id market ∈ tradedMarkets s))
  then
    (* Check volatility filter *)
    let maxVol := default high maxVolatility in
    let volLevel := default low (classifications !! id market) in
    if volRank maxVol <? volRank volLevel
    then s (* Skip this price point - market is too volatile *)
    else
      match checkEntryConditions Number_toFixed3 Date_getTime config market
              pricePoint with
      | Some entrySignal =>
          (* Calculate position size *)
          let sizeUsd :=
            calculatePositionSize riskConfig (currentExposure s)
              (Z.of_nat (size (openPositions s))) in
          if (0 <? sizeUsd)%float
          then
            (* Open position *)
            let tradeId :=
              if dryRun
              then Z.of_nat (length (completedTrades s)) +
                   Z.of_nat (size (openPositions s)) + 1
              else backtest_trades_seq s + 1 in
            let trade :=
              mkBacktestTrade tradeId runId (id market)
                (sig_side entrySignal) (sig_timestamp entrySignal)
                (sig_entryPrice entrySignal) None None sizeUsd None None in
            mkSim
              (<[id market :=
                   mkOpenPosition tradeId (id market) (sig_side entrySignal)
                     (sig_entryPrice entrySignal)
                     (sig_timestamp entrySignal) sizeUsd]>
                 (openPositions s))
              (completedTrades s)
              (tradedMarkets s)
              (currentExposure s + sizeUsd)%float
              (if dryRun then backtest_trades_seq s
               else backtest_trades_seq s + 1)
              (if dryRun then statements s
               else statements s ++ [InsertBacktestTrade trade])
          else s
      | None => s
      end
  else s.

(** The body of [for (let i = 0; i < markets.length; i++)]. *)
Definition simulateMarket (s : Sim) (market : Market) : Sim :=
  (* Get price history *)
  let priceHistory := getPriceHistory (id market) in
  match priceHistory with
  | [] => s (* continue *)
  | first :: rest =>
      (* Filter price history to date range *)
      let relevantHistory :=
        List.filter
          (fun p =>
             let date := before_T (timestamp p) in
             String.leb startDate date && String.leb date endDate)
          priceHistory in
      (* Simulate through price history *)
      let s := fold_left (simulatePoint market) relevantHistory s in
      (* Force close any remaining positions at resolution *)
      match openPositions s !! id market, outcome market with
      | Some position, Some out =>
          let finalPrice :=
            if TokenSide_eqb out (op_side position)
            then 1%float else 0%float in
          let lastPrice := List.last rest first in
          closePosition market position (timestamp lastPrice) finalPrice
            resolution s
      | _, _ => s
      end
  end.

(** The loop variables as phase 2 initialises them; [seq] is the last
    row id of [backtest_trades] when the run starts. *)
Definition initial (seq : Z) : Sim := mkSim ∅ [] ∅ 0%float seq [].

(** Phase 2 over the markets that passed the filters. *)
Definition simulate (markets : list Market) (seq : Z) : Sim :=
  fold_left simulateMarket markets (initial seq).

End Engine.

End Backtest.

(** ** Vocabulary of the statements *)

(** What [fetchBalance] makes of the venue's answer. *)
Definition clobReading (r : BalanceResponse) : float :=
  match r with
  | BalanceIs parsed => (parsed / 1e6)%float
  | BalanceThrows _ => 0%float
  end.

(** What [fetchOnChainUSDC] makes of the RPC node's answer. *)
Definition onChainReading (r : RpcResponse) : float :=
  match r with
  | RpcResult balanceWei => (Number_of_BigInt balanceWei / 1e6)%float
  | _ => 0%float
  end.

Definition ordersReading (r : OpenOrdersResponse) : list OpenOrder :=
  match r with OrdersAre l => l | _ => [] end.

(** The positions built from an array whose first element is stamped at
    tick [t]. *)
Fixpoint positionsAt (env : Env) (t : nat) (l : list RawPosition)
  : list Position :=
  match l with
  | [] => []
  | pos :: l => toPosition_at pos (env_now env t) :: positionsAt env (S t) l
  end.

Definition positionsReading (env : Env) (t : nat) (r : PositionsResponse)
  : list Position :=
  match r with PositionsAre l => positionsAt env t l | _ => [] end.

Definition positionsCount (r : PositionsResponse) : nat :=
  match r with PositionsAre l => length l | _ => 0%nat end.

(** The state assembled by a live fetch whose first question is asked at
    tick [t]. *)
Definition fetchedState (env : Env) (now : Z) (t : nat) : AccountState :=
  let b := Math_max (clobReading (env_getBalanceAllowance env t))
                    (onChainReading (env_polygonRpc env (1 + t))) in
  mkAccountState b b
    (positionsReading env (4 + t) (env_dataApiPositions env (3 + t)))
    (ordersReading (env_getOpenOrders env (2 + t)))
    now api.

(** The world after that fetch. *)
Definition fetchedWorld (env : Env) (now : Z) (t : nat) (w : World) : World :=
  mkWorld (order_tracking w) (order_tracking_seq w) (live_trades w)
    (live_trades_seq w) (pendingOrders w)
    (Some (fetchedState env now t)) None
    (4 + t + positionsCount (env_dataApiPositions env (3 + t)))
    (trace w ++ [EvGetBalanceAllowance; EvPolygonRpc; EvGetOpenOrders;
                 EvDataApiPositions]).

(** [w'] differs from [w] by reads of the outside only: the ledger and the
    in-flight set are the same, and the log grew by read events. *)
Definition only_reads (w w' : World) : Prop :=
  order_tracking w' = order_tracking w /\
  order_tracking_seq w' = order_tracking_seq w /\
  live_trades w' = live_trades w /\
  live_trades_seq w' = live_trades_seq w /\
  pendingOrders w' = pendingOrders w /\
  exists reads, trace w' = trace w ++ reads /\ forallb is_read reads = true.

(** The tick at which [getState] starts its live fetch, or [None] when it
    answers from a cache that is younger than the stale threshold. *)
Definition fetch_start (env : Env) (smc : StateManagerConfig)
    (forceRefresh : bool) (w : World) : option nat :=
  match cachedState w with
  | Some c =>
      if negb forceRefresh
      then if Z.ltb (env_now env (S (tick w)) - lastSyncTime c)
                    (staleThresholdMs smc)
           then None
           else Some (2 + tick w)%nat
      else Some (1 + tick w)%nat
  | None => Some (1 + tick w)%nat
  end.

(** [n] more readings of the clock. *)
Definition later (n : nat) (w : World) : World :=
  mkWorld (order_tracking w) (order_tracking_seq w) (live_trades w)
    (live_trades_seq w) (pendingOrders w) (cachedState w) (lastError w)
    (tick w + n) (trace w).

(** *** Reconciliation *)

Definition has_position (st : AccountState) (market : string) : bool :=
  existsb (fun p => String.eqb (pos_marketId p) market) (positions st).

Definition has_order (st : AccountState) (market : string) : bool :=
  existsb (fun o => String.eqb (oo_market o) market) (openOrders st).

(** A local trade that the first loop repairs: ['open'], with neither a
    position nor an open order in its market. *)
Definition orphaned (st : AccountState) (t : LiveTrade) : bool :=
  negb (has_position st (lt_market_id t)) &&
  negb (has_order st (lt_market_id t)) &&
  match lt_status t with open => true | _ => false end.

Definition not_found_note : string :=
  "Reconciliation: position not found on Polymarket".


Definition local_discrepancy (t : LiveTrade) : string :=
  "Local trade " +:+ String_of_int (lt_id t) +:+
  " shows 'open' but no position/order on Polymarket".

Definition remote_discrepancy (p : Position) : string :=
  "Position in " +:+ pos_marketId p +:+
  " exists on Polymarket but not in local database".

(** The effect of [UPDATE ... WHERE id = ?] for each id of [ids]. *)
Definition mark_unknown (ids : list Z) (t : LiveTrade) : LiveTrade :=
  if existsb (Z.eqb (lt_id t)) ids then set_unknown not_found_note t else t.

(** The world after the first loop has repaired the trades [ts]. *)
Definition repaired (ts : list LiveTrade) (w : World) : World :=
  mkWorld (order_tracking w) (order_tracking_seq w)
    (map (mark_unknown (map lt_id ts)) (live_trades w))
    (live_trades_seq w) (pendingOrders w) (cachedState w) (lastError w)
    (tick w) (trace w ++ map (fun t => EvUpdateLiveTrade (lt_id t)) ts).

(** A venue position for which the second loop finds no local trade. *)
Definition unmatched (localTrades : list LiveTrade) (p : Position) : bool :=
  match List.find (fun t => String.eqb (lt_market_id t) (pos_marketId p))
                  localTrades with
  | Some _ => false
  | None => true
  end.

(** The message of SQLite when the CHECK on [live_trades.side] fails. *)
Definition check_failed : string :=
  "CHECK constraint failed: side IN ('YES', 'NO')".

(** The world after one row has been inserted for [p]. *)
Definition inserted1 (env : Env) (p : Position) (w : World) : World :=
  mkWorld (order_tracking w) (order_tracking_seq w)
    (live_trades w ++
       [found_row p (live_trades_seq w + 1) (env_now env (tick w))])
    (live_trades_seq w + 1) (pendingOrders w) (cachedState w) (lastError w)
    (S (tick w)) (trace w ++ [EvInsertLiveTrade (pos_marketId p)]).



Definition sides_allowed (ps : list Position) : bool :=
  forallb (fun p => side_allowed (pos_side p)) ps.

(** The market ids in the answer of the positions endpoint. *)
Definition position_markets (r : PositionsResponse) : list string :=
  match r with PositionsAre l => map raw_conditionId l | _ => [] end.

(** *** Order execution *)

(** The order id that the executor reads off the venue's answer:
    [result?.orderID || result?.orderId]. *)
Definition venue_order_id (result : option VenueResult) : option string :=
  or_ostr (result ≫= res_orderID) (result ≫= res_orderId).

(** What a submission came to when it yielded no order id: the message
    of the exception, or [result?.errorMsg || 'No order ID returned'];
    [None] when the venue handed back an order id. *)
Definition submission_error (a : SubmitResponse) : option string :=
  match a with
  | SubmitThrows msg => Some msg
  | SubmitReturns r =>
      if truthy_ostr (venue_order_id r) then None
      else Some (or_str (r ≫= res_errorMsg) "No order ID returned")
  end.

(** The ['created'] row that [placeBuyOrder] or [placeSellOrder] writes
    in world [w]. *)
Definition created_row (env : Env) (sd : OrderSide) (request : OrderRequest)
    (key : string) (w : World) : OrderTracking :=
  mkOrderTracking (order_tracking_seq w + 1) None (req_marketId request)
    (req_tokenId request) sd (or_num (req_price request) 0)
    (req_sizeUsd request) "MARKET" created None (Some key)
    (env_now env (tick w)) (env_now env (tick w)) None None.

(** The key that [generateIdempotencyKey] derives when the clock is read
    at tick [t] and the random bytes are drawn at the next. *)
Definition derived_key `{NumberFormat} (env : Env) (request : OrderRequest)
    (t : nat) : string :=
  "order_" +:+
  (req_marketId request +:+ ":" +:+ TokenSide_str (req_side request)
     +:+ ":" +:+ Number_toString (req_sizeUsd request)
     +:+ ":" +:+ String_of_int (floor_div (env_now env t) 60000))
  +:+ "_" +:+ Buffer_toHex (env_randomBytes env (S t) 4).

(** *** Kinds of effects *)

(** Effects that change the venue: a submission or a cancellation. *)
Definition is_venue_write (e : Event) : bool :=
  match e with
  | EvCreateAndPostMarketOrder _ _ | EvCancelAll => true
  | _ => false
  end.

(** Statements that write the table [live_trades]. *)
Definition is_live_trades_write (e : Event) : bool :=
  match e with
  | EvInsertLiveTrade _ | EvUpdateLiveTrade _ => true
  | _ => false
  end.


(** *** The backtest *)

(** No position is open and no exposure is held. *)
Definition flat (s : Backtest.Sim) : Prop :=
  Backtest.openPositions s = ∅ /\ Backtest.currentExposure s = 0%float.

(** The one open position is in market [m], and its size, which is
    [size], is the whole exposure. *)
Definition holding (size : float) (m : string) (s : Backtest.Sim) : Prop :=
  exists position,
    Backtest.openPositions s = {[m := position]} /\
    Backtest.op_sizeUsd position = size /\
    Backtest.currentExposure s = size.

(** Every completed trade has size [size]. *)
Definition sized (size : float) (s : Backtest.Sim) : Prop :=
  forall t, In t (Backtest.completedTrades s) -> Backtest.size_usd t = size.

(** The completed trades are of distinct markets, each of them marked as
    traded, and no market marked as traded has an open position. *)
Definition traded_once (s : Backtest.Sim) : Prop :=
  List.NoDup (map Backtest.bt_market_id (Backtest.completedTrades s)) /\
  (forall t, In t (Backtest.completedTrades s) ->
     Backtest.bt_market_id t ∈ Backtest.tradedMarkets s) /\
  (forall m, m ∈ Backtest.tradedMarkets s ->
     Backtest.openPositions s !! m = None).

(** The row that was inserted when trade [t] was opened: its exit
    columns are still [NULL]. *)
Definition as_opened (t : Backtest.BacktestTrade) : Backtest.BacktestTrade :=
  Backtest.mkBacktestTrade (Backtest.bt_id t) (Backtest.run_id t)
    (Backtest.bt_market_id t) (Backtest.bt_side t) (Backtest.entry_time t)
    (Backtest.entry_price t) None None (Backtest.size_usd t) None None.

(** The row inserted for the open position [p] of market [m]. *)
Definition row_of (runId m : string) (p : Backtest.OpenPosition)
  : Backtest.BacktestTrade :=
  Backtest.mkBacktestTrade (Backtest.tradeId p) runId m (Backtest.op_side p)
    (Backtest.op_entryTime p) (Backtest.op_entryPrice p) None None
    (Backtest.op_sizeUsd p) None None.

(** Trade [t] was written by the statements [l]: inserted as opened, and
    updated with its exit. *)
Definition written (l : list Backtest.Statement) (t : Backtest.BacktestTrade)
  : Prop :=
  In (Backtest.InsertBacktestTrade (as_opened t)) l /\
  exists exitTime exitPrice pnl exitReason,
    Backtest.exit_time t = Some exitTime /\
    Backtest.exit_price t = Some exitPrice /\
    Backtest.pnl t = Some pnl /\
    Backtest.exit_reason t = Some exitReason /\
    In (Backtest.UpdateBacktestTrade (Backtest.bt_id t) exitTime exitPrice
          pnl exitReason) l.

(** In a run that persists, with [seq0] the last row id before it: the
    ids handed out are above [seq0], up to the present sequence, and
    pairwise distinct; every completed trade is written, and every open
    position is inserted. *)
Definition persisted (runId : string) (seq0 : Z) (s : Backtest.Sim) : Prop :=
  seq0 <= Backtest.backtest_trades_seq s /\
  List.NoDup (map Backtest.bt_id (Backtest.completedTrades s)) /\
  (forall t, In t (Backtest.completedTrades s) ->
     seq0 < Backtest.bt_id t <= Backtest.backtest_trades_seq s /\
     written (Backtest.statements s) t) /\
  (forall m p, Backtest.openPositions s !! m = Some p ->
     seq0 < Backtest.tradeId p <= Backtest.backtest_trades_seq s /\
     (forall t, In t (Backtest.completedTrades s) ->
        Backtest.bt_id t <> Backtest.tradeId p) /\
     In (Backtest.InsertBacktestTrade (row_of runId m p))
        (Backtest.statements s)) /\
  (forall m1 m2 p1 p2,
     Backtest.openPositions s !! m1 = Some p1 ->
     Backtest.openPositions s !! m2 = Some p2 ->
     Backtest.tradeId p1 = Backtest.tradeId p2 -> m1 = m2).

(** [price] is inside the entry band of [side]: [entryPriceMin,
    entryPriceMax] for YES, [1 - entryPriceMax, 1 - entryPriceMin] for
    NO. *)
Definition in_entry_band (config : Convergence.StrategyConfig)
    (side : TokenSide) (price : float) : bool :=
  match side with
  | YES =>
      (Convergence.entryPriceMin config <=? price)%float &&
      (price <=? Convergence.entryPriceMax config)%float
  | NO =>
      (1 - Convergence.entryPriceMax config <=? price)%float &&
      (price <=? 1 - Convergence.entryPriceMin config)%float
  end.

(** What makes an exit at [price] for [exitReason] right, for a position
    entered at [entryPrice]: the target was reached and the strategy
    does not hold to resolution; or the price fell to the stop-loss
    threshold; or the market resolved and the price is 1 or 0. *)
Definition exit_justified (config : Convergence.StrategyConfig)
    (riskConfig : Convergence.RiskConfig) (entryPrice : float)
    (exitReason : Convergence.ExitReason) (price : float) : Prop :=
  match exitReason with
  | Convergence.target =>
      Convergence.holdToResolution config = false /\
      (Convergence.exitPriceTarget config <=? price)%float = true
  | Convergence.stop_loss =>
      exists pct,
        Convergence.stopLossPercent riskConfig = Some pct /\
        (price <=? entryPrice * (1 - pct / 100))%float = true
  | Convergence.resolution => price = 1%float \/ price = 0%float
  end.

(** Trade [t] was entered inside the band of its side with a positive
    size, and left for a reason that held, with the profit or loss of
    its prices. *)
Definition by_the_book (config : Convergence.StrategyConfig)
    (riskConfig : Convergence.RiskConfig) (t : Backtest.BacktestTrade)
  : Prop :=
  in_entry_band config (Backtest.bt_side t) (Backtest.entry_price t) = true /\
  (0 <? Backtest.size_usd t)%float = true /\
  exists exitPrice exitReason,
    Backtest.exit_price t = Some exitPrice /\
    Backtest.exit_reason t = Some exitReason /\
    Backtest.pnl t =
      Some (Convergence.calculatePnL (Backtest.bt_side t)
              (Backtest.entry_price t) exitPrice (Backtest.size_usd t)) /\
    exit_justified config riskConfig (Backtest.entry_price t) exitReason
      exitPrice.

(** Market [m] has neither an open position nor a completed trade. *)
Definition untouched (m : string) (s : Backtest.Sim) : Prop :=
  Backtest.openPositions s !! m = None /\
  forall t, In t (Backtest.completedTrades s) -> Backtest.bt_market_id t <> m.

(** The events that the call from [w] to [w'] added to the log. *)
Definition new_events (w w' : World) (events : list Event) : Prop :=
  trace w' = trace w ++ events.

(** ** Scenarios

    Concrete worlds and oracles on which the statements below are
    exercised. *)

(** The clock advances by one millisecond per reading. *)
Definition clock (t : nat) : Z := 1700000000000 + Z.of_nat t.

Definition emptyWorld : World := mkWorld [] 0 [] 0 ∅ None None 0 [].

Definition smc30 : StateManagerConfig := mkStateManagerConfig "0xabc" 30000.

Definition accepted : SubmitResponse :=
  SubmitReturns (Some (mkVenueResult (Some "0xorder1") None
                                     (Some "matched") None)).

(** The venue reports a balance of 0 while the wallet holds 37.50 USDC
    on chain; no open orders, no positions. *)
Definition zeroClobEnv : Env :=
  mkEnv clock (fun _ n => repeat Byte.x00 n)
    (fun _ => BalanceIs 0) (fun _ => RpcResult 37500000)
    (fun _ => OrdersAre []) (fun _ => PositionsAre [])
    (fun _ _ => accepted) (fun _ => CancelDone).

(** A printer that is right on the amounts of the scenarios. *)
Definition scenarioFormat : NumberFormat :=
  {| Number_toString := fun x =>
       if (x =? 10)%float then "10"
       else if (x =? 50)%float then "50"
       else if (x =? 100)%float then "100" else "0";
     Number_toFixed2 := fun x =>
       if (x =? 10)%float then "10.00"
       else if (x =? 50)%float then "50.00"
       else if (x =? 100)%float then "100.00" else "0.00" |}.

(** Live trading and dry run, exposure ceiling 50, position size 10. *)
Definition liveConfig : ExecutorConfig := mkExecutorConfig smc30 50 10 false.
Definition dryConfig : ExecutorConfig := mkExecutorConfig smc30 50 10 true.

(** The intent of the end-to-end scenario: 10 USD of YES in [m1]. *)
Definition intent (key : option string) : OrderRequest :=
  mkOrderRequest "m1" "tokYes" YES 10 (Some 0.75%float) key.

(** The venue accepts the order asked at tick [t] under a fresh id. *)
Definition acceptedAt (t : nat) : SubmitResponse :=
  SubmitReturns
    (Some (mkVenueResult (Some ("0xorder" +:+ String_of_int (Z.of_nat t)))
                         None (Some "matched") None)).

(** Balance 100, nothing open (the venue does not show a position yet),
    every order is accepted, and the random bytes differ from one draw
    to the next. *)
Definition fundedEnv : Env :=
  mkEnv clock
    (fun t n => repeat (default Byte.x00
                          (Byte.of_N (N.of_nat t mod 256)%N)) n)
    (fun _ => BalanceIs 100000000) (fun _ => RpcResult 0)
    (fun _ => OrdersAre []) (fun _ => PositionsAre [])
    (fun t _ => acceptedAt t) (fun _ => CancelDone).

(** A ledger in which the key [k1] belongs to an order that was filled. *)
Definition filledWorld : World :=
  mkWorld
    [mkOrderTracking 1 (Some "0xorder1") "m1" "tokYes" BUY 0.75 10 "MARKET"
       filled (Some "matched") (Some "k1") (clock 0) (clock 0)
       (Some (clock 0)) None]
    1 [] 0 ∅ None None 0 [].


Definition trade (id : Z) (market : string) (st : TradeStatus) : LiveTrade :=
  mkLiveTrade id market (Some "tok") "YES" (Some 0.75%float) 12.5
    (Some 10%float) st (Some (clock 0)) (Some "0xold") None (clock 0)
    (clock 0).

(** The ledger holds an ['open'] trade in [mA] and a ['pending'] trade in
    [mB]; the venue knows neither. *)
Definition driftWorld : World :=
  mkWorld [] 0 [trade 1 "mA" open; trade 2 "mB" pending] 2 ∅ None None 0 [].


(** Every read of the outside fails; cancellation succeeds. *)
Definition outageEnv : Env :=
  mkEnv clock (fun _ n => repeat Byte.x00 n)
    (fun _ => BalanceThrows "ECONNRESET")
    (fun _ => RpcThrows "ECONNRESET")
    (fun _ => OrdersThrow "ECONNRESET")
    (fun _ => PositionsThrow "ECONNRESET")
    (fun _ _ => SubmitThrows "ECONNRESET") (fun _ => CancelDone).

(** The venue holds a position in an Up/Down market: its outcome is
    neither Yes nor No. *)
Definition upDownEnv : Env :=
  mkEnv clock (fun _ n => repeat Byte.x00 n)
    (fun _ => BalanceIs 100000000) (fun _ => RpcResult 0)
    (fun _ => OrdersAre [])
    (fun _ => PositionsAre
                [mkRawPosition "mU" "tokU" (Some "Up") (Some 20%float)
                   (Some 0.75%float) (Some 17.5%float) (Some 0.875%float)
                   (Some 1%float) (Some "Bitcoin up or down?")])
    (fun _ _ => accepted) (fun _ => CancelDone).

(** Balance 100, nothing open; the venue is unreachable for buys, kills
    every sell without handing back an id, and times out on
    cancellation. *)
Definition failingEnv : Env :=
  mkEnv clock (fun _ n => repeat Byte.x00 n)
    (fun _ => BalanceIs 100000000) (fun _ => RpcResult 0)
    (fun _ => OrdersAre []) (fun _ => PositionsAre [])
    (fun _ args =>
       match arg_side args with
       | BUY => SubmitThrows "ECONNRESET"
       | SELL => SubmitReturns
                   (Some (mkVenueResult None None None
                            (Some "order could not be filled")))
       end)
    (fun _ => CancelThrows "ETIMEDOUT").

(** The opportunity of the end-to-end scenario: market [m1], YES at
    0.75. *)
Definition opportunity : QualifyingMarket :=
  mkQualifyingMarket "m1" "tokYes" 0.75.

(** *** The strategy *)

(** Two instants as the runtime parses them. *)
Definition scenarioDate (s : string) : option Z :=
  if String.eqb s "2024-03-01T00:00:00.000Z" then Some 1709251200000
  else if String.eqb s "2024-03-02T00:00:00.000Z" then Some 1709337600000
  else None.

(** A market that resolved YES on the first of March. *)
Definition resolvedYes : Convergence.Market :=
  Convergence.mkMarket "m1" "Will it happen?" None
    (Some "2024-03-01T00:00:00.000Z") (Some YES) 1.

(** The price point of the second of March: YES at 1, NO at 0. *)
Definition afterResolution : Convergence.PricePoint :=
  Convergence.mkPricePoint "m1" "2024-03-02T00:00:00.000Z" 1 0.

(** Hold to resolution, target 0.875; stop-loss at 50 percent or none. *)
Definition holdConfig : Convergence.StrategyConfig :=
  Convergence.mkStrategyConfig 0.5 0.75 0.875 1 5 true.
Definition noStop : Convergence.RiskConfig :=
  Convergence.mkRiskConfig 10 5 50 None.
Definition halfStop : Convergence.RiskConfig :=
  Convergence.mkRiskConfig 10 5 50 (Some 50%float).

(** A market that resolved YES on the second of March, and its price
    history: YES at 0.625 on the first, at 1 on the second. *)
Definition resolvedLater : Convergence.Market :=
  Convergence.mkMarket "m1" "Will it happen?" None
    (Some "2024-03-02T00:00:00.000Z") (Some YES) 1.

Definition marchHistory (market : string) : list Convergence.PricePoint :=
  if String.eqb market "m1"
  then [Convergence.mkPricePoint "m1" "2024-03-01T00:00:00.000Z" 0.625 0.375;
        Convergence.mkPricePoint "m1" "2024-03-02T00:00:00.000Z" 1 0]
  else [].

(** A market that is still open on the first of March and resolves on
    the second, and its price point of the first: YES at 0.625. *)
Definition openMarket : Convergence.Market :=
  Convergence.mkMarket "m1" "Will it happen?" None
    (Some "2024-03-02T00:00:00.000Z") None 1.

Definition beforeResolution : Convergence.PricePoint :=
  Convergence.mkPricePoint "m1" "2024-03-01T00:00:00.000Z" 0.625 0.375.

(** The same price under a timestamp that the runtime cannot parse. *)
Definition undatedPoint : Convergence.PricePoint :=
  Convergence.mkPricePoint "m1" "yesterday" 0.625 0.375.

(** [toFixed(3)], right on the prices of the scenarios. *)
Definition scenarioFixed3 (x : float) : string :=
  if (x =? 0.625)%float then "0.625"
  else if (x =? 0.375)%float then "0.375" else "0.000".

(** ** Basic facts about the monad *)



Lemma bind_eq {A B} (m : Async A) (f : A -> Async B) w :
  (m ≫= f) w =
  match m w with
  | (Returned a, w') => f a w'
  | (Thrown e, w') => (Thrown e, w')
  end.
Proof. reflexivity. Qed.

Lemma mret_eq {A} (a : A) w : (mret a : Async A) w = (Returned a, w).
Proof. reflexivity. Qed.

Lemma throw_eq {A} msg w : (throw msg : Async A) w = (Thrown msg, w).
Proof. reflexivity. Qed.

Lemma get_world_eq w : get_world w = (Returned w, w).
Proof. reflexivity. Qed.

Lemma modify_eq f w : modify f w = (Returned tt, f w).
Proof. reflexivity. Qed.

Lemma Date_now_eq env w :
  Date_now env w = (Returned (env_now env (tick w)), next_tick w).
Proof. reflexivity. Qed.

Lemma ask_eq {A} e (answer : nat -> A) w :
  ask e answer w = (Returned (answer (tick w)), next_tick (log_event e w)).
Proof. reflexivity. Qed.

Ltac async :=
  unfold mbind, mret, Async_bind, Async_ret, try_catch, try_finally,
         ask, throw, modify, get_world, Date_now; simpl.

Lemma only_reads_refl w : only_reads w w.
Proof.
  repeat split; exists []. now rewrite app_nil_r.
Qed.

Lemma only_reads_trans w1 w2 w3 :
  only_reads w1 w2 -> only_reads w2 w3 -> only_reads w1 w3.
Proof.
  intros (a1 & a2 & a3 & a4 & a5 & r1 & t1 & f1)
         (b1 & b2 & b3 & b4 & b5 & r2 & t2 & f2).
  repeat split; try congruence.
  exists (r1 ++ r2). split.
  - now rewrite t2, t1, app_assoc.
  - now rewrite forallb_app, f1, f2.
Qed.


(** ** StateManager: the fetchers never throw *)

Section StateManagerFacts.

Context (env : Env) (smc : StateManagerConfig).

Lemma fetchOnChainUSDC_eq w :
  fetchOnChainUSDC env w =
  (Returned (onChainReading (env_polygonRpc env (tick w))),
   next_tick (log_event EvPolygonRpc w)).
Proof.
  unfold fetchOnChainUSDC. async.
  destruct (env_polygonRpc env (tick w)); reflexivity.
Qed.

Lemma fetchBalance_eq w :
  fetchBalance env w =
  (Returned
     (let b := Math_max (clobReading (env_getBalanceAllowance env (tick w)))
                        (onChainReading (env_polygonRpc env (S (tick w)))) in
      mkBalanceAllowance b b),
   next_tick (log_event EvPolygonRpc
     (next_tick (log_event EvGetBalanceAllowance w)))).
Proof.
  unfold fetchBalance.
  unfold mbind at 1, Async_bind at 1.
  assert (E : try_catch
    (r ← ask EvGetBalanceAllowance (env_getBalanceAllowance env);
     match r with
     | BalanceThrows msg => throw msg
     | BalanceIs parsed => mret (parsed / 1e6)%float
     end) (fun _ => mret 0%float) w =
    (Returned (clobReading (env_getBalanceAllowance env (tick w))),
     next_tick (log_event EvGetBalanceAllowance w))).
  { async. destruct (env_getBalanceAllowance env (tick w)); reflexivity. }
  rewrite E.
  unfold mbind, Async_bind. rewrite fetchOnChainUSDC_eq. reflexivity.
Qed.

Lemma fetchOpenOrders_eq w :
  fetchOpenOrders env w =
  (Returned (ordersReading (env_getOpenOrders env (tick w))),
   next_tick (log_event EvGetOpenOrders w)).
Proof.
  unfold fetchOpenOrders. async.
  destruct (env_getOpenOrders env (tick w)); reflexivity.
Qed.

Lemma mapM_toPosition_eq l w :
  mapM (toPosition env) l w =
  (Returned (positionsAt env (tick w) l), later (length l) w).
Proof.
  revert w. induction l as [|pos l IH]; intros w; simpl.
  - unfold mret, Async_ret, later. rewrite Nat.add_0_r. now destruct w.
  - unfold toPosition at 1. async.
    unfold mbind, Async_bind in IH. rewrite IH. simpl.
    unfold later, next_tick. simpl. do 2 f_equal. lia.
Qed.

Lemma fetchPositionsFromDataAPI_eq w :
  fetchPositionsFromDataAPI env w =
  (Returned (positionsReading env (S (tick w))
               (env_dataApiPositions env (tick w))),
   later (positionsCount (env_dataApiPositions env (tick w)))
         (next_tick (log_event EvDataApiPositions w))).
Proof.
  unfold fetchPositionsFromDataAPI.
  unfold try_catch, mbind, Async_bind, ask.
  destruct (env_dataApiPositions env (tick w)) as [msg|st| |l]; simpl.
  - unfold throw, mret, Async_ret, later. simpl. now rewrite Nat.add_0_r.
  - unfold mret, Async_ret, later. simpl. now rewrite Nat.add_0_r.
  - unfold mret, Async_ret, later. simpl. now rewrite Nat.add_0_r.
  - now rewrite mapM_toPosition_eq.
Qed.

End StateManagerFacts.

Section GetState.

Context (env : Env) (smc : StateManagerConfig).

(** A live fetch never throws: this is all that the [try] block of
    [getState] can do, started in world [w] with [now] already read. *)
Lemma getState_fetch_eq now w :
  (balanceResult ← fetchBalance env;
   openOrdersResult ← fetchOpenOrders env;
   positions ← fetchPositionsFromDataAPI env;
   let state := mkAccountState (ba_balance balanceResult)
                  (ba_allowance balanceResult) positions
                  openOrdersResult now api in
   modify (set_cachedState (Some state));;
   modify (set_lastError None);;
   mret state) w
  = (Returned (fetchedState env now (tick w)),
     fetchedWorld env now (tick w) w).
Proof.
  unfold mbind at 1, Async_bind at 1. rewrite fetchBalance_eq.
  unfold mbind at 1, Async_bind at 1. rewrite fetchOpenOrders_eq.
  unfold mbind at 1, Async_bind at 1.
  rewrite fetchPositionsFromDataAPI_eq.
  unfold mbind, Async_bind, modify, mret, Async_ret.
  unfold fetchedState, fetchedWorld, later. cbn.
  rewrite <- !app_assoc. reflexivity.
Qed.

Lemma getState_refresh w :
  getState env smc true w =
  (Returned (fetchedState env (env_now env (tick w)) (S (tick w))),
   fetchedWorld env (env_now env (tick w)) (S (tick w)) w).
Proof.
  unfold getState.
  unfold mbind at 1, Async_bind at 1, Date_now at 1.
  unfold mbind at 1, Async_bind at 1, get_world at 1.
  cbn [cachedState next_tick negb].
  assert (E : match cachedState w with
              | Some _ | _ => (mret None : Async (option AccountState))
              end = mret None) by (destruct (cachedState w); reflexivity).
  rewrite E. clear E.
  unfold mbind at 1, Async_bind at 1, mret at 1, Async_ret at 1.
  unfold try_catch. rewrite getState_fetch_eq. reflexivity.
Qed.

End GetState.

(** ** [Math.max] is the larger of two numbers *)

Section MathMax.

Local Open Scope float_scope.

Lemma SFcompare_antisym x y :
  SFcompare y x = option_map CompOpp (SFcompare x y).
Proof.
  destruct x as [sx|sx| |sx mx ex], y as [sy|sy| |sy my ey]; simpl;
    try reflexivity;
    try (destruct sx; reflexivity); try (destruct sy; reflexivity);
    try (destruct sx, sy; reflexivity).
  f_equal. rewrite (Z.compare_antisym ex ey).
  destruct sx, sy; simpl; try reflexivity;
    destruct (ex ?= ey)%Z; simpl; try reflexivity.
  - f_equal. exact (ZC4 my mx).
  - exact (ZC4 my mx).
Qed.

Lemma not_nan_compare a b :
  is_nan a = false -> is_nan b = false ->
  exists c, SFcompare (Prim2SF a) (Prim2SF b) = Some c.
Proof.
  unfold is_nan. rewrite !FloatAxioms.eqb_spec. unfold SFeqb.
  destruct (Prim2SF a) as [sa|sa| |sa ma ea] eqn:Ea,
           (Prim2SF b) as [sb|sb| |sb mb eb] eqn:Eb;
    simpl; intros Ha Hb; try discriminate; eauto.
Qed.

Lemma leb_refl a : is_nan a = false -> (a <=? a) = true.
Proof.
  intros Ha. destruct (not_nan_compare a a Ha Ha) as [c Hc].
  pose proof (SFcompare_antisym (Prim2SF a) (Prim2SF a)) as An.
  rewrite Hc in An. simpl in An.
  rewrite FloatAxioms.leb_spec. unfold SFleb. rewrite Hc.
  destruct c; try reflexivity; discriminate.
Qed.

Lemma ltb_leb a b : (a <? b) = true -> (a <=? b) = true.
Proof.
  rewrite FloatAxioms.ltb_spec, FloatAxioms.leb_spec. unfold SFltb, SFleb.
  destruct (SFcompare (Prim2SF a) (Prim2SF b)) as [[]|]; congruence.
Qed.

Lemma not_ltb_leb a b :
  is_nan a = false -> is_nan b = false ->
  (a <? b) = false -> (b <=? a) = true.
Proof.
  intros Ha Hb. destruct (not_nan_compare a b Ha Hb) as [c Hc].
  rewrite FloatAxioms.ltb_spec, FloatAxioms.leb_spec. unfold SFltb, SFleb.
  rewrite (SFcompare_antisym (Prim2SF a) (Prim2SF b)), Hc.
  destruct c; simpl; congruence.
Qed.

(** For two numbers, [Math.max] returns one of them, and neither is
    above it. *)
Lemma Math_max_is_max a b :
  is_nan a = false -> is_nan b = false ->
  (Math_max a b = a \/ Math_max a b = b) /\
  (a <=? Math_max a b) = true /\ (b <=? Math_max a b) = true.
Proof.
  intros Ha Hb. unfold Math_max. rewrite Ha, Hb. simpl.
  destruct (a <? b) eqn:Lab.
  - split; [now right|]. split; [now apply ltb_leb | now apply leb_refl].
  - destruct (b <? a) eqn:Lba.
    + split; [now left|]. split; [now apply leb_refl | now apply ltb_leb].
    + destruct (is_zero a && get_sign a).
      * split; [now right|].
        split; [now apply not_ltb_leb | now apply leb_refl].
      * split; [now left|].
        split; [now apply leb_refl | now apply not_ltb_leb].
Qed.

End MathMax.

Section GetStateCases.

Context (env : Env) (smc : StateManagerConfig).

(** [getState] in every case: either the cache is young enough, or a
    live fetch is made; it never throws. *)
Lemma getState_eq forceRefresh w :
  getState env smc forceRefresh w =
  match fetch_start env smc forceRefresh w with
  | Some t =>
      (Returned (fetchedState env (env_now env (tick w)) t),
       fetchedWorld env (env_now env (tick w)) t w)
  | None =>
      match cachedState w with
      | Some c => (Returned (as_cache c), later 2 w)
      | None => (Thrown "unreachable", w)
      end
  end.
Proof.
  destruct forceRefresh.
  { rewrite getState_refresh. unfold fetch_start.
    destruct (cachedState w); reflexivity. }
  unfold getState, fetch_start.
  rewrite bind_eq, Date_now_eq. cbv beta iota.
  rewrite bind_eq, get_world_eq. cbv beta iota.
  cbn [cachedState next_tick negb].
  destruct (cachedState w) as [c|] eqn:Ec.
  - rewrite 2!bind_eq, Date_now_eq. cbv beta iota.
    rewrite mret_eq. cbn [tick next_tick].
    destruct (env_now env (S (tick w)) - lastSyncTime c <?
              staleThresholdMs smc) eqn:Eage.
    + rewrite mret_eq. unfold later, next_tick. cbn.
      do 2 f_equal. lia.
    + unfold try_catch. rewrite getState_fetch_eq.
      unfold fetchedWorld, next_tick. cbn. reflexivity.
  - rewrite bind_eq, mret_eq. cbv beta iota.
    unfold try_catch. rewrite getState_fetch_eq. reflexivity.
Qed.

Lemma fetchedWorld_only_reads now t w :
  only_reads w (fetchedWorld env now t w).
Proof.
  repeat split.
  exists [EvGetBalanceAllowance; EvPolygonRpc; EvGetOpenOrders;
          EvDataApiPositions]. split; reflexivity.
Qed.

Lemma later_only_reads n w : only_reads w (later n w).
Proof. repeat split; exists []; now rewrite app_nil_r. Qed.

(** [getState] always returns, and only reads. *)
Lemma getState_total forceRefresh w :
  exists st w',
    getState env smc forceRefresh w = (Returned st, w') /\
    only_reads w w'.
Proof.
  rewrite getState_eq. unfold fetch_start.
  destruct (cachedState w) as [c|].
  - destruct (negb forceRefresh);
      [destruct (_ <? _)|]; eexists _, _; split; try reflexivity;
      auto using fetchedWorld_only_reads, later_only_reads.
  - eexists _, _; split; [reflexivity|].
    apply fetchedWorld_only_reads.
Qed.

End GetStateCases.

(** ** The synchroniser: balance, degradation, cancellation *)

(** C5: whenever [getState] makes a live fetch, the balance it reports is
    [Math.max] of the venue-reported (CLOB) reading and the on-chain
    reading: one of the two, with neither above it; in particular a
    venue reading of 0 and an on-chain reading of 37.50 give exactly
    37.50. *)
Theorem getState_balance_is_max env smc forceRefresh w t :
  fetch_start env smc forceRefresh w = Some t ->
  exists st w',
    getState env smc forceRefresh w = (Returned st, w') /\
    let clob := clobReading (env_getBalanceAllowance env t) in
    let chain := onChainReading (env_polygonRpc env (1 + t)) in
    balance st = Math_max clob chain /\
    (PrimFloat.is_nan clob = false -> PrimFloat.is_nan chain = false ->
     (balance st = clob \/ balance st = chain) /\
     (clob <=? balance st)%float = true /\
     (chain <=? balance st)%float = true) /\
    (clob = 0%float -> chain = 37.5%float -> balance st = 37.5%float).
Proof.
  intros Hs. rewrite getState_eq, Hs.
  eexists _, _. split; [reflexivity|]. cbn [balance fetchedState].
  split; [reflexivity|]. split.
  - intros Ha Hb. now apply Math_max_is_max.
  - intros -> ->. reflexivity.
Qed.

Lemma getState_balance_is_max_witness :
  exists st w',
    getState zeroClobEnv smc30 true emptyWorld = (Returned st, w') /\
    balance st = 37.5%float.
Proof.
  destruct (getState_balance_is_max zeroClobEnv smc30 true emptyWorld 1
              eq_refl) as (st & w' & E & _ & _ & H).
  exists st, w'. split; [exact E|]. apply H; reflexivity.
Defined.

(** C10: whenever [getState] makes a live fetch, it returns (it does not
    throw) a state tagged ['api'] whose [lastSyncTime] is the instant
    read on entry, and that state replaces the cache (no fallback to the
    stale one); each component is what its fetch yielded, where a failed
    CLOB balance query or on-chain query contributes 0 and a failed
    open-orders listing or positions request contributes the empty list.
    So when all of them fail the fresh-looking state has balance 0, no
    orders and no positions. *)
Theorem getState_degrades env smc forceRefresh w t :
  fetch_start env smc forceRefresh w = Some t ->
  exists st w',
    getState env smc forceRefresh w = (Returned st, w') /\
    syncSource st = api /\
    lastSyncTime st = env_now env (tick w) /\
    cachedState w' = Some st /\
    lastError w' = None /\
    balance st = Math_max (clobReading (env_getBalanceAllowance env t))
                          (onChainReading (env_polygonRpc env (1 + t))) /\
    openOrders st = ordersReading (env_getOpenOrders env (2 + t)) /\
    positions st =
      positionsReading env (4 + t) (env_dataApiPositions env (3 + t)) /\
    (forall msg, env_getBalanceAllowance env t = BalanceThrows msg ->
       balance st = Math_max 0 (onChainReading (env_polygonRpc env (1 + t)))) /\
    (forall msg, env_polygonRpc env (1 + t) = RpcThrows msg ->
       balance st = Math_max (clobReading (env_getBalanceAllowance env t)) 0) /\
    (forall msg, env_getOpenOrders env (2 + t) = OrdersThrow msg ->
       openOrders st = []) /\
    (forall msg, env_dataApiPositions env (3 + t) = PositionsThrow msg ->
       positions st = []) /\
    (forall status, env_dataApiPositions env (3 + t) = PositionsNotOk status ->
       positions st = []) /\
    (forall m1 m2, env_getBalanceAllowance env t = BalanceThrows m1 ->
       env_polygonRpc env (1 + t) = RpcThrows m2 ->
       balance st = 0%float).
Proof.
  intros Hs. rewrite getState_eq, Hs.
  eexists _, _. split; [reflexivity|].
  cbn [syncSource lastSyncTime cachedState lastError balance openOrders
       positions fetchedState fetchedWorld].
  repeat split; try reflexivity.
  - intros msg ->. reflexivity.
  - intros msg ->. reflexivity.
  - intros msg ->. reflexivity.
  - intros msg ->. reflexivity.
  - intros status ->. reflexivity.
  - intros m1 m2 -> ->. reflexivity.
Qed.

Lemma getState_degrades_witness :
  exists st w',
    getState outageEnv smc30 true emptyWorld = (Returned st, w') /\
    syncSource st = api /\
    lastSyncTime st = clock 0 /\
    balance st = 0%float /\ openOrders st = [] /\ positions st = [].
Proof.
  destruct (getState_degrades outageEnv smc30 true emptyWorld 1 eq_refl)
    as (st & w' & E & Hsrc & Htime & _ & _ & _ & _ & _ & _ & _ & Ho & Hp
        & _ & Hb).
  exists st, w'.
  repeat split; try assumption.
  - exact (Hb "ECONNRESET" "ECONNRESET" eq_refl eq_refl).
  - exact (Ho "ECONNRESET" eq_refl).
  - exact (Hp "ECONNRESET" eq_refl).
Defined.

(** C9: if the venue's [cancelAll] call succeeds (or the executor runs
    dry), [cancelAllOrders] returns [success: true] whatever the four
    fetches of the refresh that follows come back with: the refresh
    cannot make it fail. *)
Theorem cancelAllOrders_best_effort env config w :
  dryRun config = true \/ env_cancelAll env (tick w) = CancelDone ->
  exists w',
    cancelAllOrders env config w =
    (Returned (mkCancelResult true 0 None), w').
Proof.
  intros Hc. unfold cancelAllOrders, try_catch.
  destruct (dryRun config) eqn:Edry.
  - rewrite mret_eq. eauto.
  - destruct Hc as [Hc|Hc]; [discriminate|].
    rewrite bind_eq, ask_eq. cbv beta iota. rewrite Hc.
    rewrite bind_eq.
    destruct (getState_total env (stateManager config) true
                (next_tick (log_event EvCancelAll w)))
      as (st & w' & E & _).
    rewrite E. cbv beta iota. rewrite mret_eq. eauto.
Qed.

Lemma cancelAllOrders_best_effort_witness :
  exists w',
    cancelAllOrders outageEnv (mkExecutorConfig smc30 50 10 false)
      emptyWorld
    = (Returned (mkCancelResult true 0 None), w').
Proof.
  apply (cancelAllOrders_best_effort outageEnv
           (mkExecutorConfig smc30 50 10 false) emptyWorld).
  right. reflexivity.
Defined.

(** ** The reconciler *)

Section ReconcileFacts.

Context (env : Env) (smc : StateManagerConfig).


Lemma mark_unknown_cons id ids t :
  mark_unknown ids
    (if Z.eqb (lt_id t) id then set_unknown not_found_note t else t)
  = mark_unknown (id :: ids) t.
Proof.
  unfold mark_unknown. cbn [existsb].
  destruct (Z.eqb (lt_id t) id); cbn [orb lt_id set_unknown].
  - destruct (existsb _ ids); reflexivity.
  - reflexivity.
Qed.

Lemma mark_unknown_nil t : mark_unknown [] t = t.
Proof. reflexivity. Qed.

(** The first loop repairs exactly the orphaned trades, in order. *)
Lemma reconcile_local_eq st localTrades acc w :
  reconcile_local st localTrades acc w =
  (Returned (acc ++ map local_discrepancy
                       (List.filter (orphaned st) localTrades)),
   repaired (List.filter (orphaned st) localTrades) w).
Proof.
  revert acc w. induction localTrades as [|t rest IH]; intros acc w.
  - cbn. rewrite mret_eq, app_nil_r. unfold repaired. cbn.
    rewrite app_nil_r.
    rewrite (map_ext _ (fun t => t) mark_unknown_nil), map_id.
    now destruct w.
  - cbn [reconcile_local List.filter].
    change (negb (existsb (fun p => String.eqb (pos_marketId p)
                                      (lt_market_id t)) (positions st)) &&
            negb (existsb (fun o => String.eqb (oo_market o)
                                      (lt_market_id t)) (openOrders st)) &&
            match lt_status t with open => true | _ => false end)
      with (orphaned st t).
    destruct (orphaned st t).
    + rewrite bind_eq. unfold update_live_trade_unknown.
      rewrite modify_eq. cbv beta iota. rewrite IH.
      f_equal.
      * cbn [map]. now rewrite <- app_assoc.
      * unfold repaired, log_event, set_live_trades. cbn.
        rewrite map_map, <- app_assoc. cbn.
        f_equal. apply map_ext. intros x.
        apply (mark_unknown_cons (lt_id t)).
    + apply IH.
Qed.

Lemma insert_found_row_eq p w :
  insert_live_trade env (found_row p) w =
  if side_allowed (pos_side p)
  then (Returned tt, inserted1 env p w)
  else (Thrown "CHECK constraint failed: side IN ('YES', 'NO')",
        next_tick w).
Proof.
  unfold insert_live_trade.
  rewrite bind_eq, Date_now_eq. cbv beta iota.
  rewrite bind_eq, get_world_eq. cbv beta iota.
  cbn [lt_side found_row].
  destruct (side_allowed (pos_side p)).
  - rewrite modify_eq. unfold inserted1, log_event, set_live_trades,
      next_tick. cbn. reflexivity.
  - reflexivity.
Qed.





End ReconcileFacts.

Section Inserted.

Context (env : Env).




End Inserted.


Lemma existsb_eqb_ids (ids : list Z) (x : Z) :
  existsb (Z.eqb x) ids = true <-> In x ids.
Proof.
  rewrite existsb_exists. split.
  - intros (y & Hy & E). apply Z.eqb_eq in E. now subst.
  - intros H. exists x. split; [assumption | apply Z.eqb_refl].
Qed.






(** *** Reconciling twice *)

Lemma positionsAt_markets env t l :
  map pos_marketId (positionsAt env t l) = map raw_conditionId l.
Proof.
  revert t. induction l as [|pos l IH]; intros t; cbn; [reflexivity|].
  now rewrite IH.
Qed.

Lemma fetchedState_markets env now t :
  map pos_marketId (positions (fetchedState env now t)) =
  position_markets (env_dataApiPositions env (3 + t)).
Proof.
  cbn [positions fetchedState]. unfold positionsReading, position_markets.
  destruct (env_dataApiPositions env (3 + t)); try reflexivity.
  apply positionsAt_markets.
Qed.

Lemma has_position_In st m :
  has_position st m = true <-> In m (map pos_marketId (positions st)).
Proof.
  unfold has_position. rewrite existsb_exists, in_map_iff. split.
  - intros (p & Hp & E). apply String.eqb_eq in E. eauto.
  - intros (p & E & Hp). exists p. split; [assumption|].
    now apply String.eqb_eq.
Qed.







(** ** The executor *)

Lemma post_order_eq env args w :
  post_order env args w =
  (Returned (env_createAndPostMarketOrder env (tick w) args),
   next_tick
     (log_event
        (EvCreateAndPostMarketOrder args
           (env_createAndPostMarketOrder env (tick w) args)) w)).
Proof. reflexivity. Qed.

Lemma update_order_tracking_eq key st oid set w :
  update_order_tracking key st oid set w =
  if order_id_clash key oid (order_tracking w)
  then (Thrown "UNIQUE constraint failed: order_tracking.order_id", w)
  else (Returned tt,
        log_event (EvUpdateOrderTracking key st)
          (set_order_tracking
             (map (fun r => if has_key key r then set r else r)
                  (order_tracking w))
             (order_tracking_seq w) w)).
Proof.
  unfold update_order_tracking. rewrite bind_eq, get_world_eq.
  cbv beta iota. now destruct (order_id_clash key oid (order_tracking w)).
Qed.

Lemma insert_order_tracking_eq env request sd key w :
  existsb (has_key key) (order_tracking w) = false ->
  insert_order_tracking env (req_marketId request) (req_tokenId request) sd
    (or_num (req_price request) 0) (req_sizeUsd request) "MARKET" key w =
  (Returned tt,
   log_event (EvInsertOrderTracking key)
     (set_order_tracking
        (order_tracking w ++ [created_row env sd request key w])
        (order_tracking_seq w + 1) (next_tick w))).
Proof.
  intros Hf. unfold insert_order_tracking.
  rewrite bind_eq, Date_now_eq. cbv beta iota.
  rewrite bind_eq, get_world_eq. cbv beta iota.
  cbn [order_tracking next_tick]. rewrite Hf.
  rewrite modify_eq. reflexivity.
Qed.

Lemma insert_live_trade_eq env row w :
  insert_live_trade env row w =
  let r := row (live_trades_seq w + 1) (env_now env (tick w)) in
  if side_allowed (lt_side r)
  then (Returned tt,
        log_event (EvInsertLiveTrade (lt_market_id r))
          (set_live_trades (live_trades w ++ [r]) (live_trades_seq w + 1)
             (next_tick w)))
  else (Thrown "CHECK constraint failed: side IN ('YES', 'NO')",
        next_tick w).
Proof.
  unfold insert_live_trade.
  rewrite bind_eq, Date_now_eq. cbv beta iota.
  rewrite bind_eq, get_world_eq. cbv beta iota zeta.
  cbn [live_trades_seq next_tick].
  destruct (side_allowed _); [rewrite modify_eq|]; reflexivity.
Qed.

(** *** Tables in which a key is still free *)

Lemma find_none_existsb {A} (f : A -> bool) l :
  List.find f l = None -> existsb f l = false.
Proof.
  induction l as [|x l IH]; cbn; [reflexivity|].
  destruct (f x); [discriminate | exact IH].
Qed.


Lemma update_free key (set : OrderTracking -> OrderTracking) tbl :
  existsb (has_key key) tbl = false ->
  map (fun r => if has_key key r then set r else r) tbl = tbl.
Proof.
  induction tbl as [|r tbl IH]; cbn; [reflexivity|].
  destruct (has_key key r); [discriminate|].
  intros H. now rewrite IH.
Qed.

Lemma update_last key (set : OrderTracking -> OrderTracking) tbl row :
  existsb (has_key key) tbl = false -> has_key key row = true ->
  map (fun r => if has_key key r then set r else r) (tbl ++ [row]) =
  tbl ++ [set row].
Proof.
  intros Hf Hk. rewrite map_app, update_free by exact Hf.
  cbn. now rewrite Hk.
Qed.

Lemma find_last key tbl row :
  existsb (has_key key) tbl = false -> has_key key row = true ->
  List.find (has_key key) (tbl ++ [row]) = Some row.
Proof.
  induction tbl as [|r tbl IH]; cbn; intros Hf Hk.
  - now rewrite Hk.
  - destruct (has_key key r); [discriminate|]. now apply IH.
Qed.

Lemma clash_last key oid tbl row :
  existsb (has_key key) tbl = false -> has_key key row = true ->
  order_id_clash key (Some oid) (tbl ++ [row]) =
  existsb (has_order_id oid) tbl.
Proof.
  intros Hf Hk. unfold order_id_clash.
  rewrite !existsb_app. cbn. rewrite Hk, orb_true_r. cbn.
  rewrite andb_false_r, !orb_false_r.
  clear Hk. induction tbl as [|r tbl IH]; cbn in *; [reflexivity|].
  destruct (has_key key r); [discriminate|].
  cbn. rewrite andb_true_r. now rewrite IH.
Qed.

Lemma has_key_created env sd request key w :
  has_key key (created_row env sd request key w) = true.
Proof. unfold has_key. cbn. apply String.eqb_refl. Qed.





Lemma side_allowed_TokenSide s : side_allowed (TokenSide_str s) = true.
Proof. now destruct s. Qed.

(** Worlds are brought to the form [mkWorld ...] after every step. *)
Ltac wnorm :=
  unfold log_event, set_order_tracking, set_live_trades, set_pendingOrders,
         set_cachedState, set_lastError, next_tick, pending_delete;
  cbn [order_tracking order_tracking_seq live_trades live_trades_seq
       pendingOrders cachedState lastError tick trace].

(** One statement of a method: the leading bind, then the primitive. *)
Ltac step :=
  rewrite bind_eq;
  repeat first
    [ rewrite Date_now_eq | rewrite get_world_eq | rewrite mret_eq
    | rewrite modify_eq | rewrite throw_eq | rewrite post_order_eq
    | rewrite update_order_tracking_eq | rewrite insert_live_trade_eq ];
  cbv beta iota zeta; wnorm.

(** The [catch] block never throws: it marks the row ['failed']. *)
Lemma on_error_eq env key msg w :
  on_error env key msg w =
  (Returned (mkOrderResult false None (Some msg) None key),
   mkWorld
     (map (fun r => if has_key key r
                    then set_failed msg (env_now env (tick w)) r else r)
          (order_tracking w))
     (order_tracking_seq w) (live_trades w) (live_trades_seq w)
     (pendingOrders w) (cachedState w) (lastError w) (S (tick w))
     (trace w ++ [EvUpdateOrderTracking key failed])).
Proof.
  unfold on_error. destruct w. step. step. reflexivity.
Qed.

Ltac leaf Hrow :=
  eexists _, _, _, _; split; [reflexivity|];
  cbn [trace order_tracking]; rewrite <- !app_assoc; cbn [app];
  split; [reflexivity|]; split; [reflexivity|]; split; [exact Hrow|];
  split;
    [ first
        [ reflexivity
        | match goal with
          | E : env_createAndPostMarketOrder _ _ _ = _ |- _ =>
              cbn [Nat.add tick]; rewrite E; reflexivity
          end ]
    | first [ intros; discriminate | intros _; repeat split ] ].

Section ExecuteBuy.

Context (env : Env) (config : ExecutorConfig).

Lemma executeBuy_runs request key w :
  existsb (has_key key) (order_tracking w) = false ->
  exists result w' rest row,
    executeBuy env config request key w = (Returned result, w') /\
    new_events w w'
      (EvInsertOrderTracking key :: EvPendingAdd (req_marketId request)
         :: rest) /\
    order_tracking w' = order_tracking w ++ [row] /\
    has_key key row = true /\
    List.filter is_submission rest =
      (if dryRun config then []
       else [EvCreateAndPostMarketOrder (order_args request BUY)
               (env_createAndPostMarketOrder env (2 + tick w)
                  (order_args request BUY))]) /\
    (dryRun config = false ->
     success (stored_result row key) = success result /\
     orderId (stored_result row key) = orderId result /\
     error (stored_result row key) = error result).
Proof.
  intros Hf. unfold executeBuy.
  rewrite bind_eq, insert_order_tracking_eq by exact Hf. cbv beta iota.
  unfold pending_add. rewrite bind_eq, modify_eq. cbv beta iota.
  unfold try_finally, try_catch, submitBuy, new_events.
  pose proof (has_key_created env BUY request key w) as Hrow.
  set (row := created_row env BUY request key w) in *.
  destruct w as [ot ots lt lts po cs le tk tr]. wnorm.
  cbn [order_tracking] in Hf.
  destruct (dryRun config) eqn:Hdry.
  - step. step. rewrite clash_last by assumption.
    destruct (existsb (has_order_id _) ot) eqn:Eclash; cbv beta iota.
    + rewrite on_error_eq. wnorm.
      rewrite update_last by assumption. leaf Hrow.
    + rewrite update_last by assumption. step. leaf Hrow.
  - step. step. cbn [order_id_clash]. cbv iota.
    rewrite update_last by assumption.
    step.
    destruct (env_createAndPostMarketOrder env (S (S tk))
                (order_args request BUY)) as [msg|result] eqn:Eans;
      cbv beta iota.
    + rewrite throw_eq, on_error_eq. wnorm.
      rewrite update_last by assumption. leaf Hrow.
    + destruct (or_ostr (result ≫= res_orderID) (result ≫= res_orderId))
        as [oid|] eqn:Eoid.
      * destruct (truthy_str oid) eqn:Etruthy.
        -- step. step. rewrite clash_last by assumption.
           destruct (existsb (has_order_id _) ot) eqn:Eclash; cbv beta iota.
           ++ rewrite on_error_eq. wnorm.
              rewrite update_last by assumption. leaf Hrow.
           ++ rewrite update_last by assumption. step.
              cbn [lt_side opened_trade].
              rewrite side_allowed_TokenSide. cbv beta iota. wnorm.
              rewrite mret_eq. leaf Hrow.
        -- step. step. cbn [order_id_clash]. cbv iota.
           rewrite update_last by assumption. rewrite mret_eq. leaf Hrow.
      * step. step. cbn [order_id_clash]. cbv iota.
        rewrite update_last by assumption. rewrite mret_eq. leaf Hrow.
Qed.

End ExecuteBuy.

Section ExecuteSell.

Context (env : Env) (config : ExecutorConfig).

(** The sell path after its two checks: the same shape, without the
    [live_trades] row. *)
Lemma executeSell_runs request key w :
  existsb (has_key key) (order_tracking w) = false ->
  exists result w' rest row,
    executeSell env config request key w = (Returned result, w') /\
    new_events w w'
      (EvInsertOrderTracking key
         :: EvPendingAdd ("sell_" +:+ req_marketId request) :: rest) /\
    order_tracking w' = order_tracking w ++ [row] /\
    has_key key row = true /\
    List.filter is_submission rest =
      (if dryRun config then []
       else [EvCreateAndPostMarketOrder (order_args request SELL)
               (env_createAndPostMarketOrder env (2 + tick w)
                  (order_args request SELL))]) /\
    (dryRun config = false ->
     success (stored_result row key) = success result /\
     orderId (stored_result row key) = orderId result /\
     error (stored_result row key) = error result).
Proof.
  intros Hf. unfold executeSell.
  rewrite bind_eq, insert_order_tracking_eq by exact Hf. cbv beta iota.
  unfold pending_add. rewrite bind_eq, modify_eq. cbv beta iota.
  unfold try_finally, try_catch, submitSell, new_events.
  pose proof (has_key_created env SELL request key w) as Hrow.
  set (row := created_row env SELL request key w) in *.
  destruct w as [ot ots lt lts po cs le tk tr]. wnorm.
  cbn [order_tracking] in Hf.
  destruct (dryRun config) eqn:Hdry.
  - step. step. rewrite clash_last by assumption.
    destruct (existsb (has_order_id _) ot) eqn:Eclash; cbv beta iota.
    + rewrite on_error_eq. wnorm.
      rewrite update_last by assumption. leaf Hrow.
    + rewrite update_last by assumption. step. leaf Hrow.
  - step. step. cbn [order_id_clash]. cbv iota.
    rewrite update_last by assumption.
    step.
    destruct (env_createAndPostMarketOrder env (S (S tk))
                (order_args request SELL)) as [msg|result] eqn:Eans;
      cbv beta iota.
    + rewrite throw_eq, on_error_eq. wnorm.
      rewrite update_last by assumption. leaf Hrow.
    + destruct (or_ostr (result ≫= res_orderID) (result ≫= res_orderId))
        as [oid|] eqn:Eoid.
      * destruct (truthy_str oid) eqn:Etruthy.
        -- step. step. rewrite clash_last by assumption.
           destruct (existsb (has_order_id _) ot) eqn:Eclash; cbv beta iota.
           ++ rewrite on_error_eq. wnorm.
              rewrite update_last by assumption. leaf Hrow.
           ++ rewrite update_last by assumption. rewrite mret_eq.
              leaf Hrow.
        -- step. step. cbn [order_id_clash]. cbv iota.
           rewrite update_last by assumption. rewrite mret_eq. leaf Hrow.
      * step. step. cbn [order_id_clash]. cbv iota.
        rewrite update_last by assumption. rewrite mret_eq. leaf Hrow.
Qed.

End ExecuteSell.

Section ExecuteBuyFilled.

Context (env : Env) (config : ExecutorConfig).

(** The live path on which the venue hands back an order id. *)
Lemma executeBuy_filled request key w vr oid :
  existsb (has_key key) (order_tracking w) = false ->
  dryRun config = false ->
  env_createAndPostMarketOrder env (2 + tick w) (order_args request BUY)
    = SubmitReturns (Some vr) ->
  venue_order_id (Some vr) = Some oid ->
  truthy_str oid = true ->
  existsb (has_order_id oid) (order_tracking w) = false ->
  exists w',
    executeBuy env config request key w =
      (Returned (mkOrderResult true (Some oid) None
                   (Some (or_str (res_status vr) "unknown")) key), w') /\
    order_tracking w' =
      order_tracking w ++
        [set_filled oid (or_str (res_status vr) "unknown")
           (env_now env (3 + tick w))
           (set_submitted (env_now env (1 + tick w))
              (created_row env BUY request key w))] /\
    live_trades w' =
      live_trades w ++
        [opened_trade request oid (live_trades_seq w + 1)
           (env_now env (4 + tick w))] /\
    pendingOrders w' =
      ({[req_marketId request]} ∪ pendingOrders w)
        ∖ {[req_marketId request]}.
Proof.
  intros Hf Hdry Hans Hoid Htruthy Hfree. unfold executeBuy.
  rewrite bind_eq, insert_order_tracking_eq by exact Hf. cbv beta iota.
  unfold pending_add. rewrite bind_eq, modify_eq. cbv beta iota.
  unfold try_finally, try_catch, submitBuy.
  pose proof (has_key_created env BUY request key w) as Hrow.
  set (row := created_row env BUY request key w) in *.
  destruct w as [ot ots lt lts po cs le tk tr]. wnorm.
  cbn [order_tracking tick Nat.add] in *.
  rewrite Hdry. step. step. cbn [order_id_clash]. cbv iota.
  rewrite update_last by assumption. step. rewrite Hans. cbv beta iota.
  unfold venue_order_id in Hoid. cbn [mbind option_bind] in *.
  rewrite Hoid, Htruthy.
  step. step. rewrite clash_last, Hfree by assumption. cbv beta iota.
  rewrite update_last by assumption. step.
  cbn [lt_side opened_trade].
  rewrite side_allowed_TokenSide. cbv beta iota. wnorm.
  rewrite mret_eq.
  eexists. split; [reflexivity|]. cbn [order_tracking live_trades
    pendingOrders]. repeat split.
Qed.

End ExecuteBuyFilled.

(** *** The pre-flight checks *)

Section Preflight.

Context `{NumberFormat} (env : Env) (config : ExecutorConfig).

Lemma generateIdempotencyKey_eq request w :
  generateIdempotencyKey env request w =
  (Returned (derived_key env request (tick w)), later 2 w).
Proof.
  unfold generateIdempotencyKey. rewrite bind_eq, Date_now_eq.
  cbv beta iota zeta. rewrite bind_eq. unfold randomBytes at 1.
  cbv beta iota zeta. rewrite mret_eq.
  unfold derived_key, later, next_tick. cbn. do 2 f_equal. lia.
Qed.

Lemma keyOf_total request derived w :
  exists key w',
    keyOf env request derived w = (Returned key, w') /\ only_reads w w'.
Proof.
  unfold keyOf.
  destruct (req_idempotencyKey request) as [k|];
    [destruct (truthy_str k)|];
    try (rewrite generateIdempotencyKey_eq; eexists _, _;
         split; [reflexivity | apply later_only_reads]).
  rewrite mret_eq. eexists _, _. split; [reflexivity|].
  apply only_reads_refl.
Qed.

Lemma hasPositionInMarket_total market w :
  exists b w',
    hasPositionInMarket env (stateManager config) market w
      = (Returned b, w') /\ only_reads w w'.
Proof.
  unfold hasPositionInMarket. rewrite bind_eq.
  destruct (getState_total env (stateManager config) true w)
    as (st & w' & E & R).
  rewrite E. cbv beta iota. rewrite mret_eq. eauto.
Qed.

Lemma hasOpenOrderForMarket_total market w :
  exists b w',
    hasOpenOrderForMarket env (stateManager config) market w
      = (Returned b, w') /\ only_reads w w'.
Proof.
  unfold hasOpenOrderForMarket. rewrite bind_eq.
  destruct (getState_total env (stateManager config) true w)
    as (st & w' & E & R).
  rewrite E. cbv beta iota. rewrite mret_eq. eauto.
Qed.

Lemma getTotalExposure_total w :
  exists x w',
    getTotalExposure env (stateManager config) w = (Returned x, w') /\
    only_reads w w'.
Proof.
  unfold getTotalExposure. rewrite bind_eq.
  destruct (getState_total env (stateManager config) false w)
    as (st & w' & E & R).
  rewrite E. cbv beta iota zeta. rewrite mret_eq. eauto.
Qed.

Lemma getAvailableBalance_total w :
  exists x w',
    getAvailableBalance env (stateManager config) w = (Returned x, w') /\
    only_reads w w'.
Proof.
  unfold getAvailableBalance. rewrite bind_eq.
  destruct (getState_total env (stateManager config) false w)
    as (st & w' & E & R).
  rewrite E. cbv beta iota zeta. rewrite mret_eq. eauto.
Qed.

(** [placeBuyOrder], check by check.  Every request takes exactly one
    of the seven ways out below, in this order; the first six leave
    the ledger and the in-flight set as they were and add nothing but
    reads to the log ([only_reads]); on the seventh the ['created'] row
    and the in-flight mark come first, and a submission, if there is
    one, comes after them. *)
Lemma placeBuyOrder_by_check request w :
  let smc := stateManager config in
  let market := req_marketId request in
  let size := req_sizeUsd request in
  exists key w0,
    keyOf env request request w = (Returned key, w0) /\
    only_reads w w0 /\
    match List.find (has_key key) (order_tracking w0) with
    | Some row =>
        (* 1. idempotency *)
        placeBuyOrder env config request w
          = (Returned (stored_result row key), w0)
    | None =>
        if bool_decide (market ∈ pendingOrders w0)
        then
          (* 2. in-flight guard *)
          placeBuyOrder env config request w
            = (Returned (rejected "Order already in flight for this market"
                                  key), w0)
        else
          exists hasPosition w1 hasOrder w2,
            hasPositionInMarket env smc market w0
              = (Returned hasPosition, w1) /\
            hasOpenOrderForMarket env smc market w1
              = (Returned hasOrder, w2) /\
            only_reads w w2 /\
            if hasPosition : bool
            then
              (* 3a. existing position *)
              placeBuyOrder env config request w
                = (Returned (rejected "Already have position in this market"
                                      key), w2)
            else if hasOrder : bool
            then
              (* 3b. existing open order *)
              placeBuyOrder env config request w
                = (Returned
                     (rejected "Already have open order in this market"
                               key), w2)
            else
              exists currentExposure w3,
                getTotalExposure env smc w2
                  = (Returned currentExposure, w3) /\
                only_reads w w3 /\
                if (maxExposureUsd config <? currentExposure + size)%float
                then
                  (* 4. exposure limit *)
                  placeBuyOrder env config request w
                    = (Returned
                         (rejected
                            ("Would exceed max exposure ($" +:+
                             Number_toString (maxExposureUsd config) +:+ ")")
                            key), w3)
                else
                  exists availableBalance w4,
                    getAvailableBalance env smc w3
                      = (Returned availableBalance, w4) /\
                    only_reads w w4 /\
                    if (availableBalance <? size)%float
                    then
                      (* 5. balance *)
                      placeBuyOrder env config request w
                        = (Returned
                             (rejected
                                ("Insufficient balance: $" +:+
                                 Number_toFixed2 availableBalance +:+
                                 " < $" +:+ Number_toString size)
                                key), w4)
                    else
                      (* all passed *)
                      placeBuyOrder env config request w
                        = executeBuy env config request key w4 /\
                      List.find (has_key key) (order_tracking w4) = None
    end.
Proof.
  intros smc market size. unfold placeBuyOrder.
  destruct (keyOf_total request request w) as (key & w0 & Ek & R0).
  exists key, w0. split; [exact Ek|]. split; [exact R0|].
  rewrite bind_eq, Ek. cbv beta iota.
  unfold select_order_tracking.
  rewrite 2!bind_eq, get_world_eq. cbv beta iota. rewrite mret_eq.
  cbv beta iota.
  destruct (List.find (has_key key) (order_tracking w0)) eqn:Efind.
  { now rewrite mret_eq. }
  rewrite bind_eq, get_world_eq. cbv beta iota.
  fold market.
  destruct (bool_decide (market ∈ pendingOrders w0)).
  { now rewrite mret_eq. }
  destruct (hasPositionInMarket_total market w0) as (hp & w1 & E1 & R1).
  destruct (hasOpenOrderForMarket_total market w1) as (ho & w2 & E2 & R2).
  exists hp, w1, ho, w2. fold smc in E1, E2.
  split; [exact E1|]. split; [exact E2|].
  assert (R02 : only_reads w w2)
    by eauto using only_reads_trans.
  split; [exact R02|].
  rewrite bind_eq. fold smc. rewrite E1. cbv beta iota.
  rewrite bind_eq, E2. cbv beta iota.
  destruct hp. { now rewrite mret_eq. }
  destruct ho. { now rewrite mret_eq. }
  destruct (getTotalExposure_total w2) as (x & w3 & E3 & R3).
  exists x, w3. fold smc in E3. split; [exact E3|].
  assert (R03 : only_reads w w3) by eauto using only_reads_trans.
  split; [exact R03|].
  rewrite bind_eq, E3. cbv beta iota. fold size.
  destruct (maxExposureUsd config <? x + size)%float.
  { now rewrite mret_eq. }
  destruct (getAvailableBalance_total w3) as (a & w4 & E4 & R4).
  exists a, w4. fold smc in E4. split; [exact E4|].
  assert (R04 : only_reads w w4) by eauto using only_reads_trans.
  split; [exact R04|].
  rewrite bind_eq, E4. cbv beta iota.
  destruct (a <? size)%float.
  { now rewrite mret_eq. }
  split; [reflexivity|].
  destruct R04 as (Eot & _). destruct R0 as (Eot0 & _).
  rewrite Eot, <- Eot0. exact Efind.
Qed.

End Preflight.

(** C3 (as amended): the checks of [placeBuyOrder] run in the order
    idempotency lookup, in-flight guard, existing position, existing
    open order, exposure limit, balance.  A hit of the idempotency
    lookup returns the result rebuilt from the stored row (which is
    [success: true] for a row that is ['filled'] or ['live']); each of the
    other checks, when it fails, returns [success: false] with its own
    message.  In all these cases the ledger and the in-flight set are
    untouched and only reads reached the outside: no submission, no
    tracking row.  When every check passes, the call returns, and what
    it adds to the log after the reads starts with the insertion of the
    ['created'] row and the in-flight mark; the submission (one in live
    mode, none in dry run) comes after them. *)
Theorem placeBuyOrder_preflight `{NumberFormat} env config request w :
  let smc := stateManager config in
  let market := req_marketId request in
  let size := req_sizeUsd request in
  exists key w0,
    keyOf env request request w = (Returned key, w0) /\
    only_reads w w0 /\
    match List.find (has_key key) (order_tracking w0) with
    | Some row =>
        placeBuyOrder env config request w
          = (Returned (stored_result row key), w0)
    | None =>
        if bool_decide (market ∈ pendingOrders w0)
        then
          placeBuyOrder env config request w
            = (Returned (rejected "Order already in flight for this market"
                                  key), w0)
        else
          exists hasPosition w1 hasOrder w2,
            hasPositionInMarket env smc market w0
              = (Returned hasPosition, w1) /\
            hasOpenOrderForMarket env smc market w1
              = (Returned hasOrder, w2) /\
            only_reads w w2 /\
            if hasPosition : bool
            then
              placeBuyOrder env config request w
                = (Returned (rejected "Already have position in this market"
                                      key), w2)
            else if hasOrder : bool
            then
              placeBuyOrder env config request w
                = (Returned
                     (rejected "Already have open order in this market"
                               key), w2)
            else
              exists currentExposure w3,
                getTotalExposure env smc w2
                  = (Returned currentExposure, w3) /\
                only_reads w w3 /\
                if (maxExposureUsd config <? currentExposure + size)%float
                then
                  placeBuyOrder env config request w
                    = (Returned
                         (rejected
                            ("Would exceed max exposure ($" +:+
                             Number_toString (maxExposureUsd config) +:+ ")")
                            key), w3)
                else
                  exists availableBalance w4,
                    getAvailableBalance env smc w3
                      = (Returned availableBalance, w4) /\
                    only_reads w w4 /\
                    if (availableBalance <? size)%float
                    then
                      placeBuyOrder env config request w
                        = (Returned
                             (rejected
                                ("Insufficient balance: $" +:+
                                 Number_toFixed2 availableBalance +:+
                                 " < $" +:+ Number_toString size)
                                key), w4)
                    else
                      exists result w5 rest row,
                        placeBuyOrder env config request w
                          = (Returned result, w5) /\
                        new_events w4 w5
                          (EvInsertOrderTracking key :: EvPendingAdd market
                             :: rest) /\
                        order_tracking w5 = order_tracking w ++ [row] /\
                        has_key key row = true /\
                        List.filter is_submission rest =
                          if dryRun config then []
                          else [EvCreateAndPostMarketOrder
                                  (order_args request BUY)
                                  (env_createAndPostMarketOrder env
                                     (2 + tick w4)
                                     (order_args request BUY))]
    end.
Proof.
  intros smc market size.
  destruct (placeBuyOrder_by_check env config request w)
    as (key & w0 & Ek & R0 & Htree).
  exists key, w0. split; [exact Ek|]. split; [exact R0|].
  destruct (List.find (has_key key) (order_tracking w0)); [exact Htree|].
  fold market in Htree.
  destruct (bool_decide (market ∈ pendingOrders w0)); [exact Htree|].
  destruct Htree as (hp & w1 & ho & w2 & E1 & E2 & R2 & Htree).
  exists hp, w1, ho, w2. repeat (split; [assumption|]).
  destruct hp; [exact Htree|]. destruct ho; [exact Htree|].
  destruct Htree as (x & w3 & E3 & R3 & Htree).
  exists x, w3. repeat (split; [assumption|]). fold size in Htree.
  destruct (maxExposureUsd config <? x + size)%float; [exact Htree|].
  destruct Htree as (a & w4 & E4 & R4 & Htree).
  exists a, w4. repeat (split; [assumption|]).
  destruct (a <? size)%float; [exact Htree|].
  destruct Htree as (Eexec & Efind).
  destruct (executeBuy_runs env config request key w4
              (find_none_existsb _ _ Efind))
    as (result & w5 & rest & row & E5 & Hev & Hot & Hrow & Hsub & _).
  exists result, w5, rest, row.
  split; [now rewrite Eexec|]. split; [exact Hev|].
  split; [|split; assumption].
  destruct R4 as (Eot & _). now rewrite Hot, Eot.
Qed.

(** C3, the claim as stated, fails at the first check: when the key
    belongs to an order that was filled, the idempotency lookup stops
    the call with [success: true] and no error message. *)
Lemma replay_of_filled_order_succeeds :
  exists row result w',
    List.find (has_key "k1") (order_tracking filledWorld) = Some row /\
    placeBuyOrder (H := scenarioFormat) zeroClobEnv liveConfig
      (intent (Some "k1")) filledWorld = (Returned result, w') /\
    success result = true /\ error result = None.
Proof.
  eexists _, _, _. split; [reflexivity|].
  split; [vm_compute; reflexivity|]. split; reflexivity.
Qed.

(** *** A filled buy *)

Lemma only_reads_events w w' events ev :
  only_reads w w' -> new_events w w' events -> In ev events ->
  is_read ev = true.
Proof.
  intros (_ & _ & _ & _ & _ & reads & Et & Hr) Hev Hin.
  unfold new_events in Hev. rewrite Et in Hev.
  apply app_inv_head in Hev. subst events.
  rewrite forallb_forall in Hr. now apply Hr.
Qed.

(** C8 (as amended): whenever a call of [placeBuyOrder] has submitted an
    order and the venue has handed back an order id (one that no other
    tracking row carries), the call returns [success: true] with that
    id, the tracking row of its key is ['filled'] with that id, and one
    row has been appended to [live_trades] for the market, with the
    order id and with status ['open']. *)
Theorem placeBuyOrder_fill_opens_trade `{NumberFormat} env config request w
    result w' events args vr oid :
  placeBuyOrder env config request w = (result, w') ->
  new_events w w' events ->
  In (EvCreateAndPostMarketOrder args (SubmitReturns (Some vr))) events ->
  venue_order_id (Some vr) = Some oid ->
  truthy_str oid = true ->
  existsb (has_order_id oid) (order_tracking w) = false ->
  exists key row trade,
    result = Returned (mkOrderResult true (Some oid) None
                         (Some (or_str (res_status vr) "unknown")) key) /\
    List.find (has_key key) (order_tracking w') = Some row /\
    ot_status row = filled /\
    ot_order_id row = Some oid /\
    live_trades w' = live_trades w ++ [trade] /\
    lt_status trade = open /\
    lt_market_id trade = req_marketId request /\
    lt_side trade = TokenSide_str (req_side request) /\
    lt_size_usd trade = Some (req_sizeUsd request) /\
    lt_order_id trade = Some oid.
Proof.
  intros Hrun Hev Hin Hoid Htruthy Hfree.
  assert (Hnr : is_read (EvCreateAndPostMarketOrder args
                           (SubmitReturns (Some vr))) = false)
    by reflexivity.
  (* a call stopped by a check has only read *)
  assert (Stop : forall r0 w0,
            placeBuyOrder env config request w = (Returned r0, w0) ->
            only_reads w w0 -> False).
  { intros r0 w0 E R. rewrite E in Hrun. injection Hrun as _ <-.
    rewrite (only_reads_events _ _ _ _ R Hev Hin) in Hnr. discriminate. }
  destruct (placeBuyOrder_by_check env config request w)
    as (key & w0 & Ek & R0 & Htree).
  destruct (List.find (has_key key) (order_tracking w0));
    [now destruct (Stop _ _ Htree R0)|].
  destruct (bool_decide (req_marketId request ∈ pendingOrders w0));
    [now destruct (Stop _ _ Htree R0)|].
  destruct Htree as (hp & w1 & ho & w2 & E1 & E2 & R2 & Htree).
  destruct hp; [now destruct (Stop _ _ Htree R2)|].
  destruct ho; [now destruct (Stop _ _ Htree R2)|].
  destruct Htree as (x & w3 & E3 & R3 & Htree).
  destruct (maxExposureUsd config <? x + req_sizeUsd request)%float;
    [now destruct (Stop _ _ Htree R3)|].
  destruct Htree as (a & w4 & E4 & R4 & Htree).
  destruct (a <? req_sizeUsd request)%float;
    [now destruct (Stop _ _ Htree R4)|].
  destruct Htree as (Eexec & Efind).
  apply find_none_existsb in Efind.
  (* every check passed: the submission is the one of [executeBuy] *)
  destruct (executeBuy_runs env config request key w4 Efind)
    as (r5 & w5 & rest & row5 & E5 & Hev5 & _ & _ & Hsub & _).
  rewrite Eexec, E5 in Hrun. injection Hrun as <- <-.
  pose proof R4 as (Eot & _ & Elt & Elts & _ & reads & Et & Hreads).
  unfold new_events in Hev, Hev5. rewrite Hev5, Et, <- app_assoc in Hev.
  apply app_inv_head in Hev. subst events.
  apply in_app_or in Hin as [Hin|Hin].
  { rewrite forallb_forall in Hreads. apply Hreads in Hin.
    rewrite Hin in Hnr. discriminate. }
  destruct Hin as [Hin|[Hin|Hin]]; try discriminate.
  assert (Hin' : In (EvCreateAndPostMarketOrder args
                       (SubmitReturns (Some vr)))
                    (List.filter is_submission rest))
    by (apply filter_In; now split).
  rewrite Hsub in Hin'. destruct (dryRun config) eqn:Hdry; [destruct Hin'|].
  destruct Hin' as [Hin'|[]]. injection Hin' as <- Hans.
  rewrite <- Eot in Hfree.
  destruct (executeBuy_filled env config request key w4 vr oid
              Efind Hdry Hans Hoid Htruthy Hfree)
    as (w6 & E6 & Hot & Hlt & _).
  rewrite E5 in E6. injection E6 as -> <-.
  eexists key, _, _. split; [reflexivity|].
  rewrite Hot, Hlt, Elt.
  split; [apply find_last;
            [exact Efind | exact (has_key_created env BUY request key w4)]|].
  repeat split; reflexivity.
Qed.

Lemma placeBuyOrder_fill_opens_trade_witness :
  exists w' key row trade,
    placeBuyOrder (H := scenarioFormat) fundedEnv liveConfig
      (intent (Some "k1")) emptyWorld
    = (Returned (mkOrderResult true (Some "0xorder16") None
                   (Some "matched") key), w') /\
    List.find (has_key key) (order_tracking w') = Some row /\
    ot_status row = filled /\
    live_trades w' = [trade] /\
    lt_status trade = open.
Proof.
  set (run := placeBuyOrder (H := scenarioFormat) fundedEnv liveConfig
                (intent (Some "k1")) emptyWorld).
  destruct (placeBuyOrder_fill_opens_trade (H := scenarioFormat)
              fundedEnv liveConfig (intent (Some "k1")) emptyWorld
              (fst run) (snd run) (trace (snd run))
              (order_args (intent (Some "k1")) BUY)
              (mkVenueResult (Some "0xorder16") None (Some "matched") None)
              "0xorder16")
    as (key & row & trade & Er & Hrow & Hst & _ & Hlt & Hopen & _).
  - apply surjective_pairing.
  - reflexivity.
  - vm_compute. tauto.
  - reflexivity.
  - reflexivity.
  - reflexivity.
  - exists (snd run), key, row, trade.
    split; [transitivity (fst run, snd run);
            [apply surjective_pairing | now rewrite Er]|].
    repeat split; assumption.
Defined.

(** C8, the claim as stated, fails on the status of the new row: after a
    submission that the venue accepted, the only row of [live_trades] is
    ['open']; none is ['pending']. *)
Lemma filled_buy_is_open_not_pending :
  exists result w' trade,
    placeBuyOrder (H := scenarioFormat) fundedEnv liveConfig
      (intent (Some "k1")) emptyWorld = (Returned result, w') /\
    success result = true /\
    In (EvCreateAndPostMarketOrder (order_args (intent (Some "k1")) BUY)
          (acceptedAt 16))
       (trace w') /\
    live_trades w' = [trade] /\
    lt_status trade = open /\
    ~ (exists t, In t (live_trades w') /\ lt_status t = pending).
Proof.
  eexists _, _, _. split; [vm_compute; reflexivity|].
  split; [reflexivity|]. split; [vm_compute; tauto|].
  split; [reflexivity|]. split; [reflexivity|].
  intros (t & [<-|[]] & Hs). discriminate.
Qed.

(** *** Replaying a key *)

Section Replay.

Context `{NumberFormat} (env : Env) (config : ExecutorConfig).

Lemma keyOf_supplied request derived k w :
  req_idempotencyKey request = Some k -> truthy_str k = true ->
  keyOf env request derived w = (Returned k, w).
Proof. intros Ek Ht. unfold keyOf. now rewrite Ek, Ht. Qed.

(** A key that has a row short-circuits [placeBuyOrder]: the stored
    result comes back and the world is exactly as it was (no
    submission, no new row, not even a read). *)
Lemma placeBuyOrder_replay request k row w :
  req_idempotencyKey request = Some k -> truthy_str k = true ->
  List.find (has_key k) (order_tracking w) = Some row ->
  placeBuyOrder env config request w = (Returned (stored_result row k), w).
Proof.
  intros Ek Ht Hrow. unfold placeBuyOrder.
  rewrite bind_eq, (keyOf_supplied _ _ k) by assumption. cbv beta iota.
  unfold select_order_tracking.
  rewrite 2!bind_eq, get_world_eq. cbv beta iota.
  rewrite mret_eq. cbv beta iota. now rewrite Hrow.
Qed.

(** The same for [placeSellOrder]. *)
Lemma placeSellOrder_replay request k row w :
  req_idempotencyKey request = Some k -> truthy_str k = true ->
  List.find (has_key k) (order_tracking w) = Some row ->
  placeSellOrder env config request w = (Returned (stored_result row k), w).
Proof.
  intros Ek Ht Hrow. unfold placeSellOrder.
  rewrite bind_eq, (keyOf_supplied _ _ k) by assumption. cbv beta iota.
  unfold select_order_tracking.
  rewrite 2!bind_eq, get_world_eq. cbv beta iota.
  rewrite mret_eq. cbv beta iota. now rewrite Hrow.
Qed.

(** In live mode the stored result is also what the first call
    returned: if a call leaves a row for its key, calling again with
    that key gives the same [success], [orderId] and [error], and
    changes nothing. *)
Lemma placeBuyOrder_live_replay request k w r1 w1 :
  dryRun config = false ->
  req_idempotencyKey request = Some k -> truthy_str k = true ->
  placeBuyOrder env config request w = (Returned r1, w1) ->
  is_Some (List.find (has_key k) (order_tracking w1)) ->
  exists r2,
    placeBuyOrder env config request w1 = (Returned r2, w1) /\
    success r2 = success r1 /\ orderId r2 = orderId r1 /\
    error r2 = error r1.
Proof.
  intros Hlive Ek Ht Hrun [row Hrow].
  exists (stored_result row k).
  split; [now apply placeBuyOrder_replay|].
  assert (Stop : forall r0 w0,
            placeBuyOrder env config request w = (Returned r0, w0) ->
            only_reads w w0 ->
            List.find (has_key k) (order_tracking w) = None -> False).
  { intros r0 w0 E (Eot & _) Hnone. rewrite E in Hrun.
    injection Hrun as _ <-. rewrite Eot in Hrow. congruence. }
  destruct (placeBuyOrder_by_check env config request w)
    as (key & w0 & Ekey & R0 & Htree).
  rewrite (keyOf_supplied _ _ k) in Ekey by assumption.
  injection Ekey as <- <-.
  destruct (List.find (has_key k) (order_tracking w)) as [row0|] eqn:Ef.
  { rewrite Htree in Hrun. injection Hrun as <- <-.
    rewrite Ef in Hrow. now injection Hrow as <-. }
  destruct (bool_decide (req_marketId request ∈ pendingOrders w));
    [now destruct (Stop _ _ Htree R0)|].
  destruct Htree as (hp & w1' & ho & w2 & E1 & E2 & R2 & Htree).
  destruct hp; [now destruct (Stop _ _ Htree R2)|].
  destruct ho; [now destruct (Stop _ _ Htree R2)|].
  destruct Htree as (x & w3 & E3 & R3 & Htree).
  destruct (maxExposureUsd config <? x + req_sizeUsd request)%float;
    [now destruct (Stop _ _ Htree R3)|].
  destruct Htree as (a & w4 & E4 & R4 & Htree).
  destruct (a <? req_sizeUsd request)%float;
    [now destruct (Stop _ _ Htree R4)|].
  destruct Htree as (Eexec & Efind).
  apply find_none_existsb in Efind.
  destruct (executeBuy_runs env config request k w4 Efind)
    as (r5 & w5 & rest & row5 & E5 & _ & Hot & Hk & _ & Hagree).
  rewrite Eexec, E5 in Hrun. injection Hrun as <- <-.
  rewrite Hot, (find_last k _ row5 Efind Hk) in Hrow.
  injection Hrow as <-. now apply Hagree.
Qed.

(** The same for [placeSellOrder], whose only checks are the
    idempotency lookup and the in-flight guard. *)
Lemma placeSellOrder_live_replay request k w r1 w1 :
  dryRun config = false ->
  req_idempotencyKey request = Some k -> truthy_str k = true ->
  placeSellOrder env config request w = (Returned r1, w1) ->
  is_Some (List.find (has_key k) (order_tracking w1)) ->
  exists r2,
    placeSellOrder env config request w1 = (Returned r2, w1) /\
    success r2 = success r1 /\ orderId r2 = orderId r1 /\
    error r2 = error r1.
Proof.
  intros Hlive Ek Ht Hrun [row Hrow].
  exists (stored_result row k).
  split; [now apply placeSellOrder_replay|].
  unfold placeSellOrder in Hrun.
  rewrite bind_eq, (keyOf_supplied _ _ k) in Hrun by assumption.
  cbv beta iota in Hrun. unfold select_order_tracking in Hrun.
  rewrite 2!bind_eq, get_world_eq in Hrun. cbv beta iota in Hrun.
  rewrite mret_eq in Hrun. cbv beta iota in Hrun.
  destruct (List.find (has_key k) (order_tracking w)) as [row0|] eqn:Ef.
  { rewrite mret_eq in Hrun. injection Hrun as <- <-.
    rewrite Ef in Hrow. now injection Hrow as <-. }
  rewrite bind_eq, get_world_eq in Hrun. cbv beta iota in Hrun.
  destruct (bool_decide (_ ∈ pendingOrders w)).
  { rewrite mret_eq in Hrun. injection Hrun as _ <-. congruence. }
  apply find_none_existsb in Ef.
  destruct (executeSell_runs env config request k w Ef)
    as (r5 & w5 & rest & row5 & E5 & _ & Hot & Hk & _ & Hagree).
  rewrite E5 in Hrun. injection Hrun as <- <-.
  rewrite Hot, (find_last k _ row5 Ef Hk) in Hrow.
  injection Hrow as <-. now apply Hagree.
Qed.

End Replay.

(** C1: in dry-run mode the executor stores the order id
    [dry_<Date.now()>] and then returns [dry_<Date.now()>] read anew, so
    a second call with the same key, which short-circuits to the stored
    row without any submission or write, returns an [orderId] other than
    the one the first call returned. *)
Theorem dry_run_replay_returns_other_order_id :
  (exists r1 w1 r2,
     placeBuyOrder (H := scenarioFormat) fundedEnv dryConfig
       (intent (Some "k1")) emptyWorld = (Returned r1, w1) /\
     placeBuyOrder (H := scenarioFormat) fundedEnv dryConfig
       (intent (Some "k1")) w1 = (Returned r2, w1) /\
     success r1 = true /\ success r2 = true /\
     orderId r1 = Some "dry_1700000000016" /\
     orderId r2 = Some "dry_1700000000015" /\
     orderId r2 <> orderId r1) /\
  (exists r1 w1 r2,
     placeSellOrder (H := scenarioFormat) fundedEnv dryConfig
       (intent (Some "k1")) emptyWorld = (Returned r1, w1) /\
     placeSellOrder (H := scenarioFormat) fundedEnv dryConfig
       (intent (Some "k1")) w1 = (Returned r2, w1) /\
     success r1 = true /\ success r2 = true /\
     orderId r1 = Some "dry_sell_1700000000002" /\
     orderId r2 = Some "dry_sell_1700000000001" /\
     orderId r2 <> orderId r1).
Proof.
  split; eexists _, _, _; (split; [vm_compute; reflexivity|]);
    (split; [vm_compute; reflexivity|]); repeat split; discriminate.
Qed.

(** *** Deriving a key *)

Lemma append_inv_head (s a b : string) : s +:+ a = s +:+ b -> a = b.
Proof.
  induction s as [|c s IH]; cbn; intros E; [exact E|].
  injection E as E. now apply IH.
Qed.

(** Within one minute, two derived keys of the same request are equal
    exactly when the two draws of random bytes are. *)
Lemma derived_key_same_bucket `{NumberFormat} env request t1 t2 :
  floor_div (env_now env t1) 60000 = floor_div (env_now env t2) 60000 ->
  derived_key env request t1 = derived_key env request t2 <->
  Buffer_toHex (env_randomBytes env (S t1) 4) =
  Buffer_toHex (env_randomBytes env (S t2) 4).
Proof.
  intros Eb. unfold derived_key. rewrite Eb. split.
  - intros E. now do 3 apply append_inv_head in E.
  - now intros ->.
Qed.

(** C2: the derived key ends in four random bytes, so the same intent
    placed twice within one minute gets two different keys; the second
    call is not recognised, writes a second tracking row and submits a
    second order. *)
Theorem same_intent_same_minute_two_orders :
  exists r1 w1 r2 w2,
    placeBuyOrder (H := scenarioFormat) fundedEnv liveConfig (intent None)
      emptyWorld = (Returned r1, w1) /\
    placeBuyOrder (H := scenarioFormat) fundedEnv liveConfig (intent None)
      w1 = (Returned r2, w2) /\
    floor_div (env_now fundedEnv (tick emptyWorld)) 60000 =
      floor_div (env_now fundedEnv (tick w1)) 60000 /\
    idempotencyKey r1 = "order_m1:YES:10:28333333_01010101" /\
    idempotencyKey r2 = "order_m1:YES:10:28333333_16161616" /\
    success r1 = true /\ success r2 = true /\
    map ot_status (order_tracking w2) = [filled; filled] /\
    length (List.filter is_submission (trace w2)) = 2%nat.
Proof.
  eexists _, _, _, _. split; [vm_compute; reflexivity|].
  split; [vm_compute; reflexivity|].
  repeat split.
Qed.

(** ** The strategy: closing triggers *)

Section ExitConditions.

Import Convergence.

Context (Date_getTime : string -> option Z)
        (config : StrategyConfig) (riskConfig : RiskConfig).

(** C6: [checkExitConditions] tries the triggers in the order target,
    stop-loss, resolution.  A signal with reason [target] is given
    only when [holdToResolution] is false (and the price has reached
    the target); a breached stop-loss gives [stop_loss] whenever the
    target trigger has not fired, in particular whenever
    [holdToResolution] is true; and when neither has fired, a price
    point at or after the resolution date of a market with a known
    outcome gives [resolution] with exit price exactly 1.0 if the
    held side is the outcome and exactly 0.0 otherwise (0.0 for NO
    held in a market resolved YES). *)
Theorem checkExitConditions_priority side entryPrice currentPrice market :
  let price := match side with
               | YES => yes_price currentPrice
               | NO => no_price currentPrice
               end in
  let check := checkExitConditions Date_getTime config riskConfig side
                 entryPrice currentPrice market in
  let signal r p := Some (mkExitSignal (id market) p
                            (timestamp currentPrice) r) in
  let target_hit := negb (holdToResolution config) &&
                    (exitPriceTarget config <=? price)%float in
  let stop_hit :=
    match stopLossPercent riskConfig with
    | Some pct => (price <=? entryPrice * (1 - pct / 100))%float
    | None => false
    end in
  (target_hit = true -> check = signal target price) /\
  (forall s, check = Some s -> reason s = target ->
     holdToResolution config = false /\
     (exitPriceTarget config <=? price)%float = true) /\
  (target_hit = false -> stop_hit = true ->
     check = signal stop_loss price) /\
  (holdToResolution config = true -> stop_hit = true ->
     check = signal stop_loss price) /\
  (target_hit = false -> stop_hit = false ->
   forall out rd t r,
     outcome market = Some out ->
     resolution_date market = Some rd -> truthy_str rd = true ->
     Date_getTime (timestamp currentPrice) = Some t ->
     Date_getTime rd = Some r -> r <= t ->
     check = signal resolution
               (if TokenSide_eqb out side then 1%float else 0%float) /\
     (side = NO -> out = YES -> check = signal resolution 0%float)).
Proof.
  intros price check signal target_hit stop_hit.
  subst check signal. unfold checkExitConditions.
  fold price. fold target_hit. fold stop_hit.
  split; [intros ->; reflexivity|].
  split.
  { intros s Hs Hr. destruct target_hit eqn:Et.
    - apply andb_prop in Et as [Hh Hp]. split; [|exact Hp].
      now destruct (holdToResolution config).
    - destruct stop_hit.
      + injection Hs as <-. discriminate.
      + destruct (outcome market), (resolution_date market) as [rd|];
          try discriminate.
        destruct (truthy_str rd); [|discriminate].
        destruct (Date_ge _ _); [|discriminate].
        injection Hs as <-. discriminate. }
  split; [intros -> ->; reflexivity|].
  split.
  { intros Hh ->. subst target_hit. rewrite Hh. reflexivity. }
  intros -> -> out rd t r -> -> -> -> -> Hle.
  unfold Date_ge. apply Z.leb_le in Hle. rewrite Hle.
  split; [reflexivity|]. intros -> ->. reflexivity.
Qed.

End ExitConditions.

Lemma checkExitConditions_priority_witness :
  Convergence.checkExitConditions scenarioDate holdConfig noStop NO 0.25
    afterResolution resolvedYes
  = Some (Convergence.mkExitSignal "m1" 0 "2024-03-02T00:00:00.000Z"
            Convergence.resolution) /\
  Convergence.checkExitConditions scenarioDate holdConfig halfStop NO 0.25
    afterResolution resolvedYes
  = Some (Convergence.mkExitSignal "m1" 0 "2024-03-02T00:00:00.000Z"
            Convergence.stop_loss).
Proof.
  split.
  - destruct (checkExitConditions_priority scenarioDate holdConfig noStop
                NO 0.25 afterResolution resolvedYes)
      as (_ & _ & _ & _ & Hres).
    destruct (Hres eq_refl eq_refl YES "2024-03-01T00:00:00.000Z"
                1709337600000 1709251200000
                eq_refl eq_refl eq_refl eq_refl eq_refl) as [_ H0].
    + lia.
    + exact (H0 eq_refl eq_refl).
  - destruct (checkExitConditions_priority scenarioDate holdConfig halfStop
                NO 0.25 afterResolution resolvedYes)
      as (_ & _ & _ & Hstop & _).
    exact (Hstop eq_refl eq_refl).
Defined.

(** * Further properties of the code *)

(** ** Numbers: [Math.min], comparisons with NaN *)

Section MathMin.

Local Open Scope float_scope.

Lemma not_leb_ltb a b :
  is_nan a = false -> is_nan b = false ->
  (a <=? b) = false -> (b <? a) = true.
Proof.
  intros Ha Hb. destruct (not_nan_compare a b Ha Hb) as [c Hc].
  rewrite FloatAxioms.ltb_spec, FloatAxioms.leb_spec. unfold SFltb, SFleb.
  rewrite (SFcompare_antisym (Prim2SF a) (Prim2SF b)), Hc.
  destruct c; simpl; congruence.
Qed.

(** For two numbers, [Math.min] returns one of them, and neither is
    below it. *)
Lemma Math_min_is_min a b :
  is_nan a = false -> is_nan b = false ->
  (Math_min a b = a \/ Math_min a b = b) /\
  (Math_min a b <=? a) = true /\ (Math_min a b <=? b) = true.
Proof.
  intros Ha Hb. unfold Math_min. rewrite Ha, Hb. simpl.
  destruct (a <? b) eqn:Lab.
  - split; [now left|]. split; [now apply leb_refl | now apply ltb_leb].
  - destruct (b <? a) eqn:Lba.
    + split; [now right|]. split; [now apply ltb_leb | now apply leb_refl].
    + destruct (is_zero a && get_sign a).
      * split; [now left|].
        split; [now apply leb_refl | now apply not_ltb_leb].
      * split; [now right|].
        split; [now apply not_ltb_leb | now apply leb_refl].
Qed.

Lemma is_nan_SF x : is_nan x = true -> Prim2SF x = S754_nan.
Proof.
  unfold is_nan. rewrite FloatAxioms.eqb_spec. unfold SFeqb.
  intros E. destruct (Prim2SF x) as [s|s| |s m e]; try reflexivity;
    simpl in E.
  - discriminate.
  - destruct s; discriminate.
  - rewrite Z.compare_refl in E.
    change (PosDef.Pos.compare_cont Eq m m) with (Pos.compare m m) in E.
    rewrite Pos.compare_refl in E. destruct s; discriminate.
Qed.

Lemma SF_is_nan x : Prim2SF x = S754_nan -> is_nan x = true.
Proof.
  intros E. unfold is_nan. rewrite FloatAxioms.eqb_spec, E. reflexivity.
Qed.

(** Every ordering test against NaN is false. *)
Lemma ltb_nan_l x y : is_nan x = true -> (x <? y) = false.
Proof.
  intros E. rewrite FloatAxioms.ltb_spec, (is_nan_SF x E). reflexivity.
Qed.

Lemma ltb_nan_r x y : is_nan y = true -> (x <? y) = false.
Proof.
  intros E. rewrite FloatAxioms.ltb_spec, (is_nan_SF y E).
  unfold SFltb. destruct (Prim2SF x) as [s|s| |s m e]; reflexivity.
Qed.

Lemma leb_nan_l x y : is_nan x = true -> (x <=? y) = false.
Proof.
  intros E. rewrite FloatAxioms.leb_spec, (is_nan_SF x E). reflexivity.
Qed.

Lemma sub_nan_r x y : is_nan y = true -> is_nan (x - y) = true.
Proof.
  intros E. apply SF_is_nan.
  rewrite FloatAxioms.sub_spec, (is_nan_SF y E).
  destruct (Prim2SF x) as [s|s| |s m e]; reflexivity.
Qed.

Lemma sub_nan_l x y : is_nan x = true -> is_nan (x - y) = true.
Proof.
  intros E. apply SF_is_nan.
  rewrite FloatAxioms.sub_spec, (is_nan_SF x E). reflexivity.
Qed.

Lemma div_nan_l x y : is_nan x = true -> is_nan (x / y) = true.
Proof.
  intros E. apply SF_is_nan.
  rewrite FloatAxioms.div_spec, (is_nan_SF x E). reflexivity.
Qed.

End MathMin.

(** ** The strategy: entry, sizing, profit and loss *)

Section EntryFacts.

Import Convergence.

Local Open Scope float_scope.

Context `{NumberFormat} (Number_toFixed3 : float -> string)
        (Date_getTime : string -> option Z)
        (config : StrategyConfig) (riskConfig : RiskConfig).

(** X1: [calculatePositionSize] never hands out more than the exposure
    that is left, nor more than the configured position size.  At or
    above [maxPositions] open positions, or with no exposure left, the
    size is 0; otherwise it is the smaller of the configured size and
    the remaining exposure [maxExposureUsd - currentExposure], and the
    latter is positive. *)
Theorem calculatePositionSize_capped currentExposure openPositions :
  is_nan (risk_positionSizeUsd riskConfig) = false ->
  is_nan (risk_maxExposureUsd riskConfig - currentExposure) = false ->
  let size := calculatePositionSize riskConfig currentExposure
                openPositions in
  let remaining := risk_maxExposureUsd riskConfig - currentExposure in
  ((risk_maxPositions riskConfig <= openPositions)%Z -> size = 0) /\
  ((remaining <=? 0) = true -> size = 0) /\
  (size = 0 \/
   (openPositions < risk_maxPositions riskConfig)%Z /\
   (0 <? remaining) = true /\
   (size = risk_positionSizeUsd riskConfig \/ size = remaining) /\
   (size <=? risk_positionSizeUsd riskConfig) = true /\
   (size <=? remaining) = true).
Proof.
  intros Hp Hr size remaining. subst size. unfold calculatePositionSize.
  fold remaining. fold remaining in Hr.
  split.
  { intros Hle. apply Z.leb_le in Hle. now rewrite Hle. }
  split.
  { intros Hle. rewrite Hle. now destruct (_ <=? _)%Z. }
  destruct (risk_maxPositions riskConfig <=? openPositions)%Z eqn:Hn;
    [now left|].
  destruct (remaining <=? 0) eqn:Hz; [now left|].
  right. apply Z.leb_gt in Hn. split; [exact Hn|].
  split; [apply not_leb_ltb; auto|].
  destruct (Math_min_is_min _ _ Hp Hr) as (Hor & H1 & H2).
  auto.
Qed.

(** X2: every signal of [checkEntryConditions] is for an eligible market
    (binary, with a resolution date), names that market and the price
    point's timestamp, and carries an entry price inside the band of its
    side: [entryPriceMin, entryPriceMax] for YES, the mirrored band
    [1 - entryPriceMax, 1 - entryPriceMin] for NO.  YES is tried first:
    a NO signal means that the YES price was outside its band.  The
    time to resolution it reports is neither below the configured
    minimum nor above the maximum. *)
Theorem checkEntryConditions_in_band market pricePoint sig :
  checkEntryConditions Number_toFixed3 Date_getTime config market pricePoint
    = Some sig ->
  is_binary market <> 0%Z /\
  truthy_ostr (resolution_date market) = true /\
  sig_marketId sig = id market /\
  sig_timestamp sig = timestamp pricePoint /\
  sig_timeToResolutionDays sig =
    daysBetween Date_getTime (Some (timestamp pricePoint))
      (resolution_date market) /\
  (sig_timeToResolutionDays sig <? timeToResolutionDaysMin config) = false /\
  (timeToResolutionDaysMax config <? sig_timeToResolutionDays sig) = false /\
  match sig_side sig with
  | YES =>
      sig_entryPrice sig = yes_price pricePoint /\
      (entryPriceMin config <=? yes_price pricePoint) = true /\
      (yes_price pricePoint <=? entryPriceMax config) = true
  | NO =>
      sig_entryPrice sig = no_price pricePoint /\
      (1 - entryPriceMax config <=? no_price pricePoint) = true /\
      (no_price pricePoint <=? 1 - entryPriceMin config) = true /\
      (entryPriceMin config <=? yes_price pricePoint) &&
      (yes_price pricePoint <=? entryPriceMax config) = false
  end.
Proof.
  unfold checkEntryConditions, checkEligibility.
  destruct (is_binary market =? 0)%Z eqn:Eb; [discriminate|].
  apply Z.eqb_neq in Eb.
  destruct (truthy_ostr (resolution_date market)) eqn:Er; [|discriminate].
  cbn [negb eligible].
  set (days := daysBetween _ _ _).
  destruct (days <? timeToResolutionDaysMin config) eqn:Elo;
    [discriminate|].
  destruct (timeToResolutionDaysMax config <? days) eqn:Ehi;
    [discriminate|].
  cbn [orb].
  destruct ((entryPriceMin config <=? yes_price pricePoint) &&
            (yes_price pricePoint <=? entryPriceMax config)) eqn:Eyes.
  - intros [= <-]. cbn. apply andb_prop in Eyes as [? ?]. repeat split; auto.
  - destruct ((1 - entryPriceMax config <=? no_price pricePoint) &&
              (no_price pricePoint <=? 1 - entryPriceMin config)) eqn:Eno;
      [|discriminate].
    intros [= <-]. cbn. apply andb_prop in Eno as [? ?]. repeat split; auto.
Qed.

(** X3: the time window of [checkEntryConditions] only refuses a number
    of days that is below the minimum or above the maximum.  When the
    timestamp of the price point or the resolution date cannot be parsed
    the number of days is NaN, no comparison with it holds, and the
    decision falls to the prices alone: an eligible market whose YES or
    NO price is inside its band gets a signal, with NaN as its time to
    resolution. *)
Theorem checkEntryConditions_unparsed_date market pricePoint rd :
  is_binary market <> 0%Z ->
  resolution_date market = Some rd -> truthy_str rd = true ->
  Date_getTime (timestamp pricePoint) = None \/ Date_getTime rd = None ->
  (entryPriceMin config <=? yes_price pricePoint) &&
  (yes_price pricePoint <=? entryPriceMax config) = true \/
  (1 - entryPriceMax config <=? no_price pricePoint) &&
  (no_price pricePoint <=? 1 - entryPriceMin config) = true ->
  exists sig,
    checkEntryConditions Number_toFixed3 Date_getTime config market
      pricePoint = Some sig /\
    is_nan (sig_timeToResolutionDays sig) = true.
Proof.
  intros Hb Hrd Ht Hdate Hprice.
  unfold checkEntryConditions, checkEligibility.
  apply Z.eqb_neq in Hb. rewrite Hb, Hrd. cbn [truthy_ostr].
  rewrite Ht. cbn [negb eligible].
  set (days := daysBetween _ _ _).
  assert (Hnan : is_nan days = true).
  { subst days. unfold daysBetween, Date_time. apply div_nan_l.
    destruct Hdate as [-> | ->].
    - now apply sub_nan_r.
    - now apply sub_nan_l. }
  rewrite (ltb_nan_l _ _ Hnan), (ltb_nan_r _ _ Hnan). cbn [orb].
  destruct ((entryPriceMin config <=? yes_price pricePoint) &&
            (yes_price pricePoint <=? entryPriceMax config)).
  - eexists. split; [reflexivity|exact Hnan].
  - destruct Hprice as [Hp|Hp]; [discriminate|]. rewrite Hp.
    eexists. split; [reflexivity|exact Hnan].
Qed.

(** X4: a position whose exit price is 0 (what a market that resolves
    against the position pays) loses exactly its stake:
    [calculatePnL] returns [-sizeUsd], whatever the side, as long as the
    number of shares [sizeUsd / entryPrice] is finite and the stake is
    not zero. *)
Theorem calculatePnL_total_loss side entryPrice sizeUsd :
  is_finite (sizeUsd / entryPrice) = true ->
  is_zero sizeUsd = false ->
  calculatePnL side entryPrice 0 sizeUsd = - sizeUsd.
Proof.
  intros Hfin Hnz. unfold calculatePnL.
  apply FloatAxioms.Prim2SF_inj.
  rewrite FloatAxioms.sub_spec, FloatAxioms.mul_spec, FloatAxioms.opp_spec.
  unfold is_finite, is_infinity, is_nan in Hfin.
  rewrite !FloatAxioms.eqb_spec, FloatAxioms.abs_spec in Hfin.
  unfold is_zero in Hnz. rewrite FloatAxioms.eqb_spec in Hnz.
  change (Prim2SF 0) with (S754_zero false).
  change (Prim2SF PrimFloat.zero) with (S754_zero false) in Hnz.
  change (Prim2SF PrimFloat.infinity) with (S754_infinity false) in Hfin.
  destruct (Prim2SF (sizeUsd / entryPrice)) as [ss|ss| |ss ms es];
    try (destruct ss; discriminate Hfin);
    try discriminate Hfin;
    destruct (Prim2SF sizeUsd) as [s|s| |s m e];
    try discriminate Hnz; reflexivity.
Qed.

End EntryFacts.

Lemma calculatePositionSize_capped_witness :
  Convergence.calculatePositionSize noStop 45 2 = 5%float /\
  Convergence.calculatePositionSize noStop 45 5 = 0%float /\
  Convergence.calculatePositionSize noStop 50 2 = 0%float.
Proof.
  destruct (calculatePositionSize_capped noStop 45 2 eq_refl eq_refl)
    as (_ & _ & H2).
  destruct (calculatePositionSize_capped noStop 45 5 eq_refl eq_refl)
    as (H5 & _ & _).
  destruct (calculatePositionSize_capped noStop 50 2 eq_refl eq_refl)
    as (_ & H0 & _).
  split; [|split].
  - destruct H2 as [E|(_ & _ & [E|E] & _)]; vm_compute in E |- *;
      first [reflexivity | discriminate E].
  - apply H5. vm_compute. discriminate.
  - apply H0. reflexivity.
Defined.

Lemma checkEntryConditions_in_band_witness :
  exists sig,
    Convergence.checkEntryConditions (H := scenarioFormat) scenarioFixed3
      scenarioDate holdConfig openMarket beforeResolution = Some sig /\
    Convergence.sig_side sig = YES /\
    Convergence.sig_timeToResolutionDays sig = 1%float /\
    (0.5 <=? Convergence.sig_entryPrice sig)%float = true /\
    (Convergence.sig_entryPrice sig <=? 0.75)%float = true.
Proof.
  eexists. split; [reflexivity|].
  destruct (checkEntryConditions_in_band (H := scenarioFormat)
              scenarioFixed3 scenarioDate holdConfig openMarket
              beforeResolution _ eq_refl)
    as (_ & _ & _ & _ & Hd & _ & _ & Hp & Hlo & Hhi).
  split; [reflexivity|]. split; [rewrite Hd; reflexivity|].
  rewrite Hp. split; [exact Hlo | exact Hhi].
Defined.

Lemma checkEntryConditions_unparsed_date_witness :
  exists sig,
    Convergence.checkEntryConditions (H := scenarioFormat) scenarioFixed3
      scenarioDate holdConfig openMarket undatedPoint = Some sig /\
    PrimFloat.is_nan (Convergence.sig_timeToResolutionDays sig) = true.
Proof.
  apply (checkEntryConditions_unparsed_date (H := scenarioFormat)
           scenarioFixed3 scenarioDate holdConfig openMarket undatedPoint
           "2024-03-02T00:00:00.000Z").
  - discriminate.
  - reflexivity.
  - reflexivity.
  - left. reflexivity.
  - left. reflexivity.
Defined.

Lemma calculatePnL_total_loss_witness :
  Convergence.calculatePnL NO 0.25 0 10 = (-10)%float.
Proof.
  apply (calculatePnL_total_loss NO 0.25 10); reflexivity.
Defined.

(** ** The state manager: what it asks, what it keeps *)

Section StateQueries.

Context (env : Env) (smc : StateManagerConfig).

Local Open Scope float_scope.

Lemma leb_not_ltb a b : (a <=? b) = true -> (b <? a) = false.
Proof.
  rewrite FloatAxioms.ltb_spec, FloatAxioms.leb_spec. unfold SFltb, SFleb.
  rewrite (SFcompare_antisym (Prim2SF a) (Prim2SF b)).
  destruct (SFcompare (Prim2SF a) (Prim2SF b)) as [[]|]; simpl; congruence.
Qed.

Lemma Math_max_0_nonnegative x : (Math_max 0 x <? 0) = false.
Proof.
  destruct (is_nan x) eqn:Ex.
  - unfold Math_max. rewrite Ex, orb_true_r. now apply ltb_nan_l.
  - apply leb_not_ltb.
    now destruct (Math_max_is_max 0 x eq_refl Ex) as (_ & H0 & _).
Qed.

(** X5: [getAvailableBalance] always returns, and never a negative
    number: it is [Math.max(0, balance - exposure of the open orders)] of
    the state that [getState()] hands out, so open orders that outweigh
    the balance leave 0 available, not a negative amount.  It only reads
    the outside. *)
Theorem getAvailableBalance_nonnegative w :
  exists st w0 x w',
    getState env smc false w = (Returned st, w0) /\
    getAvailableBalance env smc w = (Returned x, w') /\
    x = Math_max 0 (balance st - orderExposure (openOrders st)) /\
    (x <? 0) = false /\
    only_reads w w'.
Proof.
  destruct (getState_total env smc false w) as (st & w0 & E & R).
  exists st, w0. unfold getAvailableBalance. rewrite bind_eq, E.
  cbv beta iota zeta. rewrite mret_eq.
  eexists _, _. split; [reflexivity|]. split; [reflexivity|].
  split; [reflexivity|]. split; [apply Math_max_0_nonnegative | exact R].
Qed.

Local Close Scope float_scope.

(** X6: a state that was just fetched is served from the cache for as
    long as it is younger than the stale threshold: the next
    [getState()] returns the same balance, positions and orders with the
    same [lastSyncTime], tagged [cache], sends nothing to the outside
    and leaves the stored state as it is.  Once the age has reached the
    threshold the same call fetches again and answers from the [api]. *)
Theorem getState_serves_cache_while_fresh w st w1 :
  getState env smc true w = (Returned st, w1) ->
  let age := env_now env (S (tick w1)) - lastSyncTime st in
  lastSyncTime st = env_now env (tick w) /\
  (age < staleThresholdMs smc ->
   exists w2,
     getState env smc false w1 = (Returned (as_cache st), w2) /\
     trace w2 = trace w1 /\ cachedState w2 = Some st) /\
  (staleThresholdMs smc <= age ->
   exists st' w2,
     getState env smc false w1 = (Returned st', w2) /\
     syncSource st' = api /\
     lastSyncTime st' = env_now env (tick w1) /\
     cachedState w2 = Some st' /\
     new_events w1 w2 [EvGetBalanceAllowance; EvPolygonRpc; EvGetOpenOrders;
                       EvDataApiPositions]).
Proof.
  intros E age. rewrite getState_refresh in E. injection E as <- <-.
  split; [reflexivity|].
  split.
  - intros Hage. rewrite getState_eq. unfold fetch_start.
    cbn [cachedState fetchedWorld negb]. subst age.
    apply Z.ltb_lt in Hage. rewrite Hage.
    eexists. split; [reflexivity|]. split; reflexivity.
  - intros Hage. rewrite getState_eq. unfold fetch_start.
    cbn [cachedState fetchedWorld negb]. subst age.
    apply Z.ltb_ge in Hage. rewrite Hage.
    eexists _, _. split; [reflexivity|]. repeat split.
Qed.

(** X7: the two market checks of the pre-flight never answer from the
    cache.  Whatever the cache holds, [hasPositionInMarket] asks the
    venue, and says yes exactly when the market is among the condition
    ids that the positions endpoint lists at that moment;
    [hasOpenOrderForMarket] says yes exactly when an order of the open
    orders the venue lists at that moment is in the market.  Each call
    makes the four reads of a refresh and replaces the cached state. *)
Theorem market_checks_ask_the_venue market w :
  let reads := [EvGetBalanceAllowance; EvPolygonRpc; EvGetOpenOrders;
                EvDataApiPositions] in
  (exists b w',
     hasPositionInMarket env smc market w = (Returned b, w') /\
     (b = true <->
      In market (position_markets (env_dataApiPositions env (4 + tick w)))) /\
     new_events w w' reads /\
     exists st, cachedState w' = Some st /\ syncSource st = api) /\
  (exists b w',
     hasOpenOrderForMarket env smc market w = (Returned b, w') /\
     (b = true <->
      exists o, In o (ordersReading (env_getOpenOrders env (3 + tick w))) /\
                oo_market o = market) /\
     new_events w w' reads /\
     exists st, cachedState w' = Some st /\ syncSource st = api).
Proof.
  intros reads. split.
  - unfold hasPositionInMarket. rewrite bind_eq, getState_refresh.
    cbv beta iota. rewrite mret_eq. eexists _, _. split; [reflexivity|].
    split.
    + fold (has_position
              (fetchedState env (env_now env (tick w)) (S (tick w))) market).
      rewrite has_position_In, fetchedState_markets. reflexivity.
    + split; [reflexivity|]. eexists. split; reflexivity.
  - unfold hasOpenOrderForMarket. rewrite bind_eq, getState_refresh.
    cbv beta iota. rewrite mret_eq. eexists _, _. split; [reflexivity|].
    split.
    + rewrite existsb_exists. cbn [openOrders fetchedState].
      split; intros (o & Ho & Eo); exists o; (split; [exact Ho|]);
        now apply String.eqb_eq.
    + split; [reflexivity|]. eexists. split; reflexivity.
Qed.

(** X8: [verifyPosition] agrees with [hasPositionInMarket]: it returns a
    position exactly when the venue lists the market, and the position
    it returns is in that market and is one of those just fetched (the
    first of them). *)
Theorem verifyPosition_agrees market w :
  exists r b w',
    verifyPosition env smc market w = (Returned r, w') /\
    hasPositionInMarket env smc market w = (Returned b, w') /\
    (b = true <-> exists p, r = Some p) /\
    forall p, r = Some p ->
      pos_marketId p = market /\
      exists st, cachedState w' = Some st /\ In p (positions st).
Proof.
  unfold verifyPosition, hasPositionInMarket.
  rewrite !bind_eq, getState_refresh. cbv beta iota. rewrite !mret_eq.
  eexists _, _, _. split; [reflexivity|]. split; [reflexivity|].
  set (st := fetchedState env (env_now env (tick w)) (S (tick w))).
  split.
  - rewrite existsb_exists. split.
    + intros (p & Hp & Ep).
      destruct (List.find _ (positions st)) as [q|] eqn:Ef; [eauto|].
      eapply find_none in Ef; [|exact Hp]. cbv beta in Ef. congruence.
    + intros (p & Ef). apply find_some in Ef. eauto.
  - intros p Ef. apply find_some in Ef as [Hp Ep].
    apply String.eqb_eq in Ep. split; [exact Ep|].
    exists st. split; [reflexivity | exact Hp].
Qed.

End StateQueries.

Lemma getState_serves_cache_while_fresh_witness :
  exists st w1 w2,
    getState zeroClobEnv smc30 true emptyWorld = (Returned st, w1) /\
    getState zeroClobEnv smc30 false w1 = (Returned (as_cache st), w2) /\
    trace w2 = trace w1.
Proof.
  destruct (getState_total zeroClobEnv smc30 true emptyWorld)
    as (st & w1 & E & _).
  exists st, w1.
  pose proof (getState_serves_cache_while_fresh zeroClobEnv smc30
                emptyWorld st w1 E) as (Hsync & Hfresh & _).
  destruct Hfresh as (w2 & E2 & Htr & _).
  - rewrite Hsync.
    rewrite getState_refresh in E. injection E as _ <-. vm_compute.
    reflexivity.
  - exists w2. auto.
Defined.

(** ** Reconciliation: what it touches, and what a failure leaves *)

Section ReconcileFrame.

Context (env : Env) (smc : StateManagerConfig).

(** The second loop, however it ends: rows are only appended to
    [live_trades], one for each unmatched position up to the first whose
    side the table refuses. *)
Lemma reconcile_remote_outcome localTrades ps acc w :
  exists out w' news evs,
    reconcile_remote env localTrades ps acc w = (out, w') /\
    order_tracking w' = order_tracking w /\
    order_tracking_seq w' = order_tracking_seq w /\
    pendingOrders w' = pendingOrders w /\
    cachedState w' = cachedState w /\
    live_trades w' = live_trades w ++ news /\
    (forall row, In row news ->
       exists p id ts, In p ps /\ unmatched localTrades p = true /\
                       side_allowed (pos_side p) = true /\
                       row = found_row p id ts) /\
    trace w' = trace w ++ evs /\
    forallb is_live_trades_write evs = true /\
    (if sides_allowed (List.filter (unmatched localTrades) ps)
     then exists ds, out = Returned ds
     else out = Thrown check_failed).
Proof.
  revert acc w. induction ps as [|p rest IH]; intros acc w.
  - cbn [reconcile_remote].
    exists (Returned acc), w, [], [].
    rewrite mret_eq, !app_nil_r. cbn [List.filter sides_allowed forallb].
    repeat split; eauto. intros row [].
  - cbn [reconcile_remote List.filter].
    remember (List.find (fun t => String.eqb (lt_market_id t)
                                             (pos_marketId p))
                        localTrades) as f eqn:Ef.
    assert (Hu : unmatched localTrades p =
                 match f with Some _ => false | None => true end)
      by (subst f; reflexivity).
    rewrite Hu. destruct f.
    + destruct (IH acc w)
        as (out & w' & news & evs & E & ? & ? & ? & ? & ? & Hn & ? & ? & ?).
      exists out, w', news, evs. repeat split; try assumption.
      intros row Hrow. destruct (Hn row Hrow) as (q & i & ts & Hq & ?).
      exists q, i, ts. split; [now right | assumption].
    + rewrite bind_eq, insert_found_row_eq.
      cbn [sides_allowed forallb].
      destruct (side_allowed (pos_side p)) eqn:Hside; cbv beta iota.
      * destruct (IH (acc ++ [remote_discrepancy p]) (inserted1 env p w))
          as (out & w' & news & evs & E & Eot & Eos & Epo & Ecs & Elt & Hn
              & Etr & Hev & Hout).
        unfold remote_discrepancy in E. rewrite E.
        cbn [inserted1 order_tracking order_tracking_seq pendingOrders
             cachedState live_trades trace] in *.
        eexists out, w', (_ :: news), (_ :: evs).
        split; [reflexivity|].
        rewrite Elt, Etr, <- !app_assoc. cbn [app].
        repeat split; try assumption.
        -- intros row [<-|Hrow].
           ++ exists p, (live_trades_seq w + 1), (env_now env (tick w)).
              repeat split; auto. now left.
           ++ destruct (Hn row Hrow) as (q & i & ts & Hq & ?).
              exists q, i, ts. split; [now right | assumption].
      * exists (Thrown check_failed), (next_tick w), [], [].
        rewrite !app_nil_r. repeat split.
        intros row [].
Qed.

(** [reconcile], however it ends. *)
Lemma reconcile_outcome w :
  let st := fetchedState env (env_now env (tick w)) (S (tick w)) in
  let localTrades := List.filter is_open_or_pending (live_trades w) in
  let orphans := List.filter (orphaned st) localTrades in
  exists out w' news evs,
    reconcile env smc w = (out, w') /\
    order_tracking w' = order_tracking w /\
    order_tracking_seq w' = order_tracking_seq w /\
    pendingOrders w' = pendingOrders w /\
    live_trades w' =
      map (mark_unknown (map lt_id orphans)) (live_trades w) ++ news /\
    (forall row, In row news ->
       exists p id ts, In p (positions st) /\
                       unmatched localTrades p = true /\
                       side_allowed (pos_side p) = true /\
                       row = found_row p id ts) /\
    trace w' = trace w ++ evs /\
    forallb (fun e => is_read e || is_live_trades_write e) evs = true /\
    (if sides_allowed (List.filter (unmatched localTrades) (positions st))
     then exists r, out = Returned r
     else out = Thrown check_failed).
Proof.
  intros st localTrades orphans. unfold reconcile.
  rewrite bind_eq, getState_refresh. cbv beta iota.
  rewrite bind_eq. unfold select_open_or_pending.
  rewrite bind_eq, get_world_eq. cbv beta iota. rewrite mret_eq.
  cbv beta iota. rewrite bind_eq, reconcile_local_eq. cbv beta iota.
  rewrite bind_eq.
  fold st. cbn [live_trades fetchedWorld]. fold localTrades. fold orphans.
  set (w1 := repaired orphans _).
  destruct (reconcile_remote_outcome localTrades (positions st)
              ([] ++ map local_discrepancy orphans) w1)
    as (out & w' & news & evs & E & Eot & Eos & Epo & Ecs & Elt & Hn
        & Etr & Hev & Hout).
  rewrite E.
  exists (match out with
          | Returned ds =>
              Returned (mkReconciliation (Nat.eqb (length ds) 0) ds)
          | Thrown e => Thrown e
          end), w', news,
    ([EvGetBalanceAllowance; EvPolygonRpc; EvGetOpenOrders;
      EvDataApiPositions]
     ++ map (fun t => EvUpdateLiveTrade (lt_id t)) orphans ++ evs).
  split; [destruct out; reflexivity|].
  rewrite Eot, Eos, Epo, Elt, Etr.
  subst w1. cbn [repaired fetchedWorld order_tracking order_tracking_seq
                 pendingOrders live_trades trace].
  repeat split; try assumption.
  - rewrite <- !app_assoc. reflexivity.
  - cbn [app forallb is_read is_live_trades_write orb andb].
    rewrite forallb_app. apply andb_true_intro. split.
    + apply forallb_forall. intros e He.
      apply in_map_iff in He as (t & <- & _). reflexivity.
    + apply forallb_forall. intros e He.
      rewrite forallb_forall in Hev. rewrite (Hev e He).
      apply orb_true_r.
  - destruct (sides_allowed _).
    + destruct Hout as (ds & ->). eauto.
    + now rewrite Hout.
Qed.

Lemma reads_and_live_trades_no_venue_write evs :
  forallb (fun e => is_read e || is_live_trades_write e) evs = true ->
  List.filter is_venue_write evs = [].
Proof.
  induction evs as [|e evs IH]; [reflexivity|].
  cbn [forallb]. intros Hev. apply andb_prop in Hev as [He Hev].
  cbn [List.filter]. rewrite (IH Hev).
  destruct e; try reflexivity; discriminate He.
Qed.

Lemma mark_unknown_keeps ids (l : list LiveTrade) :
  Forall2 (fun t t' =>
             lt_id t' = lt_id t /\ lt_market_id t' = lt_market_id t /\
             lt_side t' = lt_side t /\ lt_size t' = lt_size t /\
             (lt_status t' = lt_status t \/ lt_status t' = unknown))
          l (map (mark_unknown ids) l).
Proof.
  induction l as [|t l IH]; constructor; [|exact IH].
  unfold mark_unknown. destruct (existsb _ _); cbn; auto 6.
Qed.

(** X9: [reconcile] writes nothing but the table [live_trades], whether
    it returns or throws.  The table [order_tracking] and the in-flight
    set are as before; every effect is a read of the outside or a write
    to [live_trades], so no order is submitted and none is cancelled;
    and no row is deleted: each row that was there is still there, in
    the same place, with its id, market, side and size, and with its
    status either unchanged or set to ['unknown']. *)
Theorem reconcile_writes_live_trades_only w :
  exists out w' evs news,
    reconcile env smc w = (out, w') /\
    order_tracking w' = order_tracking w /\
    order_tracking_seq w' = order_tracking_seq w /\
    pendingOrders w' = pendingOrders w /\
    new_events w w' evs /\
    forallb (fun e => is_read e || is_live_trades_write e) evs = true /\
    List.filter is_venue_write evs = [] /\
    exists olds,
      live_trades w' = olds ++ news /\
      Forall2 (fun t t' =>
                 lt_id t' = lt_id t /\ lt_market_id t' = lt_market_id t /\
                 lt_side t' = lt_side t /\ lt_size t' = lt_size t /\
                 (lt_status t' = lt_status t \/ lt_status t' = unknown))
              (live_trades w) olds.
Proof.
  destruct (reconcile_outcome w)
    as (out & w' & news & evs & E & Eot & Eos & Epo & Elt & _ & Etr & Hev
        & _).
  exists out, w', evs, news. repeat split; try assumption.
  - now apply reads_and_live_trades_no_venue_write.
  - eexists. split; [exact Elt|]. apply mark_unknown_keeps.
Qed.

(** X10: [reconcile] is not atomic.  When the venue lists a position
    that no local open or pending trade matches and whose side is
    neither ['YES'] nor ['NO'] (the upper-cased outcome of an Up/Down
    market, say), the INSERT for it violates the table's CHECK and
    [reconcile] throws; the repairs made before that are kept: every
    orphaned ['open'] trade has already been set to ['unknown'], and the
    rows inserted for earlier positions stay. *)
Theorem reconcile_not_atomic w st w0 p :
  getState env smc true w = (Returned st, w0) ->
  In p (positions st) ->
  unmatched (List.filter is_open_or_pending (live_trades w)) p = true ->
  side_allowed (pos_side p) = false ->
  exists w' news,
    reconcile env smc w = (Thrown check_failed, w') /\
    (forall t, In t (live_trades w) -> orphaned st t = true ->
       In (set_unknown not_found_note t) (live_trades w')) /\
    length (live_trades w') = (length (live_trades w) + length news)%nat /\
    (forall row, In row news ->
       In row (live_trades w') /\
       exists q id ts, In q (positions st) /\
                       side_allowed (pos_side q) = true /\
                       row = found_row q id ts).
Proof.
  intros Hst Hp Hu Hside.
  rewrite getState_refresh in Hst. injection Hst as <- <-.
  set (st := fetchedState env (env_now env (tick w)) (S (tick w))) in *.
  destruct (reconcile_outcome w)
    as (out & w' & news & evs & E & _ & _ & _ & Elt & Hn & _ & _ & Hout).
  fold st in Elt, Hn, Hout.
  assert (Hs : sides_allowed
                 (List.filter
                    (unmatched (List.filter is_open_or_pending
                                  (live_trades w)))
                    (positions st)) = false).
  { apply not_true_is_false. intros Hall. unfold sides_allowed in Hall.
    rewrite forallb_forall in Hall.
    assert (Hin : In p (List.filter
                          (unmatched (List.filter is_open_or_pending
                                        (live_trades w)))
                          (positions st)))
      by (apply filter_In; now split).
    specialize (Hall p Hin). congruence. }
  rewrite Hs in Hout. subst out.
  exists w', news. split; [exact E|]. split; [|split].
  - intros t Ht Ho. rewrite Elt. apply in_or_app. left.
    apply in_map_iff. exists t. split; [|exact Ht].
    unfold mark_unknown.
    assert (Hid : existsb (Z.eqb (lt_id t))
                    (map lt_id
                       (List.filter (orphaned st)
                          (List.filter is_open_or_pending (live_trades w))))
                  = true).
    { apply existsb_eqb_ids. apply in_map. apply filter_In.
      split; [|exact Ho]. apply filter_In. split; [exact Ht|].
      unfold orphaned in Ho. unfold is_open_or_pending.
      destruct (lt_status t); try reflexivity;
        now rewrite andb_false_r in Ho. }
    now rewrite Hid.
  - rewrite Elt, length_app, length_map. reflexivity.
  - intros row Hrow. split.
    + rewrite Elt. apply in_or_app. now right.
    + destruct (Hn row Hrow) as (q & i & ts & Hq & _ & Hsq & ->).
      exists q, i, ts. auto.
Qed.

End ReconcileFrame.

Lemma reconcile_not_atomic_witness :
  exists w',
    reconcile upDownEnv smc30 driftWorld = (Thrown check_failed, w') /\
    In (set_unknown not_found_note (trade 1 "mA" open)) (live_trades w').
Proof.
  destruct (getState_total upDownEnv smc30 true driftWorld)
    as (st & w0 & E & _).
  pose proof E as E0.
  rewrite getState_refresh in E0. injection E0 as Est _.
  destruct (reconcile_not_atomic upDownEnv smc30 driftWorld st w0
              (toPosition_at
                 (mkRawPosition "mU" "tokU" (Some "Up") (Some 20%float)
                    (Some 0.75%float) (Some 17.5%float) (Some 0.875%float)
                    (Some 1%float) (Some "Bitcoin up or down?"))
                 (clock 5)) E)
    as (w' & news & Ethrow & Hkept & _).
  - rewrite <- Est. left. reflexivity.
  - reflexivity.
  - reflexivity.
  - exists w'. split; [exact Ethrow|].
    apply Hkept; [now left|]. rewrite <- Est. reflexivity.
Defined.

(** ** The executor: every way out of an order *)

Ltac outcome_leaf :=
  eexists _, _, _, _; split; [reflexivity|];
  cbn [trace order_tracking order_tracking_seq pendingOrders cachedState
       live_trades live_trades_seq idempotencyKey success error orderId];
  rewrite <- ?app_assoc; cbn [app];
  repeat match goal with
         | |- _ /\ _ => split
         end.

Ltac outcome_done :=
  outcome_leaf;
  try reflexivity;
  try (intros; discriminate);
  try (left; repeat split; first [now left | now right]);
  try (right; eexists _, _; repeat split; reflexivity);
  try (intros ? _ E; injection E as <-; reflexivity);
  try (intros ? _ E Ht; injection E as <-;
       try match goal with
           | Eo : or_ostr _ _ = _ |- _ => rewrite Eo in Ht
           end;
       cbn [truthy_ostr] in Ht; first [reflexivity | congruence]).

Section ExecuteBuyOutcome.

Context (env : Env) (config : ExecutorConfig).

Lemma executeBuy_outcome request key w :
  existsb (has_key key) (order_tracking w) = false ->
  let m := req_marketId request in
  let answer := env_createAndPostMarketOrder env (2 + tick w)
                  (order_args request BUY) in
  exists result w' rest row,
    executeBuy env config request key w = (Returned result, w') /\
    trace w' = trace w ++ EvInsertOrderTracking key :: EvPendingAdd m
                 :: rest /\
    List.filter is_read rest = [] /\
    List.filter is_venue_write rest =
      (if dryRun config then []
       else [EvCreateAndPostMarketOrder (order_args request BUY) answer]) /\
    order_tracking w' = order_tracking w ++ [row] /\
    order_tracking_seq w' = order_tracking_seq w + 1 /\
    pendingOrders w' = ({[m]} ∪ pendingOrders w) ∖ {[m]} /\
    cachedState w' = cachedState w /\
    idempotencyKey result = key /\
    ot_idempotency_key row = Some key /\
    ot_side row = BUY /\
    ot_market_id row = m /\
    ot_status row = (if success result then filled else failed) /\
    ot_error_message row = error result /\
    (live_trades w' = live_trades w /\
     live_trades_seq w' = live_trades_seq w /\
     (dryRun config = true \/ success result = false)
     \/
     exists oid ts,
       dryRun config = false /\ success result = true /\
       orderId result = Some oid /\ ot_order_id row = Some oid /\
       live_trades w' =
         live_trades w ++
           [opened_trade request oid (live_trades_seq w + 1) ts] /\
       live_trades_seq w' = live_trades_seq w + 1) /\
    (forall msg, dryRun config = false -> answer = SubmitThrows msg ->
       result = mkOrderResult false None (Some msg) None key) /\
    (forall r, dryRun config = false -> answer = SubmitReturns r ->
       truthy_ostr (venue_order_id r) = false ->
       result = mkOrderResult false None
                  (Some (or_str (r ≫= res_errorMsg) "No order ID returned"))
                  None key).
Proof.
  intros Hf m answer. subst m answer. unfold executeBuy.
  rewrite bind_eq, insert_order_tracking_eq by exact Hf. cbv beta iota.
  unfold pending_add. rewrite bind_eq, modify_eq. cbv beta iota.
  unfold try_finally, try_catch, submitBuy.
  pose proof (has_key_created env BUY request key w) as Hrow.
  set (row := created_row env BUY request key w) in *.
  destruct w as [ot ots lt lts po cs le tk tr]. wnorm.
  cbn [order_tracking tick Nat.add] in *.
  destruct (dryRun config) eqn:Hdry.
  - step. step. rewrite clash_last by assumption.
    destruct (existsb (has_order_id _) ot) eqn:Eclash; cbv beta iota.
    + rewrite on_error_eq. wnorm.
      rewrite update_last by assumption. outcome_done.
    + rewrite update_last by assumption. step. outcome_done.
  - step. step. cbn [order_id_clash]. cbv iota.
    rewrite update_last by assumption.
    step.
    destruct (env_createAndPostMarketOrder env (S (S tk))
                (order_args request BUY)) as [msg|result] eqn:Eans;
      cbv beta iota.
    + rewrite throw_eq, on_error_eq. wnorm.
      rewrite update_last by assumption. outcome_done.
    + unfold venue_order_id.
      destruct (or_ostr (result ≫= res_orderID) (result ≫= res_orderId))
        as [oid|] eqn:Eoid.
      * destruct (truthy_str oid) eqn:Etruthy.
        -- step. step. rewrite clash_last by assumption.
           destruct (existsb (has_order_id _) ot) eqn:Eclash; cbv beta iota.
           ++ rewrite on_error_eq. wnorm.
              rewrite update_last by assumption. outcome_done.
           ++ rewrite update_last by assumption. step.
              cbn [lt_side opened_trade].
              rewrite side_allowed_TokenSide. cbv beta iota. wnorm.
              rewrite mret_eq. outcome_done.
        -- step. step. cbn [order_id_clash]. cbv iota.
           rewrite update_last by assumption. rewrite mret_eq. outcome_done.
      * step. step. cbn [order_id_clash]. cbv iota.
        rewrite update_last by assumption. rewrite mret_eq. outcome_done.
Qed.

End ExecuteBuyOutcome.

Section ExecuteSellOutcome.

Context (env : Env) (config : ExecutorConfig).

Lemma executeSell_outcome request key w :
  existsb (has_key key) (order_tracking w) = false ->
  let m := "sell_" +:+ req_marketId request in
  let answer := env_createAndPostMarketOrder env (2 + tick w)
                  (order_args request SELL) in
  exists result w' rest row,
    executeSell env config request key w = (Returned result, w') /\
    trace w' = trace w ++ EvInsertOrderTracking key :: EvPendingAdd m
                 :: rest /\
    List.filter is_read rest = [] /\
    List.filter is_venue_write rest =
      (if dryRun config then []
       else [EvCreateAndPostMarketOrder (order_args request SELL) answer]) /\
    List.filter is_live_trades_write rest = [] /\
    order_tracking w' = order_tracking w ++ [row] /\
    order_tracking_seq w' = order_tracking_seq w + 1 /\
    pendingOrders w' = ({[m]} ∪ pendingOrders w) ∖ {[m]} /\
    cachedState w' = cachedState w /\
    live_trades w' = live_trades w /\
    live_trades_seq w' = live_trades_seq w /\
    idempotencyKey result = key /\
    ot_idempotency_key row = Some key /\
    ot_side row = SELL /\
    ot_market_id row = req_marketId request /\
    ot_status row = (if success result then filled else failed) /\
    ot_error_message row = error result /\
    (forall msg, dryRun config = false -> answer = SubmitThrows msg ->
       result = mkOrderResult false None (Some msg) None key) /\
    (forall r, dryRun config = false -> answer = SubmitReturns r ->
       truthy_ostr (venue_order_id r) = false ->
       result = mkOrderResult false None
                  (Some (or_str (r ≫= res_errorMsg) "No order ID returned"))
                  None key).
Proof.
  intros Hf m answer. subst m answer. unfold executeSell.
  rewrite bind_eq, insert_order_tracking_eq by exact Hf. cbv beta iota.
  unfold pending_add. rewrite bind_eq, modify_eq. cbv beta iota.
  unfold try_finally, try_catch, submitSell.
  pose proof (has_key_created env SELL request key w) as Hrow.
  set (row := created_row env SELL request key w) in *.
  destruct w as [ot ots lt lts po cs le tk tr]. wnorm.
  cbn [order_tracking tick Nat.add] in *.
  destruct (dryRun config) eqn:Hdry.
  - step. step. rewrite clash_last by assumption.
    destruct (existsb (has_order_id _) ot) eqn:Eclash; cbv beta iota.
    + rewrite on_error_eq. wnorm.
      rewrite update_last by assumption. outcome_done.
    + rewrite update_last by assumption. step. outcome_done.
  - step. step. cbn [order_id_clash]. cbv iota.
    rewrite update_last by assumption.
    step.
    destruct (env_createAndPostMarketOrder env (S (S tk))
                (order_args request SELL)) as [msg|result] eqn:Eans;
      cbv beta iota.
    + rewrite throw_eq, on_error_eq. wnorm.
      rewrite update_last by assumption. outcome_done.
    + unfold venue_order_id.
      destruct (or_ostr (result ≫= res_orderID) (result ≫= res_orderId))
        as [oid|] eqn:Eoid.
      * destruct (truthy_str oid) eqn:Etruthy.
        -- step. step. rewrite clash_last by assumption.
           destruct (existsb (has_order_id _) ot) eqn:Eclash; cbv beta iota.
           ++ rewrite on_error_eq. wnorm.
              rewrite update_last by assumption. outcome_done.
           ++ rewrite update_last by assumption. rewrite mret_eq.
              outcome_done.
        -- step. step. cbn [order_id_clash]. cbv iota.
           rewrite update_last by assumption. rewrite mret_eq. outcome_done.
      * step. step. cbn [order_id_clash]. cbv iota.
        rewrite update_last by assumption. rewrite mret_eq. outcome_done.
Qed.

End ExecuteSellOutcome.

Section OrderOutcomes.

Context `{NumberFormat} (env : Env) (config : ExecutorConfig).

Lemma pending_restored (m : string) (po : gset string) :
  m ∉ po -> ({[m]} ∪ po) ∖ {[m]} = po.
Proof.
  intros Hm. apply set_eq. intros x.
  rewrite elem_of_difference, elem_of_union, elem_of_singleton.
  split; [tauto|]. intros Hx. split; [now right|]. now intros ->.
Qed.


Ltac refused Stop Htree R :=
  let reads := fresh "reads" in
  let Hreads := fresh "Hreads" in
  let Hsame := fresh "Hsame" in
  destruct (Stop _ R) as (reads & Hreads & Hsame);
  eexists _, _, reads; split; [exact Htree|]; split; [exact Hreads|];
  left; exact Hsame.

(** [placeBuyOrder] from start to end: either a check stops it after
    reads only, or every check passes and the order is executed. *)
Lemma placeBuyOrder_outcome request w :
  let m := req_marketId request in
  exists result w' reads,
    placeBuyOrder env config request w = (Returned result, w') /\
    forallb is_read reads = true /\
    ((order_tracking w' = order_tracking w /\
      order_tracking_seq w' = order_tracking_seq w /\
      live_trades w' = live_trades w /\
      live_trades_seq w' = live_trades_seq w /\
      pendingOrders w' = pendingOrders w /\
      trace w' = trace w ++ reads)
     \/
     exists rest row answer,
       (m ∉ pendingOrders w) /\
       existsb (has_key (idempotencyKey result)) (order_tracking w)
         = false /\
       trace w' = trace w ++ reads ++
                    EvInsertOrderTracking (idempotencyKey result)
                    :: EvPendingAdd m :: rest /\
       List.filter is_read rest = [] /\
       List.filter is_venue_write rest =
         (if dryRun config then []
          else [EvCreateAndPostMarketOrder (order_args request BUY)
                  answer]) /\
       order_tracking w' = order_tracking w ++ [row] /\
       order_tracking_seq w' = order_tracking_seq w + 1 /\
       pendingOrders w' = pendingOrders w /\
       ot_idempotency_key row = Some (idempotencyKey result) /\
       ot_side row = BUY /\
       ot_market_id row = m /\
       ot_status row = (if success result then filled else failed) /\
       ot_error_message row = error result /\
       (live_trades w' = live_trades w /\
        live_trades_seq w' = live_trades_seq w /\
        (dryRun config = true \/ success result = false)
        \/
        exists oid ts,
          dryRun config = false /\ success result = true /\
          orderId result = Some oid /\ ot_order_id row = Some oid /\
          live_trades w' =
            live_trades w ++
              [opened_trade request oid (live_trades_seq w + 1) ts] /\
          live_trades_seq w' = live_trades_seq w + 1) /\
       (forall e, dryRun config = false ->
          submission_error answer = Some e ->
          result = rejected e (idempotencyKey result)) /\
       (forall vr oid, dryRun config = false ->
          answer = SubmitReturns (Some vr) ->
          venue_order_id (Some vr) = Some oid -> truthy_str oid = true ->
          existsb (has_order_id oid) (order_tracking w) = false ->
          success result = true /\ orderId result = Some oid /\
          exists ts,
            live_trades w' =
              live_trades w ++
                [opened_trade request oid (live_trades_seq w + 1) ts])).
Proof.
  intros m.
  assert (Stop : forall w0,
            only_reads w w0 ->
            exists reads,
              forallb is_read reads = true /\
              order_tracking w0 = order_tracking w /\
              order_tracking_seq w0 = order_tracking_seq w /\
              live_trades w0 = live_trades w /\
              live_trades_seq w0 = live_trades_seq w /\
              pendingOrders w0 = pendingOrders w /\
              trace w0 = trace w ++ reads).
  { intros w0 (? & ? & ? & ? & ? & reads & ? & ?).
    exists reads. repeat split; assumption. }
  destruct (placeBuyOrder_by_check env config request w)
    as (key & w0 & Ek & R0 & Htree).
  destruct (List.find (has_key key) (order_tracking w0));
    [refused Stop Htree R0|].
  destruct (bool_decide (req_marketId request ∈ pendingOrders w0)) eqn:Epend;
    [refused Stop Htree R0|].
  destruct Htree as (hp & w1 & ho & w2 & E1 & E2 & R2 & Htree).
  destruct hp; [refused Stop Htree R2|].
  destruct ho; [refused Stop Htree R2|].
  destruct Htree as (x & w3 & E3 & R3 & Htree).
  destruct (maxExposureUsd config <? x + req_sizeUsd request)%float;
    [refused Stop Htree R3|].
  destruct Htree as (a & w4 & E4 & R4 & Htree).
  destruct (a <? req_sizeUsd request)%float;
    [refused Stop Htree R4|].
  clear Stop.
  destruct Htree as (Eexec & Efind).
  apply find_none_existsb in Efind.
  destruct (executeBuy_outcome env config request key w4 Efind)
    as (r5 & w5 & rest & row & E5 & Etr & Hnr & Hvw & Eot & Eos & Epo & _
        & Ekey & Hk & Hsd & Hm & Hst & Herr & Hlt & Hthrow & Hnoid).
  pose proof R4 as (Eot4 & Eos4 & Elt4 & Elts4 & Epo4 & reads & Et4 & Hreads).
  pose proof R0 as (_ & _ & _ & _ & Epo0 & _).
  exists r5, w5, reads. split; [now rewrite Eexec|].
  split; [exact Hreads|]. right.
  exists rest, row,
    (env_createAndPostMarketOrder env (2 + tick w4) (order_args request BUY)).
  rewrite Ekey.
  assert (Hnp : m ∉ pendingOrders w).
  { apply bool_decide_eq_false in Epend. now rewrite <- Epo0. }
  split; [exact Hnp|].
  split; [now rewrite <- Eot4|].
  split; [rewrite Etr, Et4, <- app_assoc; reflexivity|].
  split; [exact Hnr|]. split; [exact Hvw|].
  split; [now rewrite Eot, Eot4|].
  split; [now rewrite Eos, Eos4|].
  split; [rewrite Epo, Epo4; now apply pending_restored|].
  split; [exact Hk|]. split; [exact Hsd|]. split; [exact Hm|].
  split; [exact Hst|]. split; [exact Herr|].
  split.
  { rewrite <- Elt4, <- Elts4. exact Hlt. }
  split.
  - intros e Hdry He. unfold submission_error in He.
    destruct (env_createAndPostMarketOrder env (2 + tick w4)
                (order_args request BUY)) as [msg|r] eqn:Eans.
    + injection He as <-. now apply Hthrow.
    + destruct (truthy_ostr (venue_order_id r)) eqn:Et; [discriminate|].
      injection He as <-. now apply Hnoid.
  - intros vr oid Hdry Hans Hoid Htruthy Hfree.
    rewrite <- Eot4 in Hfree.
    destruct (executeBuy_filled env config request key w4 vr oid
                Efind Hdry Hans Hoid Htruthy Hfree)
      as (w6 & E6 & _ & Hlt6 & _).
    rewrite E5 in E6. injection E6 as -> <-.
    cbn [success orderId]. split; [reflexivity|]. split; [reflexivity|].
    eexists. rewrite Hlt6, Elt4, Elts4. reflexivity.
Qed.

Lemma keyOf_cases request derived w :
  exists key w0,
    keyOf env request derived w = (Returned key, w0) /\
    (w0 = w \/ w0 = later 2 w).
Proof.
  unfold keyOf.
  destruct (req_idempotencyKey request) as [k|];
    [destruct (truthy_str k)|];
    try (rewrite generateIdempotencyKey_eq; eexists _, _;
         split; [reflexivity | now right]).
  rewrite mret_eq. eexists _, _. split; [reflexivity | now left].
Qed.

(** [placeSellOrder] from start to end. *)
Lemma placeSellOrder_outcome request w :
  let m := "sell_" +:+ req_marketId request in
  exists result w',
    placeSellOrder env config request w = (Returned result, w') /\
    live_trades w' = live_trades w /\
    live_trades_seq w' = live_trades_seq w /\
    cachedState w' = cachedState w /\
    pendingOrders w' = pendingOrders w /\
    ((order_tracking w' = order_tracking w /\
      order_tracking_seq w' = order_tracking_seq w /\
      trace w' = trace w)
     \/
     exists rest row answer,
       (m ∉ pendingOrders w) /\
       existsb (has_key (idempotencyKey result)) (order_tracking w)
         = false /\
       trace w' = trace w ++
                    EvInsertOrderTracking (idempotencyKey result)
                    :: EvPendingAdd m :: rest /\
       List.filter is_read rest = [] /\
       List.filter is_venue_write rest =
         (if dryRun config then []
          else [EvCreateAndPostMarketOrder (order_args request SELL)
                  answer]) /\
       List.filter is_live_trades_write rest = [] /\
       order_tracking w' = order_tracking w ++ [row] /\
       order_tracking_seq w' = order_tracking_seq w + 1 /\
       ot_idempotency_key row = Some (idempotencyKey result) /\
       ot_side row = SELL /\
       ot_market_id row = req_marketId request /\
       ot_status row = (if success result then filled else failed) /\
       ot_error_message row = error result /\
       (forall e, dryRun config = false ->
          submission_error answer = Some e ->
          result = rejected e (idempotencyKey result))).
Proof.
  intros m. unfold placeSellOrder.
  destruct (keyOf_cases request (with_side request NO) w)
    as (key & w0 & Ek & Hw0).
  rewrite bind_eq, Ek. cbv beta iota.
  unfold select_order_tracking.
  rewrite 2!bind_eq, get_world_eq. cbv beta iota. rewrite mret_eq.
  cbv beta iota.
  assert (F0 : order_tracking w0 = order_tracking w /\
               order_tracking_seq w0 = order_tracking_seq w /\
               live_trades w0 = live_trades w /\
               live_trades_seq w0 = live_trades_seq w /\
               cachedState w0 = cachedState w /\
               pendingOrders w0 = pendingOrders w /\
               trace w0 = trace w)
    by (destruct Hw0 as [-> | ->]; repeat split).
  destruct F0 as (Eot0 & Eos0 & Elt0 & Elts0 & Ecs0 & Epo0 & Etr0).
  destruct (List.find (has_key key) (order_tracking w0)) eqn:Efind.
  { rewrite mret_eq. eexists _, _. split; [reflexivity|].
    repeat split; try assumption. left. repeat split; assumption. }
  rewrite bind_eq, get_world_eq. cbv beta iota. fold m.
  destruct (bool_decide (m ∈ pendingOrders w0)) eqn:Epend.
  { rewrite mret_eq. eexists _, _. split; [reflexivity|].
    repeat split; try assumption. left. repeat split; assumption. }
  apply find_none_existsb in Efind.
  destruct (executeSell_outcome env config request key w0 Efind)
    as (r5 & w5 & rest & row & E5 & Etr & Hnr & Hvw & Hlw & Eot & Eos & Epo
        & Ecs & Elt & Elts & Ekey & Hk & Hsd & Hm & Hst & Herr & Hthrow
        & Hnoid).
  rewrite E5. exists r5, w5. split; [reflexivity|].
  assert (Hnp : m ∉ pendingOrders w).
  { apply bool_decide_eq_false in Epend. now rewrite <- Epo0. }
  split; [now rewrite Elt|]. split; [now rewrite Elts|].
  split; [now rewrite Ecs|].
  split; [fold m in Epo; rewrite Epo, Epo0; now apply pending_restored|].
  right.
  exists rest, row,
    (env_createAndPostMarketOrder env (2 + tick w0)
       (order_args request SELL)).
  rewrite Ekey.
  split; [exact Hnp|].
  split; [now rewrite <- Eot0|].
  split; [now rewrite Etr, Etr0|].
  split; [exact Hnr|]. split; [exact Hvw|]. split; [exact Hlw|].
  split; [now rewrite Eot, Eot0|].
  split; [now rewrite Eos, Eos0|].
  split; [exact Hk|]. split; [exact Hsd|]. split; [exact Hm|].
  split; [exact Hst|]. split; [exact Herr|].
  intros e Hdry He. unfold submission_error in He.
  destruct (env_createAndPostMarketOrder env (2 + tick w0)
              (order_args request SELL)) as [msg|r] eqn:Eans.
  - injection He as <-. now apply Hthrow.
  - destruct (truthy_ostr (venue_order_id r)) eqn:Et; [discriminate|].
    injection He as <-. now apply Hnoid.
Qed.

End OrderOutcomes.




Section FailedSubmission.

Context `{NumberFormat} (env : Env) (config : ExecutorConfig).

(** X14: a buy whose submission fails is recorded as failed.  Whenever
    the log of a [placeBuyOrder] call shows a submission that the venue
    answered by throwing, or by returning no order id, the call returns
    [success: false] with the venue's message (the exception's message,
    or [errorMsg], or ['No order ID returned']), the tracking row of
    the call is ['failed'] with that message, no trade is written to
    [live_trades], and the in-flight mark is gone. *)
Theorem placeBuyOrder_failed_submission request w out w' events args a e :
  placeBuyOrder env config request w = (out, w') ->
  new_events w w' events ->
  In (EvCreateAndPostMarketOrder args a) events ->
  submission_error a = Some e ->
  exists key row,
    out = Returned (rejected e key) /\
    order_tracking w' = order_tracking w ++ [row] /\
    ot_idempotency_key row = Some key /\
    ot_status row = failed /\
    ot_error_message row = Some e /\
    live_trades w' = live_trades w /\
    pendingOrders w' = pendingOrders w.
Proof.
  intros Hrun Hev Hin He.
  destruct (placeBuyOrder_outcome env config request w)
    as (result & w1 & reads & E & Hreads & Hcases).
  rewrite E in Hrun. injection Hrun as <- <-.
  unfold new_events in Hev.
  destruct Hcases as [(_ & _ & _ & _ & _ & Etr)
                     |(rest & row & answer & _ & _ & Etr & _ & Hvw & Eot & _
                       & Epo & Hk & _ & _ & Hst & Herr & Hlt & Hfail & _)].
  { rewrite Etr in Hev. apply app_inv_head in Hev. subst events.
    rewrite forallb_forall in Hreads. apply Hreads in Hin. discriminate. }
  rewrite Etr in Hev. apply app_inv_head in Hev. subst events.
  apply in_app_or in Hin as [Hin|Hin].
  { rewrite forallb_forall in Hreads. apply Hreads in Hin. discriminate. }
  destruct Hin as [Hin|[Hin|Hin]]; try discriminate.
  assert (Hin' : In (EvCreateAndPostMarketOrder args a)
                    (List.filter is_venue_write rest))
    by (apply filter_In; now split).
  rewrite Hvw in Hin'. destruct (dryRun config) eqn:Hdry; [destruct Hin'|].
  destruct Hin' as [Hin'|[]]. injection Hin' as _ ->.
  specialize (Hfail e eq_refl He).
  exists (idempotencyKey result), row.
  split; [now rewrite <- Hfail|].
  rewrite Hfail in Hst, Herr, Hlt. cbn [success error rejected] in *.
  repeat split; try assumption.
  destruct Hlt as [(Elt & _)|(oid & ts & _ & Hs & _)];
    [exact Elt | discriminate].
Qed.

(** X15: the same for a sell: a submission that the venue answers by
    throwing or without an order id makes [placeSellOrder] return
    [success: false] with the venue's message, and leaves the tracking
    row of the call ['failed'] with that message. *)
Theorem placeSellOrder_failed_submission request w out w' events args a e :
  placeSellOrder env config request w = (out, w') ->
  new_events w w' events ->
  In (EvCreateAndPostMarketOrder args a) events ->
  submission_error a = Some e ->
  exists key row,
    out = Returned (rejected e key) /\
    args = order_args request SELL /\
    order_tracking w' = order_tracking w ++ [row] /\
    ot_idempotency_key row = Some key /\
    ot_side row = SELL /\
    ot_status row = failed /\
    ot_error_message row = Some e /\
    pendingOrders w' = pendingOrders w.
Proof.
  intros Hrun Hev Hin He.
  destruct (placeSellOrder_outcome env config request w)
    as (result & w1 & E & _ & _ & _ & Epo & Hcases).
  rewrite E in Hrun. injection Hrun as <- <-.
  unfold new_events in Hev.
  destruct Hcases as [(_ & _ & Etr)
                     |(rest & row & answer & _ & _ & Etr & _ & Hvw & _ & Eot
                       & _ & Hk & Hsd & _ & Hst & Herr & Hfail)].
  { rewrite <- (app_nil_r (trace w)) in Etr. rewrite Etr in Hev.
    apply app_inv_head in Hev. subst events. destruct Hin. }
  rewrite Etr in Hev. apply app_inv_head in Hev. subst events.
  destruct Hin as [Hin|[Hin|Hin]]; try discriminate.
  assert (Hin' : In (EvCreateAndPostMarketOrder args a)
                    (List.filter is_venue_write rest))
    by (apply filter_In; now split).
  rewrite Hvw in Hin'. destruct (dryRun config) eqn:Hdry; [destruct Hin'|].
  destruct Hin' as [Hin'|[]]. injection Hin' as -> ->.
  specialize (Hfail e eq_refl He).
  exists (idempotencyKey result), row.
  split; [now rewrite <- Hfail|].
  rewrite Hfail in Hst, Herr. cbn [success error rejected] in *.
  repeat split; assumption.
Qed.

(** X16: [cancelAllOrders] never throws and never touches the ledger.
    In live mode it asks the venue once: if that call throws, the
    result is [success: false] with the exception's message and nothing
    else happens (no refresh, the cache stays); if it succeeds, the
    account state is refreshed from the venue and the result is
    [success: true].  The count [cancelled] is 0 in every case. *)
Theorem cancelAllOrders_outcome w :
  exists r w' events,
    cancelAllOrders env config w = (Returned r, w') /\
    new_events w w' events /\
    cancelled_count r = 0 /\
    order_tracking w' = order_tracking w /\
    live_trades w' = live_trades w /\
    pendingOrders w' = pendingOrders w /\
    (dryRun config = false ->
     match env_cancelAll env (tick w) with
     | CancelThrows msg =>
         r = mkCancelResult false 0 (Some msg) /\
         events = [EvCancelAll] /\
         cachedState w' = cachedState w
     | CancelDone =>
         r = mkCancelResult true 0 None /\
         events = [EvCancelAll; EvGetBalanceAllowance; EvPolygonRpc;
                   EvGetOpenOrders; EvDataApiPositions] /\
         exists st, cachedState w' = Some st /\ syncSource st = api
     end).
Proof.
  unfold cancelAllOrders, try_catch, new_events.
  destruct (dryRun config).
  { exists (mkCancelResult true 0 None), w, []. rewrite app_nil_r.
    repeat split. discriminate. }
  rewrite bind_eq, ask_eq. cbv beta iota.
  destruct (env_cancelAll env (tick w)) as [msg|].
  - rewrite throw_eq. eexists _, _, _. split; [reflexivity|].
    cbn. repeat split.
  - rewrite bind_eq, getState_refresh. cbv beta iota. rewrite mret_eq.
    eexists _, _, _. split; [reflexivity|].
    cbn [trace fetchedWorld next_tick log_event order_tracking live_trades
         pendingOrders cachedState cancelled_count].
    rewrite <- app_assoc. cbn [app].
    repeat split. eexists. split; reflexivity.
Qed.

End FailedSubmission.

Lemma new_events_emptyWorld w' : new_events emptyWorld w' (trace w').
Proof. reflexivity. Qed.


Lemma placeBuyOrder_failed_submission_witness :
  exists w' key row,
    placeBuyOrder (H := scenarioFormat) failingEnv liveConfig
      (intent (Some "k1")) emptyWorld
    = (Returned (rejected "ECONNRESET" key), w') /\
    order_tracking w' = [row] /\
    ot_status row = failed /\
    live_trades w' = [].
Proof.
  set (run := placeBuyOrder (H := scenarioFormat) failingEnv liveConfig
                (intent (Some "k1")) emptyWorld).
  destruct (placeBuyOrder_failed_submission (H := scenarioFormat)
              failingEnv liveConfig (intent (Some "k1")) emptyWorld
              (fst run) (snd run) (trace (snd run))
              (order_args (intent (Some "k1")) BUY)
              (SubmitThrows "ECONNRESET") "ECONNRESET")
    as (key & row & Er & Hot & _ & Hst & _ & Hlt & _).
  - apply surjective_pairing.
  - apply new_events_emptyWorld.
  - vm_compute. tauto.
  - reflexivity.
  - exists (snd run), key, row.
    split; [transitivity (fst run, snd run);
            [apply surjective_pairing | now rewrite Er]|].
    repeat split; assumption.
Defined.

Lemma placeSellOrder_failed_submission_witness :
  exists w' key row,
    placeSellOrder (H := scenarioFormat) failingEnv liveConfig
      (intent (Some "k1")) emptyWorld
    = (Returned (rejected "order could not be filled" key), w') /\
    order_tracking w' = [row] /\
    ot_side row = SELL /\
    ot_status row = failed.
Proof.
  set (run := placeSellOrder (H := scenarioFormat) failingEnv liveConfig
                (intent (Some "k1")) emptyWorld).
  destruct (placeSellOrder_failed_submission (H := scenarioFormat)
              failingEnv liveConfig (intent (Some "k1")) emptyWorld
              (fst run) (snd run) (trace (snd run))
              (order_args (intent (Some "k1")) SELL)
              (SubmitReturns
                 (Some (mkVenueResult None None None
                          (Some "order could not be filled"))))
              "order could not be filled")
    as (key & row & Er & _ & Hot & _ & Hsd & Hst & _).
  - apply surjective_pairing.
  - apply new_events_emptyWorld.
  - vm_compute. tauto.
  - reflexivity.
  - exists (snd run), key, row.
    split; [transitivity (fst run, snd run);
            [apply surjective_pairing | now rewrite Er]|].
    repeat split; assumption.
Defined.

(** ** The bot: one opportunity *)

Section Opportunity.

Context `{NumberFormat} (env : Env) (config : ExecutorConfig)
        (risk_positionSizeUsd : float) (maxTradesPerDay : Z).

Lemma logTrade_eq market oid sizeUsd w :
  logTrade env market oid sizeUsd w =
  (Returned tt,
   mkWorld (order_tracking w) (order_tracking_seq w)
     (live_trades w ++
        [mkLiveTrade (live_trades_seq w + 1) (conditionId market)
           (Some (yesTokenId market)) "YES" (Some (currentYesPrice market))
           (sizeUsd / currentYesPrice market)%float (Some sizeUsd) pending
           (Some (env_now env (tick w))) oid None
           (env_now env (S (tick w))) (env_now env (S (tick w)))])
     (live_trades_seq w + 1) (pendingOrders w) (cachedState w) (lastError w)
     (S (S (tick w))) (trace w ++ [EvInsertLiveTrade (conditionId market)])).
Proof.
  unfold logTrade. destruct w. step. reflexivity.
Qed.

(** X17: the trade limit stops an opportunity before any order.  Once
    [tradesPlaced] has reached [maxTradesPerDay], [processOpportunity]
    returns with the counter unchanged after reading the account state:
    the ledger and the in-flight set are as before, and nothing but
    reads reached the outside. *)
Theorem processOpportunity_trade_limit market tradesPlaced w :
  maxTradesPerDay <= tradesPlaced ->
  exists w',
    processOpportunity env config risk_positionSizeUsd maxTradesPerDay
      market tradesPlaced w = (Returned tradesPlaced, w') /\
    only_reads w w'.
Proof.
  intros Hmax. unfold processOpportunity.
  destruct (getState_total env (stateManager config) false w)
    as (st & w1 & E & R).
  rewrite bind_eq, E. cbv beta iota.
  apply Z.leb_le in Hmax. rewrite Hmax, mret_eq. eauto.
Qed.

(** X18: an order that the venue fills is booked twice.  Whenever
    [processOpportunity] has submitted an order and the venue has handed
    back an order id (one that no tracking row carries yet), the counter
    goes up by one and [live_trades] gains two rows for the market, both
    with that order id: first the executor's row, ['open'], whose [size]
    is the amount in USD, then the row of [logTrade], ['pending'], whose
    [size] is the number of shares [sizeUsd / currentYesPrice]. *)
Theorem processOpportunity_books_a_fill_twice market tradesPlaced w out w'
    events args vr oid :
  processOpportunity env config risk_positionSizeUsd maxTradesPerDay market
    tradesPlaced w = (out, w') ->
  new_events w w' events ->
  In (EvCreateAndPostMarketOrder args (SubmitReturns (Some vr))) events ->
  venue_order_id (Some vr) = Some oid ->
  truthy_str oid = true ->
  existsb (has_order_id oid) (order_tracking w) = false ->
  exists opened logged,
    out = Returned (tradesPlaced + 1) /\
    live_trades w' = live_trades w ++ [opened; logged] /\
    lt_status opened = open /\
    lt_status logged = pending /\
    lt_market_id opened = conditionId market /\
    lt_market_id logged = conditionId market /\
    lt_order_id opened = Some oid /\
    lt_order_id logged = Some oid /\
    lt_size opened = risk_positionSizeUsd /\
    lt_size logged = (risk_positionSizeUsd / currentYesPrice market)%float.
Proof.
  intros Hrun Hev Hin Hoid Htruthy Hfree.
  assert (Hnr : is_read (EvCreateAndPostMarketOrder args
                           (SubmitReturns (Some vr))) = false)
    by reflexivity.
  unfold processOpportunity in Hrun.
  destruct (getState_total env (stateManager config) false w)
    as (st & w1 & E1 & R1).
  rewrite bind_eq, E1 in Hrun. cbv beta iota in Hrun.
  pose proof R1 as (Eot1 & Eos1 & Elt1 & Elts1 & Epo1 & reads1 & Et1
                    & Hreads1).
  unfold new_events in Hev.
  destruct (maxTradesPerDay <=? tradesPlaced).
  { rewrite mret_eq in Hrun. injection Hrun as _ <-.
    rewrite Et1 in Hev. apply app_inv_head in Hev. subst events.
    rewrite forallb_forall in Hreads1. apply Hreads1 in Hin.
    rewrite Hin in Hnr. discriminate. }
  set (request := mkOrderRequest (conditionId market) (yesTokenId market)
                    YES risk_positionSizeUsd
                    (Some (currentYesPrice market)) None) in *.
  destruct (placeBuyOrder_outcome env config request w1)
    as (result & w2 & reads & E2 & Hreads & Hcases).
  rewrite bind_eq, E2 in Hrun. cbv beta iota in Hrun.
  assert (Hin_reads : forall l, forallb is_read l = true ->
            In (EvCreateAndPostMarketOrder args (SubmitReturns (Some vr))) l
            -> False).
  { intros l Hl Hi. rewrite forallb_forall in Hl. apply Hl in Hi.
    rewrite Hi in Hnr. discriminate. }
  destruct Hcases as [(_ & _ & _ & _ & _ & Etr)
                     |(rest & row & answer & _ & _ & Etr & _ & Hvw & _ & _
                       & _ & _ & _ & _ & _ & _ & _ & _ & Hfill)].
  { (* a check stopped the order: no submission can be in the log *)
    exfalso. destruct (success result).
    - rewrite bind_eq, logTrade_eq in Hrun. cbv beta iota in Hrun.
      rewrite mret_eq in Hrun. injection Hrun as _ <-.
      cbn [trace] in Hev. rewrite Etr, Et1, <- !app_assoc in Hev.
      apply app_inv_head in Hev. subst events.
      apply in_app_or in Hin as [Hin|Hin]; [now apply (Hin_reads reads1)|].
      apply in_app_or in Hin as [Hin|[Hin|[]]];
        [now apply (Hin_reads reads) | discriminate].
    - rewrite mret_eq in Hrun. injection Hrun as _ <-.
      rewrite Etr, Et1, <- !app_assoc in Hev.
      apply app_inv_head in Hev. subst events.
      apply in_app_or in Hin as [Hin|Hin];
        [now apply (Hin_reads reads1) | now apply (Hin_reads reads)]. }
  (* the order was executed: the submission is the one it made *)
  assert (Hsub : In (EvCreateAndPostMarketOrder args
                       (SubmitReturns (Some vr))) rest).
  { destruct (success result).
    - rewrite bind_eq, logTrade_eq in Hrun. cbv beta iota in Hrun.
      rewrite mret_eq in Hrun. injection Hrun as _ <-.
      cbn [trace] in Hev. rewrite Etr, Et1, <- !app_assoc in Hev.
      apply app_inv_head in Hev. subst events.
      apply in_app_or in Hin as [Hin|Hin];
        [now destruct (Hin_reads reads1)|].
      apply in_app_or in Hin as [Hin|Hin];
        [now destruct (Hin_reads reads)|].
      cbn [app] in Hin. destruct Hin as [Hin|[Hin|Hin]]; try discriminate.
      apply in_app_or in Hin as [Hin|[Hin|[]]];
        [exact Hin | discriminate].
    - rewrite mret_eq in Hrun. injection Hrun as _ <-.
      rewrite Etr, Et1, <- !app_assoc in Hev.
      apply app_inv_head in Hev. subst events.
      apply in_app_or in Hin as [Hin|Hin];
        [now destruct (Hin_reads reads1)|].
      apply in_app_or in Hin as [Hin|Hin];
        [now destruct (Hin_reads reads)|].
      destruct Hin as [Hin|[Hin|Hin]]; try discriminate. exact Hin. }
  assert (Hin' : In (EvCreateAndPostMarketOrder args
                       (SubmitReturns (Some vr)))
                    (List.filter is_venue_write rest))
    by (apply filter_In; now split).
  rewrite Hvw in Hin'. destruct (dryRun config) eqn:Hdry; [destruct Hin'|].
  destruct Hin' as [Hin'|[]]. injection Hin' as _ Hans.
  rewrite <- Eot1 in Hfree.
  destruct (Hfill vr oid eq_refl Hans Hoid Htruthy Hfree)
    as (Hsucc & Horder & ts & Hlt2).
  rewrite Hsucc, Horder in Hrun. cbn [truthy_ostr] in Hrun.
  rewrite Htruthy in Hrun.
  rewrite bind_eq, logTrade_eq in Hrun. cbv beta iota in Hrun.
  rewrite mret_eq in Hrun. injection Hrun as <- <-.
  cbn [live_trades]. rewrite Hlt2, Elt1, <- app_assoc. cbn [app].
  eexists _, _. split; [reflexivity|]. split; [reflexivity|].
  repeat split.
Qed.

End Opportunity.

Lemma processOpportunity_trade_limit_witness :
  exists w',
    processOpportunity (H := scenarioFormat) fundedEnv liveConfig 10 3
      opportunity 3 emptyWorld = (Returned 3, w') /\
    live_trades w' = [] /\ order_tracking w' = [].
Proof.
  destruct (processOpportunity_trade_limit (H := scenarioFormat) fundedEnv
              liveConfig 10 3 opportunity 3 emptyWorld)
    as (w' & E & Eot & _ & Elt & _).
  - lia.
  - exists w'. split; [exact E|]. split; assumption.
Defined.

Lemma processOpportunity_books_a_fill_twice_witness :
  exists w' opened logged,
    processOpportunity (H := scenarioFormat) fundedEnv liveConfig 10 3
      opportunity 0 emptyWorld = (Returned 1, w') /\
    live_trades w' = [opened; logged] /\
    lt_status opened = open /\
    lt_status logged = pending /\
    lt_order_id opened = Some "0xorder23" /\
    lt_order_id logged = Some "0xorder23".
Proof.
  set (run := processOpportunity (H := scenarioFormat) fundedEnv liveConfig
                10 3 opportunity 0 emptyWorld).
  destruct (processOpportunity_books_a_fill_twice (H := scenarioFormat)
              fundedEnv liveConfig 10 3 opportunity 0 emptyWorld
              (fst run) (snd run) (trace (snd run))
              (mkMarketOrderArgs "tokYes" 10 BUY FOK)
              (mkVenueResult (Some "0xorder23") None (Some "matched") None)
              "0xorder23")
    as (opened & logged & Er & Hlt & Ho & Hl & _ & _ & Hoo & Hol & _).
  - apply surjective_pairing.
  - apply new_events_emptyWorld.
  - vm_compute. tauto.
  - reflexivity.
  - reflexivity.
  - reflexivity.
  - exists (snd run), opened, logged.
    split; [transitivity (fst run, snd run);
            [apply surjective_pairing | now rewrite Er]|].
    repeat split; assumption.
Defined.

(** ** Replays in live mode *)

(** X19: in live mode a replay is idempotent.  When an order placed
    under a caller-supplied key has left a tracking row, placing it
    again with the same key returns the same [success], [orderId] and
    [error] as the first call and changes nothing at all: no
    submission, no new row, not even a read.  This holds for
    [placeBuyOrder] and for [placeSellOrder]. *)
Theorem live_replay_is_idempotent `{NumberFormat} env config request k :
  dryRun config = false ->
  req_idempotencyKey request = Some k -> truthy_str k = true ->
  (forall w r1 w1,
     placeBuyOrder env config request w = (Returned r1, w1) ->
     is_Some (List.find (has_key k) (order_tracking w1)) ->
     exists r2,
       placeBuyOrder env config request w1 = (Returned r2, w1) /\
       success r2 = success r1 /\ orderId r2 = orderId r1 /\
       error r2 = error r1) /\
  (forall w r1 w1,
     placeSellOrder env config request w = (Returned r1, w1) ->
     is_Some (List.find (has_key k) (order_tracking w1)) ->
     exists r2,
       placeSellOrder env config request w1 = (Returned r2, w1) /\
       success r2 = success r1 /\ orderId r2 = orderId r1 /\
       error r2 = error r1).
Proof.
  intros Hlive Ek Ht. split.
  - intros w r1 w1 Hrun Hrow.
    exact (placeBuyOrder_live_replay env config request k w r1 w1
             Hlive Ek Ht Hrun Hrow).
  - intros w r1 w1 Hrun Hrow.
    exact (placeSellOrder_live_replay env config request k w r1 w1
             Hlive Ek Ht Hrun Hrow).
Qed.

Lemma live_replay_is_idempotent_witness :
  exists r1 w1 r2,
    placeBuyOrder (H := scenarioFormat) fundedEnv liveConfig
      (intent (Some "k1")) emptyWorld = (Returned r1, w1) /\
    placeBuyOrder (H := scenarioFormat) fundedEnv liveConfig
      (intent (Some "k1")) w1 = (Returned r2, w1) /\
    success r1 = true /\
    success r2 = success r1 /\ orderId r2 = orderId r1.
Proof.
  destruct (live_replay_is_idempotent (H := scenarioFormat) fundedEnv
              liveConfig (intent (Some "k1")) "k1" eq_refl eq_refl eq_refl)
    as (Hbuy & _).
  assert (E1 : exists r1 w1,
            placeBuyOrder (H := scenarioFormat) fundedEnv liveConfig
              (intent (Some "k1")) emptyWorld = (Returned r1, w1) /\
            success r1 = true /\
            is_Some (List.find (has_key "k1") (order_tracking w1))).
  { eexists _, _. split; [vm_compute; reflexivity|].
    split; [reflexivity|]. vm_compute. eauto. }
  destruct E1 as (r1 & w1 & E1 & Hs & Hrow).
  destruct (Hbuy emptyWorld r1 w1 E1 Hrow) as (r2 & E2 & Hs2 & Ho2 & _).
  exists r1, w1, r2. auto.
Defined.

(** ** The backtest engine: the simulation loop *)

Lemma fold_left_invariant {A B} (P : A -> Prop) (f : A -> B -> A) l a :
  P a -> (forall a b, In b l -> P a -> P (f a b)) -> P (fold_left f l a).
Proof.
  revert a. induction l as [|b l IH]; intros a Ha Hf; [exact Ha|].
  cbn [fold_left]. apply IH.
  - apply Hf; [now left | exact Ha].
  - intros a' b' Hb'. apply Hf. now right.
Qed.

Section EngineFacts.

Import Convergence Backtest.

Context `{NumberFormat} (Number_toFixed3 : float -> string)
        (Date_getTime : string -> option Z)
        (config : StrategyConfig) (riskConfig : RiskConfig)
        (maxVolatility : option VolatilityLevel)
        (classifications : gmap string VolatilityLevel)
        (getPriceHistory : string -> list PricePoint)
        (runId startDate endDate : string) (dryRun : bool).

Local Abbreviation point :=
  (simulatePoint Number_toFixed3 Date_getTime config riskConfig maxVolatility
     classifications runId dryRun).
Local Abbreviation market_loop :=
  (simulateMarket Number_toFixed3 Date_getTime config riskConfig
     maxVolatility classifications getPriceHistory runId startDate endDate
     dryRun).
Local Abbreviation close := (closePosition runId dryRun).

(** *** A market is entered at most once *)

Lemma close_traded_once market position t p r s :
  traded_once s ->
  openPositions s !! id market = Some position ->
  traded_once (close market position t p r s).
Proof.
  intros (Hnd & Hdone & Hclosed) Hpos.
  unfold traded_once, closePosition.
  cbn [completedTrades tradedMarkets openPositions].
  split; [|split].
  - rewrite map_app. cbn [map bt_market_id].
    apply List.NoDup_app; [exact Hnd | repeat constructor; intros [] |].
    intros m Hm [<-|[]]. apply in_map_iff in Hm as (t0 & E & Ht0).
    apply Hdone in Ht0. rewrite E in Ht0. apply Hclosed in Ht0.
    congruence.
  - intros t0 Ht0. apply in_app_or in Ht0 as [Ht0|[<-|[]]].
    + apply elem_of_union_r. now apply Hdone.
    + apply elem_of_union_l. now apply elem_of_singleton.
  - intros m Hm. apply lookup_delete_None.
    apply elem_of_union in Hm as [Hm|Hm].
    + left. apply elem_of_singleton in Hm. now symmetry.
    + right. now apply Hclosed.
Qed.

Lemma point_traded_once market s pricePoint :
  traded_once s -> traded_once (point market s pricePoint).
Proof.
  intros Hs. unfold simulatePoint.
  set (s1 := match openPositions s !! id market with
             | Some position => _
             | None => s
             end).
  assert (H1 : traded_once s1).
  { subst s1. destruct (openPositions s !! id market) as [position|] eqn:Ep;
      [|exact Hs].
    destruct (checkExitConditions _ _ _ _ _ _ _); [|exact Hs].
    now apply close_traded_once. }
  clearbody s1.
  destruct (bool_decide (is_Some (openPositions s1 !! id market))); [exact H1|].
  destruct (bool_decide (id market ∈ tradedMarkets s1)) eqn:Et; [exact H1|].
  cbn [negb andb].
  destruct (volRank _ <? volRank _); [exact H1|].
  destruct (checkEntryConditions _ _ _ _ _) as [entrySignal|]; [|exact H1].
  destruct (0 <? _)%float; [|exact H1].
  destruct H1 as (Hnd & Hdone & Hclosed).
  apply bool_decide_eq_false in Et.
  unfold traded_once. cbn [completedTrades tradedMarkets openPositions].
  split; [exact Hnd|]. split; [exact Hdone|].
  intros m Hm. rewrite lookup_insert_ne; [now apply Hclosed|].
  intros <-. contradiction.
Qed.

Lemma market_traded_once s market :
  traded_once s -> traded_once (market_loop s market).
Proof.
  intros Hs. unfold simulateMarket.
  destruct (getPriceHistory (id market)) as [|first rest]; [exact Hs|].
  set (s1 := fold_left _ _ s).
  assert (H1 : traded_once s1).
  { subst s1. apply fold_left_invariant; [exact Hs|].
    intros a b _. apply point_traded_once. }
  clearbody s1.
  destruct (openPositions s1 !! id market) as [position|] eqn:Ep;
    [|exact H1].
  destruct (outcome market); [|exact H1].
  now apply close_traded_once.
Qed.

(** X20: the backtest never re-enters a market.  Whatever the markets
    (the same market may even be listed twice) and their price
    histories, the trades that the simulation completes are of pairwise
    distinct markets; each of these markets is marked as traded and has
    no open position at the end. *)
Theorem simulate_trades_each_market_once markets seq :
  let s := simulate Number_toFixed3 Date_getTime config riskConfig
             maxVolatility classifications getPriceHistory runId startDate
             endDate dryRun markets seq in
  List.NoDup (map bt_market_id (completedTrades s)) /\
  forall t, In t (completedTrades s) ->
    bt_market_id t ∈ tradedMarkets s /\
    openPositions s !! bt_market_id t = None.
Proof.
  intros s.
  assert (Hs : traded_once s).
  { subst s. unfold simulate. apply fold_left_invariant.
    - unfold traded_once, initial. cbn. split; [constructor|].
      split; [intros t []|]. intros m Hm. apply lookup_empty.
    - intros a b _. apply market_traded_once. }
  destruct Hs as (Hnd & Hdone & Hclosed).
  split; [exact Hnd|]. intros t Ht. split; [now apply Hdone|].
  apply Hclosed. now apply Hdone.
Qed.

(** *** The volatility filter *)

Lemma close_untouched m market position t p r s :
  untouched m s -> id market <> m ->
  untouched m (close market position t p r s).
Proof.
  intros (Hpos & Hnone) Hne. unfold untouched, closePosition.
  cbn [completedTrades openPositions]. split.
  - rewrite lookup_delete_ne by exact Hne. exact Hpos.
  - intros t0 Ht0. apply in_app_or in Ht0 as [Ht0|[<-|[]]].
    + now apply Hnone.
    + exact Hne.
Qed.

Lemma point_untouched m level market s pricePoint :
  classifications !! m = Some level ->
  volRank (default high maxVolatility) < volRank level ->
  untouched m s -> untouched m (point market s pricePoint).
Proof.
  intros Hlevel Hrank Hs. unfold simulatePoint.
  destruct (String.eqb_spec (id market) m) as [Em|Hne].
  - (* the filtered market itself: nothing to close, and no entry *)
    destruct Hs as (Hpos & Hnone). rewrite Em, Hpos.
    destruct (bool_decide _ ) ; cbn [negb andb]; [now split|].
    destruct (bool_decide _); cbn [negb andb]; [now split|].
    rewrite Hlevel. change (default low (Some level)) with level.
    apply Z.ltb_lt in Hrank. rewrite Hrank. now split.
  - set (s1 := match openPositions s !! id market with
               | Some position => _
               | None => s
               end).
    assert (H1 : untouched m s1).
    { subst s1. destruct (openPositions s !! id market) as [position|];
        [|exact Hs].
      destruct (checkExitConditions _ _ _ _ _ _ _); [|exact Hs].
      now apply close_untouched. }
    clearbody s1.
    destruct (negb _ && negb _); [|exact H1].
    destruct (volRank _ <? volRank _); [exact H1|].
    destruct (checkEntryConditions _ _ _ _ _) as [entrySignal|]; [|exact H1].
    destruct (0 <? _)%float; [|exact H1].
    destruct H1 as (Hpos & Hnone).
    unfold untouched. cbn [completedTrades openPositions].
    split; [|exact Hnone].
    rewrite lookup_insert_ne by exact Hne. exact Hpos.
Qed.

Lemma market_untouched m level s market :
  classifications !! m = Some level ->
  volRank (default high maxVolatility) < volRank level ->
  untouched m s -> untouched m (market_loop s market).
Proof.
  intros Hlevel Hrank Hs. unfold simulateMarket.
  destruct (getPriceHistory (id market)) as [|first rest]; [exact Hs|].
  set (s1 := fold_left _ _ s).
  assert (H1 : untouched m s1).
  { subst s1. apply fold_left_invariant; [exact Hs|].
    intros a b _. now apply (point_untouched m level). }
  clearbody s1.
  destruct (openPositions s1 !! id market) as [position|] eqn:Ep;
    [|exact H1].
  destruct (outcome market); [|exact H1].
  apply close_untouched; [exact H1|].
  intros E. destruct H1 as (Hpos & _). rewrite E in Ep. congruence.
Qed.

(** X21: the volatility filter keeps the backtest out of a market for
    good.  A market whose classified level ranks above
    [maxVolatility] (['high'] when unset) is never entered: at the end
    of the simulation it has no open position and no completed trade,
    whatever its prices were. *)
Theorem simulate_skips_volatile_markets markets seq m level :
  classifications !! m = Some level ->
  volRank (default high maxVolatility) < volRank level ->
  let s := simulate Number_toFixed3 Date_getTime config riskConfig
             maxVolatility classifications getPriceHistory runId startDate
             endDate dryRun markets seq in
  openPositions s !! m = None /\
  forall t, In t (completedTrades s) -> bt_market_id t <> m.
Proof.
  intros Hlevel Hrank s.
  assert (Hs : untouched m s).
  { subst s. unfold simulate. apply fold_left_invariant.
    - split; [apply lookup_empty | intros t []].
    - intros a b _. now apply (market_untouched m level). }
  exact Hs.
Qed.

End EngineFacts.

(** *** Exact arithmetic of an exposure that is taken and released *)

Section ExactExposure.

Local Open Scope float_scope.

Lemma is_finite_SF x :
  is_finite x = true ->
  (exists s, Prim2SF x = S754_zero s) \/
  (exists s m e, Prim2SF x = S754_finite s m e).
Proof.
  unfold is_finite, is_infinity, is_nan.
  rewrite !FloatAxioms.eqb_spec, FloatAxioms.abs_spec.
  change (Prim2SF PrimFloat.infinity) with (S754_infinity false).
  destruct (Prim2SF x) as [s|s| |s m e]; intros Hf; eauto;
    try discriminate Hf.
  destruct s; discriminate Hf.
Qed.

Lemma is_finite_not_nan x : is_finite x = true -> is_nan x = false.
Proof.
  unfold is_finite. destruct (is_nan x); [discriminate | reflexivity].
Qed.

(** [x - x] is [+0] for every finite [x]. *)
Lemma sub_diag_finite x : is_finite x = true -> x - x = 0.
Proof.
  intros Hf. apply FloatAxioms.Prim2SF_inj.
  rewrite FloatAxioms.sub_spec.
  change (Prim2SF 0) with (S754_zero false).
  destruct (is_finite_SF x Hf) as [(s & ->)|(s & m & e & ->)].
  - destruct s; reflexivity.
  - unfold SF64sub, SFsub. cbv zeta. rewrite Z.sub_diag. reflexivity.
Qed.

(** [x - 0] is [x]. *)
Lemma sub_0_r x : x - 0 = x.
Proof.
  apply FloatAxioms.Prim2SF_inj. rewrite FloatAxioms.sub_spec.
  change (Prim2SF 0) with (S754_zero false).
  destruct (Prim2SF x) as [s|s| |s m e]; try reflexivity.
  destruct s; reflexivity.
Qed.

(** [0 + x] is [x] for every positive [x]. *)
Lemma add_0_l_pos x : (0 <? x) = true -> 0 + x = x.
Proof.
  intros Hpos. apply FloatAxioms.Prim2SF_inj.
  rewrite FloatAxioms.add_spec.
  rewrite FloatAxioms.ltb_spec in Hpos.
  change (Prim2SF 0) with (S754_zero false) in *.
  destruct (Prim2SF x) as [s|s| |s m e]; try reflexivity.
  discriminate Hpos.
Qed.

Lemma Math_min_finite a b :
  is_finite a = true -> is_finite b = true -> is_finite (Math_min a b) = true.
Proof.
  intros Ha Hb.
  destruct (Math_min_is_min a b (is_finite_not_nan a Ha)
              (is_finite_not_nan b Hb)) as ([-> | ->] & _); assumption.
Qed.

End ExactExposure.

Section OnePositionAtATime.

Import Convergence Backtest.

Context `{NumberFormat} (Number_toFixed3 : float -> string)
        (Date_getTime : string -> option Z)
        (config : StrategyConfig) (riskConfig : RiskConfig)
        (maxVolatility : option VolatilityLevel)
        (classifications : gmap string VolatilityLevel)
        (getPriceHistory : string -> list PricePoint)
        (runId startDate endDate : string) (dryRun : bool).

Local Abbreviation point :=
  (simulatePoint Number_toFixed3 Date_getTime config riskConfig maxVolatility
     classifications runId dryRun).
Local Abbreviation market_loop :=
  (simulateMarket Number_toFixed3 Date_getTime config riskConfig
     maxVolatility classifications getPriceHistory runId startDate endDate
     dryRun).
Local Abbreviation close := (closePosition runId dryRun).
Local Abbreviation stake :=
  (Math_min (risk_positionSizeUsd riskConfig)
     (risk_maxExposureUsd riskConfig)).

Hypothesis finite_positionSize :
  PrimFloat.is_finite (risk_positionSizeUsd riskConfig) = true.
Hypothesis finite_maxExposure :
  PrimFloat.is_finite (risk_maxExposureUsd riskConfig) = true.

(** With nothing open, a size that is positive is the stake. *)
Lemma size_when_flat :
  (0 <? calculatePositionSize riskConfig 0 0)%float = true ->
  calculatePositionSize riskConfig 0 0 = stake.
Proof.
  unfold calculatePositionSize. rewrite sub_0_r.
  destruct (risk_maxPositions riskConfig <=? 0); [discriminate|].
  destruct (risk_maxExposureUsd riskConfig <=? 0)%float; [discriminate|].
  reflexivity.
Qed.

Lemma close_flat market position t p r s :
  holding stake (id market) s -> sized stake s ->
  openPositions s !! id market = Some position ->
  flat (close market position t p r s) /\
  sized stake (close market position t p r s) /\
  id market ∈ tradedMarkets (close market position t p r s).
Proof using finite_positionSize finite_maxExposure.
  intros (pos & Eopen & Esize & Eexp) Hsized Hpos.
  rewrite Eopen, lookup_singleton_eq in Hpos. injection Hpos as <-.
  unfold flat, sized, closePosition.
  cbn [openPositions currentExposure completedTrades tradedMarkets].
  split; [split|split].
  - rewrite Eopen. apply delete_singleton_eq.
  - rewrite Eexp, Esize. apply sub_diag_finite.
    now apply Math_min_finite.
  - intros t0 Ht0. apply in_app_or in Ht0 as [Ht0|[<-|[]]].
    + now apply Hsized.
    + exact Esize.
  - apply elem_of_union_l. now apply elem_of_singleton.
Qed.

Lemma point_one_position market s pricePoint :
  (flat s \/ holding stake (id market) s) /\ sized stake s ->
  (flat (point market s pricePoint) \/
   holding stake (id market) (point market s pricePoint)) /\
  sized stake (point market s pricePoint).
Proof using finite_positionSize finite_maxExposure.
  intros ([Hflat|Hhold] & Hsized); unfold simulatePoint.
  - (* nothing is open: there is nothing to close *)
    destruct Hflat as (Eopen & Eexp).
    set (s1 := match openPositions s !! id market with
               | Some position => _
               | None => s
               end).
    assert (Es1 : s1 = s) by (subst s1; now rewrite Eopen, lookup_empty).
    rewrite Es1. clear s1 Es1.
    rewrite bool_decide_eq_false_2
      by (rewrite Eopen, lookup_empty; intros [? ?]; discriminate).
    cbn [negb andb].
    assert (Hs : (flat s \/ holding stake (id market) s) /\ sized stake s)
      by (split; [left; now split | exact Hsized]).
    destruct (bool_decide (id market ∈ tradedMarkets s)); [exact Hs|].
    cbn [negb].
    destruct (volRank _ <? volRank _); [exact Hs|].
    destruct (checkEntryConditions _ _ _ _ _) as [entrySignal|];
      [|exact Hs].
    rewrite Eopen, map_size_empty, Eexp. change (Z.of_nat 0) with 0.
    destruct (0 <? calculatePositionSize riskConfig 0 0)%float eqn:Hpos;
      [|exact Hs].
    split; [right | exact Hsized].
    eexists. cbn [openPositions currentExposure].
    split; [apply insert_empty|].
    cbn [op_sizeUsd]. split; [now apply size_when_flat|].
    rewrite add_0_l_pos by exact Hpos. now apply size_when_flat.
  - (* a position is open in this market *)
    pose proof Hhold as (pos & Eopen & Esize & Eexp).
    assert (Epos : openPositions s !! id market = Some pos)
      by (rewrite Eopen; apply lookup_singleton_eq).
    rewrite Epos.
    destruct (checkExitConditions _ _ _ _ _ _ _) as [exitSignal|].
    + destruct (close_flat market pos (exit_timestamp exitSignal)
                  (exitPrice exitSignal) (reason exitSignal) s Hhold Hsized
                  Epos)
        as (Hflat' & Hsized' & Htraded).
      rewrite (bool_decide_eq_true_2 _ Htraded).
      rewrite andb_false_r. split; [now left | exact Hsized'].
    + rewrite bool_decide_eq_true_2 by (rewrite Epos; eauto).
      cbn [negb andb]. split; [now right | exact Hsized].
Qed.

Lemma market_one_position s market :
  outcome market <> None ->
  flat s /\ sized stake s ->
  flat (market_loop s market) /\ sized stake (market_loop s market).
Proof using finite_positionSize finite_maxExposure.
  intros Hout (Hflat & Hsized). unfold simulateMarket.
  destruct (getPriceHistory (id market)) as [|first rest]; [now split|].
  set (s1 := fold_left _ _ s).
  assert (H1 : (flat s1 \/ holding stake (id market) s1) /\ sized stake s1).
  { subst s1.
    apply (fold_left_invariant
             (fun a => (flat a \/ holding stake (id market) a) /\
                       sized stake a)).
    - split; [now left | exact Hsized].
    - intros a b _. apply point_one_position. }
  clearbody s1. destruct H1 as ([Hflat1|Hhold1] & Hsized1).
  - destruct Hflat1 as (Eopen & Eexp). rewrite Eopen, lookup_empty.
    split; [now split | exact Hsized1].
  - pose proof Hhold1 as (pos & Eopen & _).
    rewrite Eopen, lookup_singleton_eq.
    destruct (outcome market) as [out|]; [|congruence].
    destruct (close_flat market pos
                (timestamp (List.last rest first))
                (if TokenSide_eqb out (op_side pos) then 1 else 0)%float
                resolution s1 Hhold1 Hsized1) as (? & ? & _).
    { rewrite Eopen. apply lookup_singleton_eq. }
    now split.
Qed.

(** X22: on markets that have an outcome (what [getResolvedMarkets]
    selects) the backtest holds one position at a time.  Every position
    is closed before the next market is looked at, by an exit signal or
    by the forced close at resolution, so each market starts with
    nothing open and an exposure of exactly 0.  The run therefore ends
    with no open position and an exposure of exactly 0, and every trade
    it completes has the same size, [Math.min(positionSizeUsd,
    maxExposureUsd)]: the exposure that earlier trades took has always
    been released in full. *)
Theorem simulate_one_position_at_a_time markets seq :
  Forall (fun market => outcome market <> None) markets ->
  let s := simulate Number_toFixed3 Date_getTime config riskConfig
             maxVolatility classifications getPriceHistory runId startDate
             endDate dryRun markets seq in
  openPositions s = ∅ /\
  currentExposure s = 0%float /\
  forall t, In t (completedTrades s) ->
    size_usd t = Math_min (risk_positionSizeUsd riskConfig)
                          (risk_maxExposureUsd riskConfig).
Proof using finite_positionSize finite_maxExposure.
  intros Hout s.
  assert (Hs : flat s /\ sized stake s).
  { subst s. unfold simulate.
    apply (fold_left_invariant (fun a => flat a /\ sized stake a)).
    - split; [now split | intros t []].
    - intros a market Hin. apply market_one_position.
      rewrite List.Forall_forall in Hout. now apply Hout. }
  destruct Hs as ((Eopen & Eexp) & Hsized). auto.
Qed.

End OnePositionAtATime.

(** *** What a run persists *)

Section Persistence.

Import Convergence Backtest.

Context `{NumberFormat} (Number_toFixed3 : float -> string)
        (Date_getTime : string -> option Z)
        (config : StrategyConfig) (riskConfig : RiskConfig)
        (maxVolatility : option VolatilityLevel)
        (classifications : gmap string VolatilityLevel)
        (getPriceHistory : string -> list PricePoint)
        (runId startDate endDate : string).

Local Abbreviation point dryRun :=
  (simulatePoint Number_toFixed3 Date_getTime config riskConfig maxVolatility
     classifications runId dryRun).
Local Abbreviation market_loop dryRun :=
  (simulateMarket Number_toFixed3 Date_getTime config riskConfig
     maxVolatility classifications getPriceHistory runId startDate endDate
     dryRun).

Lemma written_more l l' t : written l t -> written (l ++ l') t.
Proof.
  intros (Hi & et & ep & pl & r & ? & ? & ? & ? & Hu).
  split; [apply in_or_app; now left|].
  exists et, ep, pl, r. repeat split; try assumption.
  apply in_or_app. now left.
Qed.

Lemma close_persisted seq0 market position t p r s :
  persisted runId seq0 s ->
  openPositions s !! id market = Some position ->
  persisted runId seq0 (closePosition runId false market position t p r s).
Proof.
  intros (Hseq & Hnd & Hdone & Hopen & Hinj) Hpos.
  destruct (Hopen _ _ Hpos) as (Hid & Hfresh & Hins).
  unfold persisted, closePosition.
  cbn [backtest_trades_seq completedTrades statements openPositions].
  split; [exact Hseq|]. split; [|split; [|split]].
  - rewrite map_app. cbn [map bt_id].
    apply List.NoDup_app; [exact Hnd | repeat constructor; intros [] |].
    intros i Hi [<-|[]]. apply in_map_iff in Hi as (t0 & E & Ht0).
    now apply (Hfresh t0 Ht0).
  - intros t0 Ht0. apply in_app_or in Ht0 as [Ht0|[<-|[]]].
    + destruct (Hdone t0 Ht0) as (? & ?). split; [assumption|].
      now apply written_more.
    + cbn [bt_id]. split; [exact Hid|]. split.
      * apply in_or_app. left. exact Hins.
      * eexists _, _, _, _. cbn [exit_time exit_price pnl exit_reason bt_id].
        repeat split. apply in_or_app. right. now left.
  - intros m q Hq. apply lookup_delete_Some in Hq as (Hne & Hq).
    destruct (Hopen _ _ Hq) as (? & Hfq & ?).
    split; [assumption|]. split.
    + intros t0 Ht0. apply in_app_or in Ht0 as [Ht0|[<-|[]]].
      * now apply Hfq.
      * cbn [bt_id]. intros E. apply Hne.
        exact (Hinj _ _ _ _ Hpos Hq E).
    + apply in_or_app. now left.
  - intros m1 m2 p1 p2 H1 H2.
    apply lookup_delete_Some in H1 as (_ & H1).
    apply lookup_delete_Some in H2 as (_ & H2).
    now apply Hinj.
Qed.

Lemma point_persisted seq0 market s pricePoint :
  persisted runId seq0 s ->
  persisted runId seq0 (point false market s pricePoint).
Proof.
  intros Hs. unfold simulatePoint.
  set (s1 := match openPositions s !! id market with
             | Some position => _
             | None => s
             end).
  assert (H1 : persisted runId seq0 s1).
  { subst s1. destruct (openPositions s !! id market) as [position|] eqn:Ep;
      [|exact Hs].
    destruct (checkExitConditions _ _ _ _ _ _ _); [|exact Hs].
    now apply close_persisted. }
  clearbody s1.
  destruct (negb _ && negb _); [|exact H1].
  destruct (volRank _ <? volRank _); [exact H1|].
  destruct (checkEntryConditions _ _ _ _ _) as [entrySignal|]; [|exact H1].
  destruct (0 <? _)%float; [|exact H1].
  destruct H1 as (Hseq & Hnd & Hdone & Hopen & Hinj).
  unfold persisted.
  cbn [backtest_trades_seq completedTrades statements openPositions].
  split; [lia|]. split; [exact Hnd|]. split; [|split].
  - intros t0 Ht0. destruct (Hdone t0 Ht0) as (? & ?).
    split; [lia | now apply written_more].
  - intros m q Hq. apply lookup_insert_Some in Hq as [(<- & <-)|(Hne & Hq)].
    + cbn [tradeId]. split; [lia|]. split.
      * intros t0 Ht0. destruct (Hdone t0 Ht0) as (? & _). lia.
      * apply in_or_app. right. now left.
    + destruct (Hopen _ _ Hq) as (? & ? & ?).
      split; [lia|]. split; [assumption|]. apply in_or_app. now left.
  - intros m1 m2 p1 p2 H1 H2 E.
    apply lookup_insert_Some in H1 as [(<- & <-)|(Hne1 & H1)];
      apply lookup_insert_Some in H2 as [(<- & <-)|(Hne2 & H2)].
    + reflexivity.
    + destruct (Hopen _ _ H2) as (? & _). cbn [tradeId] in E. lia.
    + destruct (Hopen _ _ H1) as (? & _). cbn [tradeId] in E. lia.
    + now apply (Hinj _ _ _ _ H1 H2).
Qed.

Lemma market_persisted seq0 s market :
  persisted runId seq0 s ->
  persisted runId seq0 (market_loop false s market).
Proof.
  intros Hs. unfold simulateMarket.
  destruct (getPriceHistory (id market)) as [|first rest]; [exact Hs|].
  set (s1 := fold_left _ _ s).
  assert (H1 : persisted runId seq0 s1).
  { subst s1. apply fold_left_invariant; [exact Hs|].
    intros a b _. apply point_persisted. }
  clearbody s1.
  destruct (openPositions s1 !! id market) as [position|] eqn:Ep;
    [|exact H1].
  destruct (outcome market); [|exact H1].
  now apply close_persisted.
Qed.

Lemma point_dry market s pricePoint :
  statements (point true market s pricePoint) = statements s /\
  backtest_trades_seq (point true market s pricePoint)
    = backtest_trades_seq s.
Proof.
  unfold simulatePoint.
  set (s1 := match openPositions s !! id market with
             | Some position => _
             | None => s
             end).
  assert (H1 : statements s1 = statements s /\
               backtest_trades_seq s1 = backtest_trades_seq s).
  { subst s1. destruct (openPositions s !! id market) as [position|];
      [|now split].
    destruct (checkExitConditions _ _ _ _ _ _ _); now split. }
  clearbody s1.
  destruct (negb _ && negb _); [|exact H1].
  destruct (volRank _ <? volRank _); [exact H1|].
  destruct (checkEntryConditions _ _ _ _ _) as [entrySignal|]; [|exact H1].
  destruct (0 <? _)%float; exact H1.
Qed.

Lemma market_dry s market :
  statements (market_loop true s market) = statements s /\
  backtest_trades_seq (market_loop true s market) = backtest_trades_seq s.
Proof.
  unfold simulateMarket.
  destruct (getPriceHistory (id market)) as [|first rest]; [now split|].
  set (s1 := fold_left _ _ s).
  assert (H1 : statements s1 = statements s /\
               backtest_trades_seq s1 = backtest_trades_seq s).
  { subst s1.
    apply (fold_left_invariant
             (fun a => statements a = statements s /\
                       backtest_trades_seq a = backtest_trades_seq s));
      [now split|].
    intros a b _ (Ea & Eb).
    destruct (point_dry market a b) as (-> & ->). now split. }
  clearbody s1.
  destruct (openPositions s1 !! id market) as [position|]; [|exact H1].
  destruct (outcome market); exact H1.
Qed.

(** X23: a run persists what it returns, and a dry run persists
    nothing.  With [dryRun] unset, every trade that the simulation
    completes was written to [backtest_trades] under the id it carries:
    an INSERT of the trade as opened (the exit columns NULL) and an
    UPDATE of that id with the trade's exit time, exit price, profit
    and loss and exit reason; the ids are the row ids handed out during
    the run, each above the last id before the run, and pairwise
    distinct.  With [dryRun] set, no statement is run and the sequence
    of row ids is left where it was. *)
Theorem simulate_persists_what_it_returns markets seq :
  (let s := simulate Number_toFixed3 Date_getTime config riskConfig
              maxVolatility classifications getPriceHistory runId startDate
              endDate false markets seq in
   List.NoDup (map bt_id (completedTrades s)) /\
   forall t, In t (completedTrades s) ->
     seq < bt_id t <= backtest_trades_seq s /\
     In (InsertBacktestTrade (as_opened t)) (statements s) /\
     exists exitTime exitPrice pnl exitReason,
       exit_time t = Some exitTime /\
       exit_price t = Some exitPrice /\
       Backtest.pnl t = Some pnl /\
       exit_reason t = Some exitReason /\
       In (UpdateBacktestTrade (bt_id t) exitTime exitPrice pnl exitReason)
          (statements s)) /\
  (let s := simulate Number_toFixed3 Date_getTime config riskConfig
              maxVolatility classifications getPriceHistory runId startDate
              endDate true markets seq in
   statements s = [] /\ backtest_trades_seq s = seq).
Proof.
  split.
  - intros s.
    assert (Hs : persisted runId seq s).
    { subst s. unfold simulate. apply fold_left_invariant.
      - unfold persisted, initial. cbn. split; [lia|].
        split; [constructor|]. split; [intros t []|].
        split; intros *; rewrite lookup_empty; discriminate.
      - intros a b _. apply market_persisted. }
    destruct Hs as (_ & Hnd & Hdone & _).
    split; [exact Hnd|]. intros t Ht.
    destruct (Hdone t Ht) as (? & ? & ?). auto.
  - intros s. subst s. unfold simulate.
    apply (fold_left_invariant
             (fun a => statements a = [] /\ backtest_trades_seq a = seq));
      [now split|].
    intros a b _ (Ea & Eb).
    destruct (market_dry a b) as (-> & ->). now split.
Qed.

End Persistence.

Lemma simulate_skips_volatile_markets_witness :
  Backtest.completedTrades
    (Backtest.simulate (H := scenarioFormat) scenarioFixed3 scenarioDate
       holdConfig noStop (Some Backtest.medium) {["m1" := Backtest.high]}
       marchHistory "run1" "2024-01-01" "2024-12-31" true [resolvedLater] 0)
  = [].
Proof.
  destruct (simulate_skips_volatile_markets (H := scenarioFormat)
              scenarioFixed3 scenarioDate holdConfig noStop
              (Some Backtest.medium) {["m1" := Backtest.high]} marchHistory
              "run1" "2024-01-01" "2024-12-31" true [resolvedLater] 0
              "m1" Backtest.high) as (_ & Hnone).
  - apply lookup_singleton_eq.
  - reflexivity.
  - destruct (Backtest.completedTrades _) as [|t l] eqn:E; [reflexivity|].
    exfalso. apply (Hnone t); [now left|].
    assert (Et : hd_error
                   (Backtest.completedTrades
                      (Backtest.simulate (H := scenarioFormat) scenarioFixed3
                         scenarioDate holdConfig noStop
                         (Some Backtest.medium) {["m1" := Backtest.high]}
                         marchHistory "run1" "2024-01-01" "2024-12-31" true
                         [resolvedLater] 0)) = Some t) by now rewrite E.
    vm_compute in Et. discriminate Et.
Defined.

Lemma simulate_one_position_at_a_time_witness :
  let s := Backtest.simulate (H := scenarioFormat) scenarioFixed3
             scenarioDate holdConfig noStop None ∅ marchHistory "run1"
             "2024-01-01" "2024-12-31" true [resolvedLater; resolvedLater] 0
  in
  Backtest.openPositions s = ∅ /\
  Backtest.currentExposure s = 0%float /\
  forall t, In t (Backtest.completedTrades s) ->
    Backtest.size_usd t = 10%float.
Proof.
  apply (simulate_one_position_at_a_time (H := scenarioFormat)
           scenarioFixed3 scenarioDate holdConfig noStop None ∅ marchHistory
           "run1" "2024-01-01" "2024-12-31" true eq_refl eq_refl
           [resolvedLater; resolvedLater] 0).
  repeat constructor; discriminate.
Defined.

(** *** The trades of a backtest follow the strategy *)

Section ByTheBook.

Import Convergence Backtest.

Context `{NumberFormat} (Number_toFixed3 : float -> string)
        (Date_getTime : string -> option Z)
        (config : StrategyConfig) (riskConfig : RiskConfig)
        (maxVolatility : option VolatilityLevel)
        (classifications : gmap string VolatilityLevel)
        (getPriceHistory : string -> list PricePoint)
        (runId startDate endDate : string) (dryRun : bool).

Local Abbreviation point :=
  (simulatePoint Number_toFixed3 Date_getTime config riskConfig maxVolatility
     classifications runId dryRun).
Local Abbreviation market_loop :=
  (simulateMarket Number_toFixed3 Date_getTime config riskConfig
     maxVolatility classifications getPriceHistory runId startDate endDate
     dryRun).
Local Abbreviation close := (closePosition runId dryRun).

Lemma entry_signal_in_band market pricePoint sig :
  checkEntryConditions Number_toFixed3 Date_getTime config market pricePoint
    = Some sig ->
  in_entry_band config (sig_side sig) (sig_entryPrice sig) = true.
Proof.
  unfold checkEntryConditions.
  destruct (negb _); [discriminate|].
  destruct (_ || _); [discriminate|].
  destruct ((entryPriceMin config <=? yes_price pricePoint)%float &&
            (yes_price pricePoint <=? entryPriceMax config)%float) eqn:Eyes.
  - intros [= <-]. exact Eyes.
  - destruct ((1 - entryPriceMax config <=? no_price pricePoint)%float &&
              (no_price pricePoint <=? 1 - entryPriceMin config)%float)
      eqn:Eno; [|discriminate].
    intros [= <-]. exact Eno.
Qed.

Lemma exit_signal_justified side entryPrice pricePoint market sig :
  checkExitConditions Date_getTime config riskConfig side entryPrice
    pricePoint market = Some sig ->
  exit_justified config riskConfig entryPrice (reason sig) (exitPrice sig).
Proof.
  unfold checkExitConditions.
  destruct (negb (holdToResolution config) && _) eqn:Et.
  { intros [= <-]. apply andb_prop in Et as [Hh Hp]. cbn. split; [|exact Hp].
    now destruct (holdToResolution config). }
  destruct (stopLossPercent riskConfig) as [pct|] eqn:Es;
    cbv beta iota zeta.
  - destruct (_ <=? entryPrice * _)%float eqn:El.
    + intros [= <-]. cbn. eauto.
    + destruct (outcome market), (resolution_date market) as [rd|];
        try discriminate.
      destruct (truthy_str rd); [|discriminate].
      destruct (Date_ge _ _); [|discriminate].
      intros [= <-]. cbn. destruct (TokenSide_eqb _ _); auto.
  - destruct (outcome market), (resolution_date market) as [rd|];
      try discriminate.
    destruct (truthy_str rd); [|discriminate].
    destruct (Date_ge _ _); [|discriminate].
    intros [= <-]. cbn. destruct (TokenSide_eqb _ _); auto.
Qed.

(** The invariant: open positions were entered inside the band with a
    positive size, and completed trades are by the book. *)
Lemma close_by_the_book market position t p r s :
  (forall m pos, openPositions s !! m = Some pos ->
     in_entry_band config (op_side pos) (op_entryPrice pos) = true /\
     (0 <? op_sizeUsd pos)%float = true) ->
  (forall t, In t (completedTrades s) -> by_the_book config riskConfig t) ->
  openPositions s !! id market = Some position ->
  exit_justified config riskConfig (op_entryPrice position) r p ->
  (forall m pos,
     openPositions (close market position t p r s) !! m = Some pos ->
     in_entry_band config (op_side pos) (op_entryPrice pos) = true /\
     (0 <? op_sizeUsd pos)%float = true) /\
  (forall t0, In t0 (completedTrades (close market position t p r s)) ->
     by_the_book config riskConfig t0).
Proof.
  intros Hopen Hdone Hpos Hexit. unfold closePosition.
  cbn [openPositions completedTrades]. split.
  - intros m pos Hm. apply lookup_delete_Some in Hm as (_ & Hm).
    now apply (Hopen m).
  - intros t0 Ht0. apply in_app_or in Ht0 as [Ht0|[<-|[]]];
      [now apply Hdone|].
    destruct (Hopen _ _ Hpos) as (Hband & Hsize).
    unfold by_the_book.
    cbn [bt_side entry_price size_usd exit_price exit_reason pnl].
    split; [exact Hband|]. split; [exact Hsize|].
    eexists _, _. repeat split. exact Hexit.
Qed.

Lemma point_by_the_book market s pricePoint :
  (forall m pos, openPositions s !! m = Some pos ->
     in_entry_band config (op_side pos) (op_entryPrice pos) = true /\
     (0 <? op_sizeUsd pos)%float = true) /\
  (forall t, In t (completedTrades s) -> by_the_book config riskConfig t) ->
  (forall m pos,
     openPositions (point market s pricePoint) !! m = Some pos ->
     in_entry_band config (op_side pos) (op_entryPrice pos) = true /\
     (0 <? op_sizeUsd pos)%float = true) /\
  (forall t, In t (completedTrades (point market s pricePoint)) ->
     by_the_book config riskConfig t).
Proof.
  intros Hs. unfold simulatePoint.
  set (s1 := match openPositions s !! id market with
             | Some position => _
             | None => s
             end).
  assert (H1 : (forall m pos, openPositions s1 !! m = Some pos ->
                  in_entry_band config (op_side pos) (op_entryPrice pos)
                    = true /\
                  (0 <? op_sizeUsd pos)%float = true) /\
               (forall t, In t (completedTrades s1) ->
                  by_the_book config riskConfig t)).
  { subst s1. destruct (openPositions s !! id market) as [position|] eqn:Ep;
      [|exact Hs].
    destruct (checkExitConditions _ _ _ _ _ _ _) as [sig|] eqn:Ex;
      [|exact Hs].
    destruct Hs as (Hopen & Hdone).
    apply close_by_the_book; try assumption.
    exact (exit_signal_justified _ _ _ _ _ Ex). }
  clearbody s1.
  destruct (negb _ && negb _); [|exact H1].
  destruct (volRank _ <? volRank _); [exact H1|].
  destruct (checkEntryConditions _ _ _ _ _) as [entrySignal|] eqn:En;
    [|exact H1].
  destruct (0 <? _)%float eqn:Hsize; [|exact H1].
  destruct H1 as (Hopen & Hdone).
  cbn [openPositions completedTrades]. split; [|exact Hdone].
  intros m pos Hm. apply lookup_insert_Some in Hm as [(_ & <-)|(_ & Hm)].
  - cbn [op_side op_entryPrice op_sizeUsd].
    split; [exact (entry_signal_in_band _ _ _ En) | exact Hsize].
  - now apply (Hopen m).
Qed.

Lemma market_by_the_book s market :
  (forall m pos, openPositions s !! m = Some pos ->
     in_entry_band config (op_side pos) (op_entryPrice pos) = true /\
     (0 <? op_sizeUsd pos)%float = true) /\
  (forall t, In t (completedTrades s) -> by_the_book config riskConfig t) ->
  (forall m pos,
     openPositions (market_loop s market) !! m = Some pos ->
     in_entry_band config (op_side pos) (op_entryPrice pos) = true /\
     (0 <? op_sizeUsd pos)%float = true) /\
  (forall t, In t (completedTrades (market_loop s market)) ->
     by_the_book config riskConfig t).
Proof.
  intros Hs. unfold simulateMarket.
  destruct (getPriceHistory (id market)) as [|first rest]; [exact Hs|].
  set (s1 := fold_left _ _ s).
  assert (H1 : (forall m pos, openPositions s1 !! m = Some pos ->
                  in_entry_band config (op_side pos) (op_entryPrice pos)
                    = true /\
                  (0 <? op_sizeUsd pos)%float = true) /\
               (forall t, In t (completedTrades s1) ->
                  by_the_book config riskConfig t)).
  { subst s1.
    apply (fold_left_invariant
             (fun a =>
                (forall m pos, openPositions a !! m = Some pos ->
                   in_entry_band config (op_side pos) (op_entryPrice pos)
                     = true /\
                   (0 <? op_sizeUsd pos)%float = true) /\
                (forall t, In t (completedTrades a) ->
                   by_the_book config riskConfig t)));
      [exact Hs|].
    intros a b _. apply point_by_the_book. }
  clearbody s1.
  destruct (openPositions s1 !! id market) as [position|] eqn:Ep;
    [|exact H1].
  destruct (outcome market) as [out|]; [|exact H1].
  destruct H1 as (Hopen & Hdone).
  apply close_by_the_book; try assumption.
  cbn. destruct (TokenSide_eqb _ _); auto.
Qed.

(** X24: the trades of a backtest follow the strategy.  Every trade
    that the simulation completes was entered at a price inside the
    entry band of its side ([entryPriceMin, entryPriceMax] for YES, the
    mirrored band for NO), with a positive size, and was closed for a
    reason that held at its exit price: ['target'] only when the
    strategy does not hold to resolution and the price had reached
    [exitPriceTarget]; ['stop_loss'] only when a stop-loss is configured
    and the price had fallen to [entryPrice * (1 - stopLossPercent /
    100)]; ['resolution'] only at price 1 or 0.  Its [pnl] is
    [calculatePnL] of its side, entry price, exit price and size. *)
Theorem simulate_trades_by_the_book markets seq t :
  In t (completedTrades
          (simulate Number_toFixed3 Date_getTime config riskConfig
             maxVolatility classifications getPriceHistory runId startDate
             endDate dryRun markets seq)) ->
  in_entry_band config (bt_side t) (entry_price t) = true /\
  (0 <? size_usd t)%float = true /\
  exists exitPrice exitReason,
    exit_price t = Some exitPrice /\
    exit_reason t = Some exitReason /\
    pnl t = Some (calculatePnL (bt_side t) (entry_price t) exitPrice
                    (size_usd t)) /\
    match exitReason with
    | target =>
        holdToResolution config = false /\
        (exitPriceTarget config <=? exitPrice)%float = true
    | stop_loss =>
        exists pct,
          stopLossPercent riskConfig = Some pct /\
          (exitPrice <=? entry_price t * (1 - pct / 100))%float = true
    | resolution => exitPrice = 1%float \/ exitPrice = 0%float
    end.
Proof.
  intros Ht.
  assert (Hs : (forall m pos,
                  openPositions
                    (simulate Number_toFixed3 Date_getTime config riskConfig
                       maxVolatility classifications getPriceHistory runId
                       startDate endDate dryRun markets seq) !! m = Some pos ->
                  in_entry_band config (op_side pos) (op_entryPrice pos)
                    = true /\
                  (0 <? op_sizeUsd pos)%float = true) /\
               (forall t,
                  In t (completedTrades
                          (simulate Number_toFixed3 Date_getTime config
                             riskConfig maxVolatility classifications
                             getPriceHistory runId startDate endDate dryRun
                             markets seq)) ->
                  by_the_book config riskConfig t)).
  { unfold simulate.
    apply (fold_left_invariant
             (fun a =>
                (forall m pos, openPositions a !! m = Some pos ->
                   in_entry_band config (op_side pos) (op_entryPrice pos)
                     = true /\
                   (0 <? op_sizeUsd pos)%float = true) /\
                (forall t, In t (completedTrades a) ->
                   by_the_book config riskConfig t))).
    - split; [|intros t0 []].
      intros m pos Hm. unfold initial in Hm. cbn [openPositions] in Hm.
      rewrite lookup_empty in Hm. discriminate.
    - intros a b _. apply market_by_the_book. }
  destruct Hs as (_ & Hdone). exact (Hdone t Ht).
Qed.

End ByTheBook.

Lemma simulate_trades_by_the_book_witness :
  exists t,
    Backtest.completedTrades
      (Backtest.simulate (H := scenarioFormat) scenarioFixed3 scenarioDate
         holdConfig noStop None ∅ marchHistory "run1" "2024-01-01"
         "2024-12-31" true [resolvedLater] 0) = [t] /\
    in_entry_band holdConfig (Backtest.bt_side t) (Backtest.entry_price t)
      = true /\
    Backtest.exit_reason t = Some Convergence.resolution /\
    Backtest.pnl t = Some 6%float.
Proof.
  eexists. split; [vm_compute; reflexivity|].
  destruct (simulate_trades_by_the_book (H := scenarioFormat) scenarioFixed3
              scenarioDate holdConfig noStop None ∅ marchHistory "run1"
              "2024-01-01" "2024-12-31" true [resolvedLater] 0
              (Backtest.mkBacktestTrade 1 "run1" "m1" YES
                 "2024-03-01T00:00:00.000Z" 0.625
                 (Some "2024-03-02T00:00:00.000Z") (Some 1%float) 10
                 (Some 6%float) (Some Convergence.resolution)))
    as (Hband & _).
  - vm_compute. now left.
  - split; [exact Hband|]. split; reflexivity.
Defined.
